(** * The process-orchestration server (server.js)

    A shallow embedding of the WebSocket command server: the registry of
    running processes, the command handlers ([runProject], [stopProject],
    [openFolder], [cleanProject]), the listeners attached to spawned
    children, the status broadcast and the HTTP request listener,
    followed by the properties of the specification that concern them
    and by further properties of the same code.

    Modelling choices.
    - The server is single threaded: every handler runs to completion, so
      the server is a transition function [step] over the inputs the event
      loop delivers (connections, frames, child-process events).
    - [runningProcesses] is a JavaScript [Map]; it iterates in insertion
      order, which the status broadcast exposes, so it is an association
      list with the [has]/[get]/[set]/[delete] of [Map].
    - A handler reads and writes the registry, sends frames, spawns and
      signals processes and may throw: handlers live in a small monad [M]
      that threads the state, logs the effects and carries the completion.
    - What the handlers ask of the outside (does a directory exist, what
      does [spawn] do) comes with the input as a [world].
    - Inbound frames are the protocol's: a frame either does not parse, or
      is an object whose [action], [projectPath], [projectName] are strings
      and whose [command] is an optional string.  The message listener is
      embedded a second time over whatever [JSON.parse] may return, for
      the property of what every outbound frame carries, which frames of
      other shapes decide.
    - [ws.send] is logged as a [Send] to its connection, whether or not
      the socket is still open; [console.log] is left out. *)

From Stdlib Require Import String Ascii List ZArith Bool Arith Lia DecimalString.
Import ListNotations.
Open Scope string_scope.
Set Warnings "-register-all".

(** ** JavaScript values that reach the wire *)

Inductive json : Type :=
| JNull
| JNum (z : Z)
| JStr (s : string)
| JArr (items : list json)
| JObj (fields : list (string * json)).

(** Property lookup on a serialised object. *)
Fixpoint lookup_field (k : string) (fields : list (string * json)) : option json :=
  match fields with
  | [] => None
  | (k', v) :: rest => if k' =? k then Some v else lookup_field k rest
  end.

Definition field (k : string) (msg : json) : option json :=
  match msg with
  | JObj fields => lookup_field k fields
  | _ => None
  end.

Definition has_field (k : string) (msg : json) : bool :=
  match field k msg with Some _ => true | None => false end.

(** The [type] tag of an outbound event. *)
Definition msg_type (msg : json) : option string :=
  match field "type" msg with
  | Some (JStr t) => Some t
  | _ => None
  end.

Definition is_type (t : string) (msg : json) : bool :=
  match msg_type msg with
  | Some t' => t' =? t
  | None => false
  end.

(** [JSON.stringify] leaves out a property whose value is [undefined]. *)
Fixpoint JSON_stringify (fields : list (string * option json)) : list (string * json) :=
  match fields with
  | [] => []
  | (k, Some v) :: rest => (k, v) :: JSON_stringify rest
  | (_, None) :: rest => JSON_stringify rest
  end.

(** A number inside a template literal. *)
Definition show_number (z : Z) : string := NilZero.string_of_int (Z.to_int z).

(** [String.prototype.includes]. *)
Fixpoint includes (needle s : string) : bool :=
  prefix needle s ||
  match s with
  | EmptyString => false
  | String _ rest => includes needle rest
  end.

(** [command || fallback]: the empty string is falsy, like [undefined]. *)
Definition or_default (command : option string) (fallback : string) : string :=
  match command with
  | Some EmptyString | None => fallback
  | Some c => c
  end.

(** ** The registry of running processes *)

(** Identity of a WebSocket connection and of a [ChildProcess] object. *)
Definition conn := nat.
Definition child := nat.

(** The value stored per project: [{ name, path, pid, process }].  [pid] is
    [undefined] for a child whose spawn failed. *)
Record proc : Type := {
  name : string;
  path : string;
  pid : option Z;
  process : child
}.

Definition Map := list (string * proc).

Fixpoint Map_get (m : Map) (k : string) : option proc :=
  match m with
  | [] => None
  | (k', v) :: rest => if k' =? k then Some v else Map_get rest k
  end.

Definition Map_has (m : Map) (k : string) : bool :=
  match Map_get m k with Some _ => true | None => false end.

(** [set] overwrites in place or appends. *)
Fixpoint Map_set (m : Map) (k : string) (v : proc) : Map :=
  match m with
  | [] => [(k, v)]
  | (k', v') :: rest =>
      if k' =? k then (k, v) :: rest else (k', v') :: Map_set rest k v
  end.

Fixpoint Map_delete (m : Map) (k : string) : Map :=
  match m with
  | [] => []
  | (k', v') :: rest =>
      if k' =? k then rest else (k', v') :: Map_delete rest k
  end.

(** Number of entries stored under a key. *)
Fixpoint entries_for (k : string) (m : Map) : nat :=
  match m with
  | [] => 0
  | (k', _) :: rest => (if k' =? k then 1 else 0) + entries_for k rest
  end.

(** ** Server state, effects and the handler monad *)

(** The listeners a handler attaches to a child; each closes over the
    connection and the project of the command that spawned it. *)
Inductive listeners : Type :=
| RunListeners (ws : conn) (projectPath : string)
| CleanListeners (ws : conn) (projectPath projectName : string).

Record state : Type := {
  runningProcesses : Map;
  clients : list conn;                 (* wss.clients that are OPEN *)
  handlers : list (child * listeners); (* listeners attached so far *)
  next_child : child;                  (* children spawned so far *)
  alive : bool                         (* false once the process has died *)
}.

Definition initial : state :=
  {| runningProcesses := []; clients := []; handlers := [];
     next_child := 0; alive := true |}.

Inductive spawn_options : Type :=
| RunOptions (cwd : string)   (* { cwd, env: { ...process.env, FORCE_COLOR: '1' } } *)
| Detached                    (* { detached: true } *)
| ShellTrue                   (* { shell: true } *)
| NoOptions.

(** What a handler does to the outside. *)
Inductive effect : Type :=
| Send (ws : conn) (msg : json)
| Spawn (c : child) (file : string) (args : list string) (options : spawn_options)
| Kill (c : child) (signal : string).

(** [spawn] either throws, or returns a child whose [pid] is [undefined]
    when the launch failed (the failure then arrives as an [error] event). *)
Inductive spawn_outcome : Type :=
| SpawnThrows (message : string)
| SpawnReturns (pid : option Z).

Record world : Type := {
  existsSync : string -> bool;
  spawn_oracle : spawn_outcome
}.

Inductive completion (A : Type) : Type :=
| Normal (a : A)
| Throw (message : string)
| Diverge.
Arguments Normal {A} a.
Arguments Throw {A} message.
Arguments Diverge {A}.

Definition M (A : Type) : Type := state -> completion A * state * list effect.

Definition ret {A : Type} (a : A) : M A := fun s => (Normal a, s, []).

Definition bind {A B : Type} (m : M A) (k : A -> M B) : M B :=
  fun s =>
    match m s with
    | (Normal a, s1, e1) =>
        match k a s1 with (r, s2, e2) => (r, s2, (e1 ++ e2)%list) end
    | (Throw message, s1, e1) => (Throw message, s1, e1)
    | (Diverge, s1, e1) => (Diverge, s1, e1)
    end.

Notation "x <- m ;; k" := (bind m (fun x => k))
  (at level 61, m at next level, right associativity).
Notation "m ;; k" := (bind m (fun _ => k))
  (at level 61, right associativity).

Definition throw {A : Type} (message : string) : M A :=
  fun s => (Throw message, s, []).

Definition diverge {A : Type} : M A := fun s => (Diverge, s, []).

(** [try { m } catch (e) { h e.message }]. *)
Definition try_catch (m : M unit) (h : string -> M unit) : M unit :=
  fun s =>
    match m s with
    | (Throw message, s1, e1) =>
        match h message s1 with (r, s2, e2) => (r, s2, (e1 ++ e2)%list) end
    | other => other
    end.

Definition with_running (f : Map -> Map) (s : state) : state :=
  {| runningProcesses := f (runningProcesses s); clients := clients s;
     handlers := handlers s; next_child := next_child s; alive := alive s |}.

Definition has (k : string) : M bool :=
  fun s => (Normal (Map_has (runningProcesses s) k), s, []).

Definition get (k : string) : M (option proc) :=
  fun s => (Normal (Map_get (runningProcesses s) k), s, []).

Definition set (k : string) (v : proc) : M unit :=
  fun s => (Normal tt, with_running (fun m => Map_set m k v) s, []).

Definition delete (k : string) : M unit :=
  fun s => (Normal tt, with_running (fun m => Map_delete m k) s, []).

(** [ws.send(JSON.stringify(msg))]. *)
Definition send (ws : conn) (msg : json) : M unit :=
  fun s => (Normal tt, s, [Send ws msg]).

Definition spawn (w : world) (file : string) (args : list string)
    (options : spawn_options) : M (child * option Z) :=
  match spawn_oracle w with
  | SpawnThrows message => throw message
  | SpawnReturns pid =>
      fun s =>
        (Normal (next_child s, pid),
         {| runningProcesses := runningProcesses s; clients := clients s;
            handlers := handlers s; next_child := S (next_child s);
            alive := alive s |},
         [Spawn (next_child s) file args options])
  end.

(** [child.stdout.on(...)], [child.on('error', ...)], [child.on('close', ...)]. *)
Definition on (c : child) (l : listeners) : M unit :=
  fun s =>
    (Normal tt,
     {| runningProcesses := runningProcesses s; clients := clients s;
        handlers := (handlers s ++ [(c, l)])%list; next_child := next_child s;
        alive := alive s |},
     []).

Definition kill (c : child) (signal : string) : M unit :=
  fun s => (Normal tt, s, [Kill c signal]).

(** ** broadcastStatus (server.js 326-339) *)

Definition status_entry (e : string * proc) : json :=
  let (id, proc) := e in
  JObj (JSON_stringify
          [("id", Some (JStr id)); ("name", Some (JStr (name proc)));
           ("path", Some (JStr (path proc)));
           ("pid", option_map JNum (pid proc))]).

Definition running_list (m : Map) : json := JArr (map status_entry m).

Definition status_message (m : Map) : json :=
  JObj [("type", JStr "status"); ("running", running_list m)].

Definition broadcastStatus : M unit :=
  fun s =>
    (Normal tt, s,
     map (fun client => Send client (status_message (runningProcesses s)))
         (clients s)).

(** The body of the [/api/running] response (server.js 53-61). *)
Definition api_running (s : state) : json := running_list (runningProcesses s).

(** ** The handlers *)

(** An inbound command: [{ action, projectPath, projectName, command? }]. *)
Record command_message : Type := {
  action : string;
  projectPath : string;
  projectName : string;
  command : option string
}.

(** A frame as [JSON.parse] sees it: it throws, or returns the command. *)
Inductive frame : Type :=
| Unparsable (message : string)
| Parsed (data : command_message).

Section Server.

(** [process.platform] and [path.join] of the host. *)
Variable platform : string.
Variable path_join : string -> string -> string.

(** runProject (server.js 147-236).  [fuel] bounds the depth of the
    self-call; [Diverge] is the answer when it runs out. *)
Fixpoint runProject_fuel (fuel : nat) (w : world) (ws : conn)
    (projectPath projectName command : string) : M unit :=
  match fuel with
  | O => diverge
  | S fuel' =>
      running <- has projectPath ;;
      if running then
        send ws (JObj [("type", JStr "error");
                       ("projectPath", JStr projectPath);
                       ("message", JStr (projectName ++ " is already running! Stop it first."))])
      else
        let nmPath := path_join projectPath "node_modules" in
        if negb (existsSync w nmPath) && negb (includes "install" command) then
          send ws (JObj [("type", JStr "warning");
                         ("projectPath", JStr projectPath);
                         ("message", JStr "node_modules not found. Installing dependencies first...")]) ;;
          runProject_fuel fuel' w ws projectPath projectName "npm install"
        else
          send ws (JObj [("type", JStr "start");
                         ("projectPath", JStr projectPath);
                         ("projectName", JStr projectName);
                         ("command", JStr command);
                         ("message", JStr ("Starting " ++ projectName ++ "..."))]) ;;
          let isWindows := platform =? "win32" in
          let shell := if isWindows then "cmd.exe" else "/bin/sh" in
          let shellFlag := if isWindows then "/c" else "-c" in
          spawned <- spawn w shell [shellFlag; command] (RunOptions projectPath) ;;
          set projectPath {| name := projectName; path := projectPath;
                             pid := snd spawned; process := fst spawned |} ;;
          broadcastStatus ;;
          on (fst spawned) (RunListeners ws projectPath)
  end.

(** Two levels are all the self-call ever uses (proved below: the
    command of the self-call contains [install]), so this is the function
    the server runs. *)
Definition runProject : world -> conn -> string -> string -> string -> M unit :=
  runProject_fuel 2.

(** [proc.pid] as an argument of [taskkill]. *)
Definition pid_argument (pid : option Z) : string :=
  match pid with
  | Some z => show_number z
  | None => "undefined"
  end.

(** stopProject (server.js 238-270). *)
Definition stopProject (w : world) (ws : conn) (projectPath : string) : M unit :=
  found <- get projectPath ;;
  match found with
  | None =>
      send ws (JObj [("type", JStr "error");
                     ("projectPath", JStr projectPath);
                     ("message", JStr "Process not found or already stopped")])
  | Some proc =>
      send ws (JObj [("type", JStr "info");
                     ("projectPath", JStr projectPath);
                     ("message", JStr ("Stopping " ++ name proc ++ "..."))]) ;;
      (if platform =? "win32" then
         _ <- spawn w "taskkill" ["/pid"; pid_argument (pid proc); "/f"; "/t"] NoOptions ;;
         ret tt
       else
         kill (process proc) "SIGTERM") ;;
      delete projectPath ;;
      broadcastStatus ;;
      send ws (JObj [("type", JStr "stopped");
                     ("projectPath", JStr projectPath);
                     ("message", JStr (name proc ++ " stopped"))])
  end.

(** openFolder (server.js 272-283). *)
Definition openFolder (w : world) (ws : conn) (projectPath : string) : M unit :=
  let cmd := if platform =? "win32" then "explorer"
             else if platform =? "darwin" then "open" else "xdg-open" in
  _ <- spawn w cmd [projectPath] Detached ;;
  send ws (JObj [("type", JStr "info");
                 ("projectPath", JStr projectPath);
                 ("message", JStr ("Opened folder: " ++ projectPath))]).

(** cleanProject (server.js 285-324). *)
Definition cleanProject (w : world) (ws : conn)
    (projectPath projectName : string) : M unit :=
  let nmPath := path_join projectPath "node_modules" in
  if negb (existsSync w nmPath) then
    send ws (JObj [("type", JStr "info");
                   ("projectPath", JStr projectPath);
                   ("message", JStr (projectName ++ " has no node_modules to clean"))])
  else
    send ws (JObj [("type", JStr "info");
                   ("projectPath", JStr projectPath);
                   ("message", JStr ("Cleaning node_modules from " ++ projectName ++ "..."))]) ;;
    let isWindows := platform =? "win32" in
    let cmd := if isWindows then "rmdir" else "rm" in
    let args := if isWindows then ["/s"; "/q"; nmPath] else ["-rf"; nmPath] in
    spawned <- spawn w cmd args ShellTrue ;;
    on (fst spawned) (CleanListeners ws projectPath projectName).

(** handleCommand (server.js 120-145). *)
Definition handleCommand (w : world) (ws : conn) (data : command_message) : M unit :=
  let a := action data in
  if a =? "run" then
    runProject w ws (projectPath data) (projectName data)
               (or_default (command data) "npm run dev")
  else if a =? "deploy" then
    runProject w ws (projectPath data) (projectName data)
               (or_default (command data) "npm run deploy")
  else if a =? "install" then
    runProject w ws (projectPath data) (projectName data) "npm install"
  else if a =? "stop" then
    stopProject w ws (projectPath data)
  else if a =? "open" then
    openFolder w ws (projectPath data)
  else if a =? "clean" then
    cleanProject w ws (projectPath data) (projectName data)
  else
    send ws (JObj [("type", JStr "error");
                   ("message", JStr ("Unknown action: " ++ a))]).

(** The [message] listener of a connection (server.js 106-113). *)
Definition on_message (w : world) (ws : conn) (message : frame) : M unit :=
  try_catch
    (match message with
     | Unparsable e => throw e
     | Parsed data => handleCommand w ws data
     end)
    (fun e => send ws (JObj [("type", JStr "error"); ("message", JStr e)])).

(** ** Child-process events *)

Fixpoint listeners_of (c : child) (hs : list (child * listeners)) : option listeners :=
  match hs with
  | [] => None
  | (c', l) :: rest => if Nat.eqb c' c then Some l else listeners_of c rest
  end.

Definition attached (c : child) : M (option listeners) :=
  fun s => (Normal (listeners_of c (handlers s)), s, []).

(** [child.stdout.on('data', ...)] (server.js 200-206). *)
Definition child_stdout (c : child) (data : string) : M unit :=
  l <- attached c ;;
  match l with
  | Some (RunListeners ws projectPath) =>
      send ws (JObj [("type", JStr "stdout");
                     ("projectPath", JStr projectPath);
                     ("data", JStr data)])
  | _ => ret tt
  end.

(** [child.stderr.on('data', ...)] (server.js 208-214). *)
Definition child_stderr (c : child) (data : string) : M unit :=
  l <- attached c ;;
  match l with
  | Some (RunListeners ws projectPath) =>
      send ws (JObj [("type", JStr "stderr");
                     ("projectPath", JStr projectPath);
                     ("data", JStr data)])
  | _ => ret tt
  end.

(** [child.on('error', ...)] (server.js 216-224).  A child without an
    [error] listener makes the emitter throw. *)
Definition child_error (c : child) (message : string) : M unit :=
  l <- attached c ;;
  match l with
  | Some (RunListeners ws projectPath) =>
      send ws (JObj [("type", JStr "error");
                     ("projectPath", JStr projectPath);
                     ("message", JStr message)]) ;;
      delete projectPath ;;
      broadcastStatus
  | _ => throw message
  end.

(** The [code] of a [close] event: a number, or [null] after a signal. *)
Definition code_json (code : option Z) : json :=
  match code with Some z => JNum z | None => JNull end.

Definition code_text (code : option Z) : string :=
  match code with Some z => show_number z | None => "null" end.

Definition code_is_zero (code : option Z) : bool :=
  match code with Some z => Z.eqb z 0 | None => false end.

(** [child.on('close', ...)] (server.js 226-235 and 309-323). *)
Definition child_close (c : child) (code : option Z) : M unit :=
  l <- attached c ;;
  match l with
  | Some (RunListeners ws projectPath) =>
      send ws (JObj [("type", JStr "exit");
                     ("projectPath", JStr projectPath);
                     ("code", code_json code);
                     ("message", JStr (if code_is_zero code
                                       then "Process completed successfully"
                                       else "Process exited with code " ++ code_text code))]) ;;
      delete projectPath ;;
      broadcastStatus
  | Some (CleanListeners ws projectPath projectName) =>
      if code_is_zero code then
        send ws (JObj [("type", JStr "success");
                       ("projectPath", JStr projectPath);
                       ("message", JStr ("Cleaned node_modules from " ++ projectName))])
      else
        send ws (JObj [("type", JStr "error");
                       ("projectPath", JStr projectPath);
                       ("message", JStr ("Failed to clean " ++ projectName))])
  | None => ret tt
  end.

(** ** The event loop *)

Inductive input : Type :=
| Connection (ws : conn)
| Disconnect (ws : conn)
| Message (ws : conn) (message : frame) (w : world)
| ChildStdout (c : child) (data : string)
| ChildStderr (c : child) (data : string)
| ChildError (c : child) (message : string)
| ChildClose (c : child) (code : option Z).

Definition mem (ws : conn) (l : list conn) : bool := existsb (Nat.eqb ws) l.

Definition with_clients (f : list conn -> list conn) (s : state) : state :=
  {| runningProcesses := runningProcesses s; clients := f (clients s);
     handlers := handlers s; next_child := next_child s; alive := alive s |}.

Definition crash (s : state) : state :=
  {| runningProcesses := runningProcesses s; clients := clients s;
     handlers := handlers s; next_child := next_child s; alive := false |}.

(** A listener that returns leaves the server running; an exception that
    nothing catches, or a listener that never returns, ends it. *)
Definition run_listener (m : M unit) (s : state) : state * list effect :=
  match m s with
  | (Normal _, s', es) => (s', es)
  | (Throw _, s', es) => (crash s', es)
  | (Diverge, s', es) => (crash s', es)
  end.

Definition step (s : state) (i : input) : state * list effect :=
  if alive s then
    match i with
    | Connection ws =>
        (with_clients (fun l => if mem ws l then l else (l ++ [ws])%list) s, [])
    | Disconnect ws =>
        (with_clients (filter (fun c => negb (Nat.eqb c ws))) s, [])
    | Message ws message w => run_listener (on_message w ws message) s
    | ChildStdout c data => run_listener (child_stdout c data) s
    | ChildStderr c data => run_listener (child_stderr c data) s
    | ChildError c message => run_listener (child_error c message) s
    | ChildClose c code => run_listener (child_close c code) s
    end
  else (s, []).

(** A run of the server: the final state and everything it did. *)
Fixpoint exec (s : state) (inputs : list input) : state * list effect :=
  match inputs with
  | [] => (s, [])
  | i :: rest =>
      let (s1, e1) := step s i in
      let (s2, e2) := exec s1 rest in
      (s2, (e1 ++ e2)%list)
  end.

(** What the wire shows of the registry: is a project listed in a
    [status] message (or in the [/api/running] array)? *)
Definition entry_has_id (p : string) (item : json) : bool :=
  match field "id" item with
  | Some (JStr id) => id =? p
  | _ => false
  end.

Definition array_lists (p : string) (running : json) : bool :=
  match running with
  | JArr items => existsb (entry_has_id p) items
  | _ => false
  end.

Definition status_lists (p : string) (msg : json) : bool :=
  match field "running" msg with
  | Some running => array_lists p running
  | None => false
  end.

(** The actions that reach [runProject], and those [handleCommand] knows. *)
Definition is_start (a : string) : bool :=
  (a =? "run") || (a =? "deploy") || (a =? "install").

Definition recognized (a : string) : bool :=
  is_start a || (a =? "stop") || (a =? "open") || (a =? "clean").

(** States the server can be in. *)
Definition reachable (s : state) : Prop :=
  exists inputs, s = fst (exec initial inputs).

(** What holds of every reachable state: one entry per key at most, and
    no listener on a child that is still to be spawned. *)
Definition unique_keys (m : Map) : Prop := forall k, entries_for k m <= 1.

Definition fresh_children (s : state) : Prop :=
  forall c, next_child s <= c -> listeners_of c (handlers s) = None.

Definition consistent (s : state) : Prop :=
  unique_keys (runningProcesses s) /\ fresh_children s.

(** ** Names for what the handlers produce

    The events below are the object literals of the handlers, named so
    that statements can mention them. *)

Definition already_running_event (p n : string) : json :=
  JObj [("type", JStr "error"); ("projectPath", JStr p);
        ("message", JStr (n ++ " is already running! Stop it first."))].

Definition warning_event (p : string) : json :=
  JObj [("type", JStr "warning"); ("projectPath", JStr p);
        ("message", JStr "node_modules not found. Installing dependencies first...")].

Definition start_event (p n cmd : string) : json :=
  JObj [("type", JStr "start"); ("projectPath", JStr p);
        ("projectName", JStr n); ("command", JStr cmd);
        ("message", JStr ("Starting " ++ n ++ "..."))].

Definition not_found_event (p : string) : json :=
  JObj [("type", JStr "error"); ("projectPath", JStr p);
        ("message", JStr "Process not found or already stopped")].

Definition process_error_event (p e : string) : json :=
  JObj [("type", JStr "error"); ("projectPath", JStr p); ("message", JStr e)].

Definition exit_event (p : string) (code : option Z) : json :=
  JObj [("type", JStr "exit"); ("projectPath", JStr p);
        ("code", code_json code);
        ("message", JStr (if code_is_zero code
                          then "Process completed successfully"
                          else "Process exited with code " ++ code_text code))].

Definition nothing_to_clean_event (p n : string) : json :=
  JObj [("type", JStr "info"); ("projectPath", JStr p);
        ("message", JStr (n ++ " has no node_modules to clean"))].

Definition cleaning_event (p n : string) : json :=
  JObj [("type", JStr "info"); ("projectPath", JStr p);
        ("message", JStr ("Cleaning node_modules from " ++ n ++ "..."))].

Definition cleaned_event (p n : string) : json :=
  JObj [("type", JStr "success"); ("projectPath", JStr p);
        ("message", JStr ("Cleaned node_modules from " ++ n))].

Definition clean_failed_event (p n : string) : json :=
  JObj [("type", JStr "error"); ("projectPath", JStr p);
        ("message", JStr ("Failed to clean " ++ n))].

(** The error event of the [catch] in the message listener and of the
    [default] case of [handleCommand]: no [projectPath]. *)
Definition bare_error_event (e : string) : json :=
  JObj [("type", JStr "error"); ("message", JStr e)].

(** The status frames one broadcast sends. *)
Definition broadcast (s : state) : list effect :=
  map (fun client => Send client (status_message (runningProcesses s))) (clients s).

(** The shell [runProject] hands the command to. *)
Definition shell : string := if platform =? "win32" then "cmd.exe" else "/bin/sh".
Definition shellFlag : string := if platform =? "win32" then "/c" else "-c".

(** Does [runProject] install instead of running the command? *)
Definition installs_first (w : world) (p cmd : string) : bool :=
  negb (existsSync w (path_join p "node_modules")) && negb (includes "install" cmd).

(** The state after [runProject] has spawned, stored and listened. *)
Definition launched (s : state) (ws : conn) (p n : string) (pid : option Z) : state :=
  {| runningProcesses :=
       Map_set (runningProcesses s) p
               {| name := n; path := p; pid := pid; process := next_child s |};
     clients := clients s;
     handlers := (handlers s ++ [(next_child s, RunListeners ws p)])%list;
     next_child := S (next_child s);
     alive := alive s |}.

(** The removal [cleanProject] spawns. *)
Definition removal_file : string := if platform =? "win32" then "rmdir" else "rm".
Definition removal_args (p : string) : list string :=
  if platform =? "win32" then ["/s"; "/q"; path_join p "node_modules"]
  else ["-rf"; path_join p "node_modules"].

(** The state after [cleanProject] has spawned and listened. *)
Definition cleaning (s : state) (ws : conn) (p n : string) : state :=
  {| runningProcesses := runningProcesses s;
     clients := clients s;
     handlers := (handlers s ++ [(next_child s, CleanListeners ws p n)])%list;
     next_child := S (next_child s);
     alive := alive s |}.

(** Sample host and inputs for the concrete runs. *)
Definition posix_join (a b : string) : string := a ++ "/" ++ b.

Definition world_of (exists_nm : bool) (o : spawn_outcome) : world :=
  {| existsSync := fun _ => exists_nm; spawn_oracle := o |}.

Definition request (a p n : string) (cmd : option string) : frame :=
  Parsed {| action := a; projectPath := p; projectName := n; command := cmd |}.

(** Two clients, and project [/p] started by the first. *)
Definition demo_inputs : list input :=
  [Connection 1; Connection 2;
   Message 1 (request "run" "/p" "P" (Some "npm start"))
           (world_of true (SpawnReturns (Some 4242%Z)))].

(** An install for a project directory that does not exist: [spawn]
    returns a child without a pid, whose [error] event is still to come. *)
Definition failed_install : list input :=
  [Connection 1;
   Message 1 (request "install" "/p" "P" None) (world_of false (SpawnReturns None))].

(** The command a start action hands to [runProject] (the three cases of
    [handleCommand]). *)
Definition start_command (data : command_message) : string :=
  if action data =? "run" then or_default (command data) "npm run dev"
  else if action data =? "deploy" then or_default (command data) "npm run deploy"
  else "npm install".

(** Inputs that take the entry of [p] away: the [close] or [error] event
    of a child [runProject] spawned for [p], and a [stop] command for
    [p]. *)
Definition ends (p : string) (s : state) (i : input) : bool :=
  match i with
  | ChildClose c _ | ChildError c _ =>
      match listeners_of c (handlers s) with
      | Some (RunListeners _ q) => q =? p
      | _ => false
      end
  | Message _ (Parsed data) _ => (action data =? "stop") && (projectPath data =? p)
  | _ => false
  end.

(** No input of the run takes the entry of [p] away. *)
Fixpoint undisturbed (p : string) (s : state) (inputs : list input) : bool :=
  match inputs with
  | [] => true
  | i :: rest => negb (ends p s i) && undisturbed p (fst (step s i)) rest
  end.

(** Frames the message listener answers with a bare error: those that do
    not parse and those whose action [handleCommand] does not know. *)
Definition malformed (message : frame) : bool :=
  match message with
  | Unparsable _ => true
  | Parsed data => negb (recognized (action data))
  end.

Definition malformed_error (message : frame) : string :=
  match message with
  | Unparsable e => e
  | Parsed data => "Unknown action: " ++ action data
  end.

(** The ways one input can change the registry. *)
Inductive registry_change (s : state) (i : input) (m' : Map) : Prop :=
| Unchanged :
    m' = runningProcesses s -> registry_change s i m'
| Created (ws : conn) (data : command_message) (w : world) (pid : option Z) :
    i = Message ws (Parsed data) w ->
    is_start (action data) = true ->
    spawn_oracle w = SpawnReturns pid ->
    Map_has (runningProcesses s) (projectPath data) = false ->
    m' = runningProcesses (launched s ws (projectPath data) (projectName data) pid) ->
    registry_change s i m'
| Stopped (ws : conn) (data : command_message) (w : world) :
    i = Message ws (Parsed data) w ->
    action data = "stop" ->
    Map_has (runningProcesses s) (projectPath data) = true ->
    m' = Map_delete (runningProcesses s) (projectPath data) ->
    registry_change s i m'
| Exited (c : child) (code : option Z) (ws : conn) (p : string) :
    i = ChildClose c code ->
    listeners_of c (handlers s) = Some (RunListeners ws p) ->
    m' = Map_delete (runningProcesses s) p ->
    registry_change s i m'
| Errored (c : child) (e : string) (ws : conn) (p : string) :
    i = ChildError c e ->
    listeners_of c (handlers s) = Some (RunListeners ws p) ->
    m' = Map_delete (runningProcesses s) p ->
    registry_change s i m'.

(** ** Names for the rest of the handlers *)

Definition stopping_event (p n : string) : json :=
  JObj [("type", JStr "info"); ("projectPath", JStr p);
        ("message", JStr ("Stopping " ++ n ++ "..."))].

Definition stopped_event (p n : string) : json :=
  JObj [("type", JStr "stopped"); ("projectPath", JStr p);
        ("message", JStr (n ++ " stopped"))].

Definition opened_event (p : string) : json :=
  JObj [("type", JStr "info"); ("projectPath", JStr p);
        ("message", JStr ("Opened folder: " ++ p))].

Definition stdout_event (p data : string) : json :=
  JObj [("type", JStr "stdout"); ("projectPath", JStr p); ("data", JStr data)].

Definition stderr_event (p data : string) : json :=
  JObj [("type", JStr "stderr"); ("projectPath", JStr p); ("data", JStr data)].

(** How [stopProject] ends the process of an entry: [taskkill] on
    Windows (a new child [c]), a signal elsewhere. *)
Definition termination (v : proc) (c : child) : effect :=
  if platform =? "win32"
  then Spawn c "taskkill" ["/pid"; pid_argument (pid v); "/f"; "/t"] NoOptions
  else Kill (process v) "SIGTERM".

(** The state after [stopProject] has removed the entry of [p]. *)
Definition stopped (s : state) (p : string) : state :=
  {| runningProcesses := Map_delete (runningProcesses s) p;
     clients := clients s;
     handlers := handlers s;
     next_child := if platform =? "win32" then S (next_child s) else next_child s;
     alive := alive s |}.

(** The file manager [openFolder] launches. *)
Definition file_manager : string :=
  if platform =? "win32" then "explorer"
  else if platform =? "darwin" then "open" else "xdg-open".

(** The state after a spawn that attached no listener. *)
Definition after_spawn (s : state) : state :=
  {| runningProcesses := runningProcesses s; clients := clients s;
     handlers := handlers s; next_child := S (next_child s); alive := alive s |}.

(** [/p] started, stopped and started again by client 1. *)
Definition restart_inputs : list input :=
  [Connection 1;
   Message 1 (request "run" "/p" "P" (Some "npm start"))
           (world_of true (SpawnReturns (Some 4242%Z)));
   Message 1 (request "stop" "/p" "P" None) (world_of true (SpawnReturns None));
   Message 1 (request "run" "/p" "P" (Some "npm start"))
           (world_of true (SpawnReturns (Some 4243%Z)))].

(** Effects that contain no status frame. *)
Definition quiet (es : list effect) : Prop :=
  forall c msg, In (Send c msg) es -> is_type "status" msg = false.

(** The status frames among [es] carry the registry of [s'] and go to
    its clients; and if the registry of [s'] is not that of [s], every
    client of [s'] gets one. *)
Definition mirrored (s s' : state) (es : list effect) : Prop :=
  (forall c msg,
     In (Send c msg) es -> is_type "status" msg = true ->
     msg = status_message (runningProcesses s') /\ In c (clients s')) /\
  (runningProcesses s' <> runningProcesses s ->
   forall c, In c (clients s') ->
             In (Send c (status_message (runningProcesses s'))) es).

(** Frames that only the listeners of a running child send. *)
Definition process_frame (msg : json) : bool :=
  is_type "stdout" msg || is_type "stderr" msg || is_type "exit" msg.

(** Effects none of whose frames satisfies [f]. *)
Definition lacks (f : json -> bool) (es : list effect) : Prop :=
  forall c msg, In (Send c msg) es -> f msg = false.

(** Connection [c] sent a start command for [p] among [inputs]. *)
Definition started_in (inputs : list input) (c : conn) (p : string) : Prop :=
  exists data w,
    In (Message c (Parsed data) w) inputs /\
    is_start (action data) = true /\ projectPath data = p.

(** Every entry is stored under its own path and holds a child that
    [runProject] listens to for that path. *)
Definition entries_sound (s : state) : Prop :=
  forall k v,
    Map_get (runningProcesses s) k = Some v ->
    path v = k /\
    exists ws, listeners_of (process v) (handlers s) = Some (RunListeners ws k).

(** ** The HTTP facade (server.js 19-28 and 33-98)

    The request listener answers from the snapshot of projects and from
    the registry, or serves a file.  [fs.readFile] calls back later; its
    callback touches nothing but the response, so a request is handled
    here in one piece, the outcome of the read coming with the [disk]. *)

(** [__dirname] and [path.extname] of the host.  [extname] yields the
    empty string or a string that starts with a dot, so the lookup in
    [contentTypes] never reaches a property the object inherits. *)
Section Facade.

Variable dirname : string.
Variable extname : string -> string.

(** A document as [JSON.parse] returns it (numbers are integers here;
    an object holds each key once). *)
Inductive jsvalue : Type :=
| VNull
| VBool (b : bool)
| VNum (z : Z)
| VStr (s : string)
| VArr (items : list jsvalue)
| VObj (fields : list (string * jsvalue)).

(** [scanner/projects.json] as [loadProjects] finds it: not there,
    there but [readFileSync] or [JSON.parse] throws, or a document. *)
Inductive snapshot_file : Type :=
| SnapshotAbsent
| SnapshotThrows (message : string)
| SnapshotHolds (doc : jsvalue).

(** What [fs.readFile] hands to its callback. *)
Inductive read_outcome : Type :=
| ReadFails (code : string)
| ReadGives (content : string).

Record disk : Type := {
  snapshot : snapshot_file;
  readFile : string -> read_outcome
}.

(** The supervisor together with [projectsData]. *)
Record site : Type := {
  supervisor : state;
  projectsData : jsvalue
}.

Record http_request : Type := {
  method : string;
  url : string
}.

Inductive body : Type :=
| NoBody
| TextBody (text : string)
| RunningBody (running : json)      (* JSON.stringify(running) *)
| DocumentBody (doc : jsvalue)      (* JSON.stringify of a document *)
| FileBody (content : string).

Record response : Type := {
  statusCode : nat;
  headers : list (string * string);
  content : body
}.

(** The value of a property access: it throws, is [undefined], or is a
    value. *)
Inductive accessed : Type :=
| Raised
| Undefined
| Got (v : jsvalue).

Fixpoint own_property (k : string) (fields : list (string * jsvalue)) : accessed :=
  match fields with
  | [] => Undefined
  | (k', v) :: rest => if k' =? k then Got v else own_property k rest
  end.

(** [projectsData.projects]. *)
Definition projects_of (data : jsvalue) : accessed :=
  match data with
  | VNull => Raised
  | VObj fields => own_property "projects" fields
  | _ => Undefined
  end.

(** [x.length] for the [x] that [projects_of] gave (the length of a
    string counts the characters of the model's strings). *)
Definition length_of (x : accessed) : accessed :=
  match x with
  | Raised | Undefined | Got VNull => Raised
  | Got (VArr items) => Got (VNum (Z.of_nat (List.length items)))
  | Got (VStr s) => Got (VNum (Z.of_nat (String.length s)))
  | Got (VObj fields) => own_property "length" fields
  | Got (VBool _) | Got (VNum _) => Undefined
  end.

(** [{ success: true, count }] as [JSON.stringify] writes it. *)
Definition rescan_answer (count : accessed) : jsvalue :=
  VObj (("success", VBool true)
        :: match count with
           | Got v => [("count", v)]
           | _ => []
           end).

(** loadProjects (server.js 23-27); [None] when it throws. *)
Definition loadProjects (d : disk) (x : site) : option site :=
  match snapshot d with
  | SnapshotAbsent => Some x
  | SnapshotThrows _ => None
  | SnapshotHolds doc => Some {| supervisor := supervisor x; projectsData := doc |}
  end.

(** The module's start: [projectsData = { projects: [] }], then
    [loadProjects()].  The callback of [listen] (server.js 342-354),
    which logs the number of projects, is not part of it. *)
Definition boot (d : disk) : option site :=
  loadProjects d {| supervisor := initial;
                    projectsData := VObj [("projects", VArr [])] |}.

(** The headers set on every response (server.js 36-38). *)
Definition cors : list (string * string) :=
  [("Access-Control-Allow-Origin", "*");
   ("Access-Control-Allow-Methods", "GET, POST, OPTIONS");
   ("Access-Control-Allow-Headers", "Content-Type")].

Definition contentTypes : list (string * string) :=
  [(".html", "text/html"); (".js", "text/javascript"); (".css", "text/css");
   (".json", "application/json"); (".png", "image/png"); (".ico", "image/x-icon")].

Fixpoint lookup_type (ext : string) (table : list (string * string)) : option string :=
  match table with
  | [] => None
  | (k, v) :: rest => if k =? ext then Some v else lookup_type ext rest
  end.

(** [contentTypes[ext] || 'text/plain']. *)
Definition content_type (ext : string) : string :=
  match lookup_type ext contentTypes with
  | Some t => t
  | None => "text/plain"
  end.

Definition json_headers : list (string * string) :=
  (cors ++ [("Content-Type", "application/json")])%list.

(** The server after an exception nothing caught. *)
Definition down (x : site) : site :=
  {| supervisor := crash (supervisor x); projectsData := projectsData x |}.

(** The file a static request reads (server.js 71-72). *)
Definition static_path (u : string) : string :=
  path_join dirname (if u =? "/" then "/command-center.html" else u).

(** The request listener (server.js 34-98): the state it leaves and the
    response, if one is sent. *)
Definition on_request (d : disk) (req : http_request) (x : site) : site * option response :=
  if negb (alive (supervisor x)) then (x, None)
  else if method req =? "OPTIONS" then
    (x, Some {| statusCode := 200; headers := cors; content := NoBody |})
  else if url req =? "/api/projects" then
    (x, Some {| statusCode := 200; headers := json_headers;
                content := DocumentBody (projectsData x) |})
  else if url req =? "/api/running" then
    (x, Some {| statusCode := 200; headers := json_headers;
                content := RunningBody (api_running (supervisor x)) |})
  else if (url req =? "/api/rescan") && (method req =? "POST") then
    match loadProjects d x with
    | None => (down x, None)
    | Some x' =>
        match length_of (projects_of (projectsData x')) with
        | Raised => (down x', None)
        | count =>
            (x', Some {| statusCode := 200; headers := json_headers;
                         content := DocumentBody (rescan_answer count) |})
        end
    end
  else
    let filePath := static_path (url req) in
    let ext := extname filePath in
    match readFile d filePath with
    | ReadFails code =>
        if code =? "ENOENT" then
          (x, Some {| statusCode := 404; headers := cors;
                      content := TextBody "Not Found" |})
        else
          (x, Some {| statusCode := 500; headers := cors;
                      content := TextBody "Server Error" |})
    | ReadGives content =>
        (x, Some {| statusCode := 200;
                    headers := (cors ++ [("Content-Type", content_type ext)])%list;
                    content := FileBody content |})
    end.

(** A run of requests, each with the disk as it is then. *)
Fixpoint serve (x : site) (requests : list (disk * http_request))
  : site * list (option response) :=
  match requests with
  | [] => (x, [])
  | (d, req) :: rest =>
      let (x1, r) := on_request d req x in
      let (x2, rs) := serve x1 rest in
      (x2, r :: rs)
  end.

End Facade.

(** Sample documents, disks and sites for the concrete runs. *)
Definition demo_doc : jsvalue :=
  VObj [("scanDate", VStr "2025-01-01T00:00:00.000Z");
        ("totalProjects", VNum 1);
        ("projects",
         VArr [VObj [("name", VStr "P"); ("path", VStr "/p");
                     ("hasNodeModules", VBool true)]])].

Definition disk_with (f : snapshot_file) : disk :=
  {| snapshot := f; readFile := fun _ => ReadFails "ENOENT" |}.

Definition empty_site : site :=
  {| supervisor := initial; projectsData := VObj [("projects", VArr [])] |}.

Definition html_extname (p : string) : string := ".html".

(** ** The message listener on frames of any shape

    The handlers above take the command the protocol describes.  What
    arrives is whatever [JSON.parse] returns: any JSON value, whose
    [action], [projectPath], [projectName] and [command] may be missing
    or of any type.  This part embeds the same code (server.js 103-339)
    over such values, with what JavaScript does to them: a property that
    is not there is [undefined], [JSON.stringify] leaves out an
    [undefined] property, [path.join] throws on a path that is not a
    string, [||] tests for truth, and a template literal converts its
    value to a string, which throws for an object or array that cannot
    be converted.  Entries are only ever stored after [path.join] has
    accepted the key, so the keys of the registry are strings. *)

Section Wire.

(** The finite JSON numbers, the test [n === 0] (also the falsity of
    [n]) and [String(n)]. *)
Variable number : Type.
Variable is_zero : number -> bool.
Variable String_number : number -> string.

Inductive jsdata : Type :=
| DNull
| DBool (b : bool)
| DNum (n : number)
| DStr (s : string)
| DArr (items : list jsdata)
| DObj (fields : list (string * jsdata)).

(** A JavaScript value; [None] is [undefined]. *)
Definition value : Type := option jsdata.

(** [String(d)] for an array or an object; [None] when the conversion
    throws a [TypeError], as it does for an object whose own [toString]
    and [valueOf] are not functions. *)
Variable String_object : jsdata -> option string.

(** A value inside a template literal; [None] when converting throws. *)
Definition text (v : value) : option string :=
  match v with
  | None => Some "undefined"
  | Some DNull => Some "null"
  | Some (DBool true) => Some "true"
  | Some (DBool false) => Some "false"
  | Some (DNum n) => Some (String_number n)
  | Some (DStr s) => Some s
  | Some d => String_object d
  end.

Definition truthy (v : value) : bool :=
  match v with
  | None | Some DNull | Some (DBool false) | Some (DStr EmptyString) => false
  | Some (DNum n) => negb (is_zero n)
  | Some _ => true
  end.

(** [v || fallback]. *)
Definition or_else (v : value) (fallback : string) : value :=
  if truthy v then v else Some (DStr fallback).

(** [data.k] for parsed [data] (an object holds each key once). *)
Fixpoint own (k : string) (fields : list (string * jsdata)) : value :=
  match fields with
  | [] => None
  | (k', v) :: rest => if k' =? k then Some v else own k rest
  end.

Definition property (k : string) (data : jsdata) : value :=
  match data with
  | DObj fields => own k fields
  | _ => None
  end.

(** [JSON.stringify] of an object literal. *)
Fixpoint stringify_fields (fields : list (string * value)) : list (string * jsdata) :=
  match fields with
  | [] => []
  | (k, Some v) :: rest => (k, v) :: stringify_fields rest
  | (_, None) :: rest => stringify_fields rest
  end.

Definition stringify (fields : list (string * value)) : jsdata :=
  DObj (stringify_fields fields).

Definition str (s : string) : value := Some (DStr s).

(** Does a frame have the key, and is it a status? *)
Definition carries (k : string) (msg : jsdata) : bool :=
  match property k msg with Some _ => true | None => false end.

Definition tagged (t : string) (msg : jsdata) : bool :=
  match property "type" msg with
  | Some (DStr t') => t' =? t
  | _ => false
  end.

(** The registry: [{ name, path, pid, process }] under string keys. *)
Record js_proc : Type := {
  js_name : value;
  js_path : string;
  js_pid : option number;
  js_process : child
}.

Definition js_Map : Type := list (string * js_proc).

Fixpoint js_Map_get (m : js_Map) (k : string) : option js_proc :=
  match m with
  | [] => None
  | (k', v) :: rest => if k' =? k then Some v else js_Map_get rest k
  end.

Fixpoint js_Map_set (m : js_Map) (k : string) (v : js_proc) : js_Map :=
  match m with
  | [] => [(k, v)]
  | (k', v') :: rest =>
      if k' =? k then (k, v) :: rest else (k', v') :: js_Map_set rest k v
  end.

Fixpoint js_Map_delete (m : js_Map) (k : string) : js_Map :=
  match m with
  | [] => []
  | (k', v') :: rest =>
      if k' =? k then rest else (k', v') :: js_Map_delete rest k
  end.

Inductive js_listeners : Type :=
| JsRunListeners (ws : conn) (projectPath : string)
| JsCleanListeners (ws : conn) (projectPath : string) (projectName : value).

Record js_state : Type := {
  js_running : js_Map;
  js_clients : list conn;
  js_handlers : list (child * js_listeners);
  js_next_child : child;
  js_alive : bool
}.

Definition js_initial : js_state :=
  {| js_running := []; js_clients := []; js_handlers := [];
     js_next_child := 0; js_alive := true |}.

Inductive js_effect : Type :=
| JsSend (ws : conn) (msg : jsdata)
| JsSpawn (c : child) (file : string) (args : list value) (options : spawn_options)
| JsKill (c : child) (signal : string).

Inductive js_spawn_outcome : Type :=
| JsSpawnThrows (message : string)
| JsSpawnReturns (pid : option number).

(** What the handler finds outside: the file system, what [spawn] does,
    and the message of a [TypeError] should the handler raise one. *)
Record js_world : Type := {
  js_existsSync : string -> bool;
  js_spawn_oracle : js_spawn_outcome;
  js_type_error : string
}.

Definition W (A : Type) : Type := js_state -> completion A * js_state * list js_effect.

Definition js_ret {A : Type} (a : A) : W A := fun s => (Normal a, s, []).

Definition js_bind {A B : Type} (m : W A) (k : A -> W B) : W B :=
  fun s =>
    match m s with
    | (Normal a, s1, e1) =>
        match k a s1 with (r, s2, e2) => (r, s2, (e1 ++ e2)%list) end
    | (Throw message, s1, e1) => (Throw message, s1, e1)
    | (Diverge, s1, e1) => (Diverge, s1, e1)
    end.

Declare Scope js_scope.
Notation "x <- m ;; k" := (js_bind m (fun x => k))
  (at level 61, m at next level, right associativity) : js_scope.
Notation "m ;; k" := (js_bind m (fun _ => k))
  (at level 61, right associativity) : js_scope.
Local Open Scope js_scope.

Definition js_throw {A : Type} (message : string) : W A :=
  fun s => (Throw message, s, []).

Definition js_diverge {A : Type} : W A := fun s => (Diverge, s, []).

Definition js_try_catch (m : W unit) (h : string -> W unit) : W unit :=
  fun s =>
    match m s with
    | (Throw message, s1, e1) =>
        match h message s1 with (r, s2, e2) => (r, s2, (e1 ++ e2)%list) end
    | other => other
    end.

Definition js_with_running (f : js_Map -> js_Map) (s : js_state) : js_state :=
  {| js_running := f (js_running s); js_clients := js_clients s;
     js_handlers := js_handlers s; js_next_child := js_next_child s;
     js_alive := js_alive s |}.

(** [runningProcesses.get(k)], [.has(k)] and [.delete(k)] for a key of
    any type: nothing is stored under a key that is not a string. *)
Definition js_get (k : value) : W (option js_proc) :=
  match k with
  | Some (DStr p) => fun s => (Normal (js_Map_get (js_running s) p), s, [])
  | _ => js_ret None
  end.

Definition js_has (k : value) : W bool :=
  found <- js_get k ;;
  js_ret (match found with Some _ => true | None => false end).

Definition js_set (k : string) (v : js_proc) : W unit :=
  fun s => (Normal tt, js_with_running (fun m => js_Map_set m k v) s, []).

Definition js_delete (k : value) : W unit :=
  match k with
  | Some (DStr p) =>
      fun s => (Normal tt, js_with_running (fun m => js_Map_delete m p) s, [])
  | _ => js_ret tt
  end.

Definition js_send (ws : conn) (msg : jsdata) : W unit :=
  fun s => (Normal tt, s, [JsSend ws msg]).

Definition js_spawn (w : js_world) (file : string) (args : list value)
    (options : spawn_options) : W (child * option number) :=
  match js_spawn_oracle w with
  | JsSpawnThrows message => js_throw message
  | JsSpawnReturns pid =>
      fun s =>
        (Normal (js_next_child s, pid),
         {| js_running := js_running s; js_clients := js_clients s;
            js_handlers := js_handlers s; js_next_child := S (js_next_child s);
            js_alive := js_alive s |},
         [JsSpawn (js_next_child s) file args options])
  end.

Definition js_on (c : child) (l : js_listeners) : W unit :=
  fun s =>
    (Normal tt,
     {| js_running := js_running s; js_clients := js_clients s;
        js_handlers := (js_handlers s ++ [(c, l)])%list;
        js_next_child := js_next_child s; js_alive := js_alive s |},
     []).

Definition js_kill (c : child) (signal : string) : W unit :=
  fun s => (Normal tt, s, [JsKill c signal]).

(** [`${v}`]; [type_error] is the message of the [TypeError] of a value
    that cannot be converted. *)
Definition js_text (type_error : string) (v : value) : W string :=
  match text v with
  | Some t => js_ret t
  | None => js_throw type_error
  end.

(** broadcastStatus (server.js 326-339). *)
Definition js_status_entry (e : string * js_proc) : jsdata :=
  let (id, proc) := e in
  stringify [("id", str id); ("name", js_name proc);
             ("path", str (js_path proc));
             ("pid", option_map DNum (js_pid proc))].

Definition js_status_message (m : js_Map) : jsdata :=
  stringify [("type", str "status");
             ("running", Some (DArr (map js_status_entry m)))].

Definition js_broadcastStatus : W unit :=
  fun s =>
    (Normal tt, s,
     map (fun client => JsSend client (js_status_message (js_running s)))
         (js_clients s)).

(** [command.includes('install')]: a string searches itself, an array
    its items; nothing else has the method, and the call throws. *)
Definition is_install (d : jsdata) : bool :=
  match d with
  | DStr s => s =? "install"
  | _ => false
  end.

Definition js_includes_install (w : js_world) (command : value) : W bool :=
  match command with
  | Some (DStr s) => js_ret (includes "install" s)
  | Some (DArr items) => js_ret (existsb is_install items)
  | _ => js_throw (js_type_error w)
  end.

(** runProject (server.js 147-236). *)
Fixpoint js_runProject_fuel (fuel : nat) (w : js_world) (ws : conn)
    (projectPath projectName command : value) : W unit :=
  match fuel with
  | O => js_diverge
  | S fuel' =>
      running <- js_has projectPath ;;
      if running then
        name <- js_text (js_type_error w) projectName ;;
        js_send ws (stringify
                      [("type", str "error");
                       ("projectPath", projectPath);
                       ("message", str (name ++ " is already running! Stop it first."))])
      else
        match projectPath with
        | Some (DStr p) =>
            let nmPath := path_join p "node_modules" in
            install_first <-
              (if negb (js_existsSync w nmPath) then
                 found <- js_includes_install w command ;; js_ret (negb found)
               else js_ret false) ;;
            if install_first then
              js_send ws (stringify
                            [("type", str "warning");
                             ("projectPath", projectPath);
                             ("message", str "node_modules not found. Installing dependencies first...")]) ;;
              js_runProject_fuel fuel' w ws projectPath projectName (str "npm install")
            else
              name <- js_text (js_type_error w) projectName ;;
              js_send ws (stringify
                            [("type", str "start");
                             ("projectPath", projectPath);
                             ("projectName", projectName);
                             ("command", command);
                             ("message", str ("Starting " ++ name ++ "..."))]) ;;
              let isWindows := platform =? "win32" in
              let shell := if isWindows then "cmd.exe" else "/bin/sh" in
              let shellFlag := if isWindows then "/c" else "-c" in
              spawned <- js_spawn w shell [str shellFlag; command] (RunOptions p) ;;
              js_set p {| js_name := projectName; js_path := p;
                          js_pid := snd spawned; js_process := fst spawned |} ;;
              js_broadcastStatus ;;
              js_on (fst spawned) (JsRunListeners ws p)
        | _ =>
            (* path.join(projectPath, 'node_modules') rejects the path *)
            js_throw (js_type_error w)
        end
  end.

Definition js_runProject : js_world -> conn -> value -> value -> value -> W unit :=
  js_runProject_fuel 2.

(** stopProject (server.js 238-270). *)
Definition js_stopProject (w : js_world) (ws : conn) (projectPath : value) : W unit :=
  found <- js_get projectPath ;;
  match found with
  | None =>
      js_send ws (stringify
                    [("type", str "error");
                     ("projectPath", projectPath);
                     ("message", str "Process not found or already stopped")])
  | Some proc =>
      name <- js_text (js_type_error w) (js_name proc) ;;
      js_send ws (stringify
                    [("type", str "info");
                     ("projectPath", projectPath);
                     ("message", str ("Stopping " ++ name ++ "..."))]) ;;
      (if platform =? "win32" then
         _ <- js_spawn w "taskkill"
                       [str "/pid"; option_map DNum (js_pid proc); str "/f"; str "/t"]
                       NoOptions ;;
         js_ret tt
       else
         js_kill (js_process proc) "SIGTERM") ;;
      js_delete projectPath ;;
      js_broadcastStatus ;;
      name' <- js_text (js_type_error w) (js_name proc) ;;
      js_send ws (stringify
                    [("type", str "stopped");
                     ("projectPath", projectPath);
                     ("message", str (name' ++ " stopped"))])
  end.

(** openFolder (server.js 272-283). *)
Definition js_openFolder (w : js_world) (ws : conn) (projectPath : value) : W unit :=
  let cmd := if platform =? "win32" then "explorer"
             else if platform =? "darwin" then "open" else "xdg-open" in
  _ <- js_spawn w cmd [projectPath] Detached ;;
  folder <- js_text (js_type_error w) projectPath ;;
  js_send ws (stringify
                [("type", str "info");
                 ("projectPath", projectPath);
                 ("message", str ("Opened folder: " ++ folder))]).

(** cleanProject (server.js 285-324). *)
Definition js_cleanProject (w : js_world) (ws : conn)
    (projectPath projectName : value) : W unit :=
  match projectPath with
  | Some (DStr p) =>
      let nmPath := path_join p "node_modules" in
      if negb (js_existsSync w nmPath) then
        name <- js_text (js_type_error w) projectName ;;
        js_send ws (stringify
                      [("type", str "info");
                       ("projectPath", projectPath);
                       ("message", str (name ++ " has no node_modules to clean"))])
      else
        name <- js_text (js_type_error w) projectName ;;
        js_send ws (stringify
                      [("type", str "info");
                       ("projectPath", projectPath);
                       ("message", str ("Cleaning node_modules from " ++ name ++ "..."))]) ;;
        let isWindows := platform =? "win32" in
        let cmd := if isWindows then "rmdir" else "rm" in
        let args := if isWindows then [str "/s"; str "/q"; str nmPath]
                    else [str "-rf"; str nmPath] in
        spawned <- js_spawn w cmd args ShellTrue ;;
        js_on (fst spawned) (JsCleanListeners ws p projectName)
  | _ =>
      (* path.join(projectPath, 'node_modules') rejects the path *)
      js_throw (js_type_error w)
  end.

(** [action === a]. *)
Definition action_is (action : value) (a : string) : bool :=
  match action with
  | Some (DStr s) => s =? a
  | _ => false
  end.

(** handleCommand (server.js 120-145); destructuring [null] throws. *)
Definition js_handleCommand (w : js_world) (ws : conn) (data : jsdata) : W unit :=
  match data with
  | DNull => js_throw (js_type_error w)
  | _ =>
      let action := property "action" data in
      let projectPath := property "projectPath" data in
      let projectName := property "projectName" data in
      let command := property "command" data in
      if action_is action "run" then
        js_runProject w ws projectPath projectName (or_else command "npm run dev")
      else if action_is action "deploy" then
        js_runProject w ws projectPath projectName (or_else command "npm run deploy")
      else if action_is action "install" then
        js_runProject w ws projectPath projectName (str "npm install")
      else if action_is action "stop" then
        js_stopProject w ws projectPath
      else if action_is action "open" then
        js_openFolder w ws projectPath
      else if action_is action "clean" then
        js_cleanProject w ws projectPath projectName
      else
        unknown <- js_text (js_type_error w) action ;;
        js_send ws (stringify
                      [("type", str "error");
                       ("message", str ("Unknown action: " ++ unknown))])
  end.

(** The frame as [JSON.parse] leaves it. *)
Inductive js_frame : Type :=
| JsUnparsable (message : string)
| JsParsed (data : jsdata).

(** The [message] listener (server.js 106-113). *)
Definition js_on_message (w : js_world) (ws : conn) (message : js_frame) : W unit :=
  js_try_catch
    (match message with
     | JsUnparsable e => js_throw e
     | JsParsed data => js_handleCommand w ws data
     end)
    (fun e => js_send ws (stringify [("type", str "error"); ("message", str e)])).

Fixpoint js_listeners_of (c : child) (hs : list (child * js_listeners))
  : option js_listeners :=
  match hs with
  | [] => None
  | (c', l) :: rest => if Nat.eqb c' c then Some l else js_listeners_of c rest
  end.

Definition js_attached (c : child) : W (option js_listeners) :=
  fun s => (Normal (js_listeners_of c (js_handlers s)), s, []).

(** The listeners of a child (server.js 200-235 and 309-323). *)
Definition js_child_stdout (c : child) (data : string) : W unit :=
  l <- js_attached c ;;
  match l with
  | Some (JsRunListeners ws projectPath) =>
      js_send ws (stringify [("type", str "stdout");
                             ("projectPath", str projectPath);
                             ("data", str data)])
  | _ => js_ret tt
  end.

Definition js_child_stderr (c : child) (data : string) : W unit :=
  l <- js_attached c ;;
  match l with
  | Some (JsRunListeners ws projectPath) =>
      js_send ws (stringify [("type", str "stderr");
                             ("projectPath", str projectPath);
                             ("data", str data)])
  | _ => js_ret tt
  end.

Definition js_child_error (c : child) (message : string) : W unit :=
  l <- js_attached c ;;
  match l with
  | Some (JsRunListeners ws projectPath) =>
      js_send ws (stringify [("type", str "error");
                             ("projectPath", str projectPath);
                             ("message", str message)]) ;;
      js_delete (str projectPath) ;;
      js_broadcastStatus
  | _ => js_throw message
  end.

(** The [code] of a [close] event: a number, or [null]. *)
Definition js_code (code : option number) : value :=
  match code with Some n => Some (DNum n) | None => Some DNull end.

Definition js_code_text (code : option number) : string :=
  match code with Some n => String_number n | None => "null" end.

(** The message of the [TypeError] of a template literal. *)
Definition conversion_error : string := "Cannot convert object to primitive value".

Definition js_code_is_zero (code : option number) : bool :=
  match code with Some n => is_zero n | None => false end.

Definition js_child_close (c : child) (code : option number) : W unit :=
  l <- js_attached c ;;
  match l with
  | Some (JsRunListeners ws projectPath) =>
      js_send ws (stringify
                    [("type", str "exit");
                     ("projectPath", str projectPath);
                     ("code", js_code code);
                     ("message", str (if js_code_is_zero code
                                      then "Process completed successfully"
                                      else "Process exited with code " ++ js_code_text code))]) ;;
      js_delete (str projectPath) ;;
      js_broadcastStatus
  | Some (JsCleanListeners ws projectPath projectName) =>
      if js_code_is_zero code then
        name <- js_text conversion_error projectName ;;
        js_send ws (stringify [("type", str "success");
                               ("projectPath", str projectPath);
                               ("message", str ("Cleaned node_modules from " ++ name))])
      else
        name <- js_text conversion_error projectName ;;
        js_send ws (stringify [("type", str "error");
                               ("projectPath", str projectPath);
                               ("message", str ("Failed to clean " ++ name))])
  | None => js_ret tt
  end.

(** The event loop over frames of any shape. *)
Inductive js_input : Type :=
| JsConnection (ws : conn)
| JsDisconnect (ws : conn)
| JsMessage (ws : conn) (message : js_frame) (w : js_world)
| JsChildStdout (c : child) (data : string)
| JsChildStderr (c : child) (data : string)
| JsChildError (c : child) (message : string)
| JsChildClose (c : child) (code : option number).

Definition js_crash (s : js_state) : js_state :=
  {| js_running := js_running s; js_clients := js_clients s;
     js_handlers := js_handlers s; js_next_child := js_next_child s;
     js_alive := false |}.

Definition js_run_listener (m : W unit) (s : js_state) : js_state * list js_effect :=
  match m s with
  | (Normal _, s', es) => (s', es)
  | (Throw _, s', es) => (js_crash s', es)
  | (Diverge, s', es) => (js_crash s', es)
  end.

Definition js_with_clients (f : list conn -> list conn) (s : js_state) : js_state :=
  {| js_running := js_running s; js_clients := f (js_clients s);
     js_handlers := js_handlers s; js_next_child := js_next_child s;
     js_alive := js_alive s |}.

Definition js_step (s : js_state) (i : js_input) : js_state * list js_effect :=
  if js_alive s then
    match i with
    | JsConnection ws =>
        (js_with_clients (fun l => if mem ws l then l else (l ++ [ws])%list) s, [])
    | JsDisconnect ws =>
        (js_with_clients (filter (fun c => negb (Nat.eqb c ws))) s, [])
    | JsMessage ws message w => js_run_listener (js_on_message w ws message) s
    | JsChildStdout c data => js_run_listener (js_child_stdout c data) s
    | JsChildStderr c data => js_run_listener (js_child_stderr c data) s
    | JsChildError c message => js_run_listener (js_child_error c message) s
    | JsChildClose c code => js_run_listener (js_child_close c code) s
    end
  else (s, []).

(** The error event of the [catch] and of the [default] case. *)
Definition js_bare_error (e : string) : jsdata :=
  stringify [("type", str "error"); ("message", str e)].

(** The answers of [stopProject] and [openFolder] to a command that
    names no path. *)
Definition js_not_found (projectPath : value) : jsdata :=
  stringify [("type", str "error"); ("projectPath", projectPath);
             ("message", str "Process not found or already stopped")].

Definition js_opened (projectPath : value) (folder : string) : jsdata :=
  stringify [("type", str "info"); ("projectPath", projectPath);
             ("message", str ("Opened folder: " ++ folder))].

(** The actions [handleCommand] knows. *)
Definition action_known (action : value) : bool :=
  match action with
  | Some (DStr a) => recognized a
  | _ => false
  end.

(** A computation all of whose frames, with the connection they go to,
    satisfy [Q] and all of whose exceptions satisfy [T]. *)
Definition fine (Q : conn -> jsdata -> Prop) (T : string -> Prop) {A : Type}
    (m : W A) : Prop :=
  forall s r s' es,
    m s = (r, s', es) ->
    (forall c msg, In (JsSend c msg) es -> Q c msg) /\
    (forall e, r = Throw e -> T e).

(** A computation that comes to an end: it returns or throws. *)
Definition halts {A : Type} (m : W A) : Prop :=
  forall s, fst (fst (m s)) <> Diverge.

(** The exceptions a handler can raise: the [TypeError] of the world,
    or what [spawn] throws. *)
Definition raised (w : js_world) (e : string) : Prop :=
  e = js_type_error w \/ js_spawn_oracle w = JsSpawnThrows e.

(** A frame that is a status or has [projectPath]. *)
Definition labelled (msg : jsdata) : Prop :=
  tagged "status" msg = true \/ carries "projectPath" msg = true.

(** A property of the frame alone, whoever it goes to. *)
Definition to_anyone (Q : jsdata -> Prop) : conn -> jsdata -> Prop :=
  fun _ msg => Q msg.

(** [e] is the message of the [default] case for [data]. *)
Definition unknown_action_error (data : jsdata) (e : string) : Prop :=
  action_known (property "action" data) = false /\
  exists unknown,
    text (property "action" data) = Some unknown /\
    e = "Unknown action: " ++ unknown.

(** [msg] is the error event with a type and a message only, sent for
    a frame that did not parse, for an exception raised while the
    command was handled, or for an action that is not known. *)
Definition bare_answer (w : js_world) (message : js_frame) (msg : jsdata) : Prop :=
  exists e,
    msg = js_bare_error e /\
    match message with
    | JsUnparsable e' => e = e'
    | JsParsed data => raised w e \/ unknown_action_error data e
    end.

(** [msg] is what [stopProject] or [openFolder] answers to a command
    that has no [projectPath]. *)
Definition pathless_answer (message : js_frame) (msg : jsdata) : Prop :=
  match message with
  | JsUnparsable _ => False
  | JsParsed data =>
      property "projectPath" data = None /\
      ((action_is (property "action" data) "stop" = true /\
        msg = js_not_found None) \/
       (action_is (property "action" data) "open" = true /\
        msg = js_opened None "undefined"))
  end.

End Wire.

(** *** Frames of any shape over the integers *)

(** [String(d)]: an array joins its items, with nothing for [null]; an
    object is [[object Object]] unless it has a [toString] of its own,
    which JSON cannot make a function. *)
Fixpoint String_of (d : jsdata Z) : option string :=
  match d with
  | DNull _ => Some "null"
  | DBool _ true => Some "true"
  | DBool _ false => Some "false"
  | DNum _ z => Some (show_number z)
  | DStr _ s => Some s
  | DArr _ items =>
      (fix join (l : list (jsdata Z)) : option string :=
         match l with
         | [] => Some EmptyString
         | x :: rest =>
             match match x with DNull _ => Some EmptyString | _ => String_of x end with
             | None => None
             | Some first =>
                 match rest with
                 | [] => Some first
                 | _ :: _ =>
                     match join rest with
                     | Some others => Some (first ++ "," ++ others)
                     | None => None
                     end
                 end
             end
         end) items
  | DObj _ fields =>
      match own Z "toString" fields with
      | Some _ => None
      | None => Some "[object Object]"
      end
  end.

(** The message of [path.join] given [undefined]. *)
Definition path_type_error : string :=
  "The " ++ String (ascii_of_nat 34) "path" ++ String (ascii_of_nat 34)
    " argument must be of type string. Received undefined".

Definition js_world_of (exists_nm : bool) (o : js_spawn_outcome Z) (type_error : string)
  : js_world Z :=
  {| js_existsSync := fun _ => exists_nm;
     js_spawn_oracle := o;
     js_type_error := type_error |}.

(** What a client sends: an object with the given properties. *)
Definition js_request (fields : list (string * jsdata Z)) : js_frame Z :=
  JsParsed Z (DObj Z fields).


Definition integer_is_zero (z : Z) : bool := Z.eqb z 0.

(** The event loop over frames whose numbers are integers. *)
Definition integer_step : js_state Z -> js_input Z -> js_state Z * list (js_effect Z) :=
  js_step Z integer_is_zero show_number String_of.

(** A client's frame in a world without [node_modules], where [spawn]
    returns a child and a [TypeError] is that of [path.join]. *)
Definition js_message (ws : conn) (message : js_frame Z) : js_input Z :=
  JsMessage Z ws message (js_world_of false (JsSpawnReturns Z None) path_type_error).

(** ** Lemmas on the registry *)

Lemma has_entries_zero (m : Map) (k : string) :
  Map_has m k = false <-> entries_for k m = 0.
Proof.
  unfold Map_has. induction m as [|[k' v] m IH]; simpl.
  - tauto.
  - destruct (k' =? k); simpl.
    + split; [discriminate | lia].
    + exact IH.
Qed.

Lemma has_entries_pos (m : Map) (k : string) :
  Map_has m k = true <-> 1 <= entries_for k m.
Proof.
  pose proof (has_entries_zero m k) as H.
  destruct (Map_has m k); split; intros; try reflexivity; try discriminate.
  - destruct (entries_for k m); [|lia].
    destruct H as [_ H]. specialize (H eq_refl). discriminate.
  - destruct H as [H _]. specialize (H eq_refl). lia.
Qed.

Lemma entries_set (m : Map) (k k' : string) (v : proc) :
  entries_for k (Map_set m k' v) =
  if Map_has m k' then entries_for k m
  else entries_for k m + (if k' =? k then 1 else 0).
Proof.
  unfold Map_has. induction m as [|[k0 v0] m IH]; simpl.
  - destruct (k' =? k); reflexivity.
  - destruct (String.eqb_spec k0 k') as [->|Hne]; simpl.
    + reflexivity.
    + rewrite IH. destruct (Map_get m k'); lia.
Qed.

Lemma entries_delete_le (m : Map) (k k' : string) :
  entries_for k (Map_delete m k') <= entries_for k m.
Proof.
  induction m as [|[k0 v0] m IH]; simpl.
  - lia.
  - destruct (k0 =? k'); simpl; lia.
Qed.

Lemma entries_delete_same (m : Map) (k : string) :
  entries_for k (Map_delete m k) = entries_for k m - 1.
Proof.
  induction m as [|[k0 v0] m IH]; simpl.
  - reflexivity.
  - destruct (k0 =? k) eqn:E; simpl.
    + lia.
    + rewrite E. simpl. exact IH.
Qed.

Lemma entries_delete_other (m : Map) (k k' : string) :
  k' <> k -> entries_for k (Map_delete m k') = entries_for k m.
Proof.
  intros Hne. induction m as [|[k0 v0] m IH]; simpl.
  - reflexivity.
  - destruct (String.eqb_spec k0 k') as [->|H0]; simpl.
    + destruct (String.eqb_spec k' k); [contradiction | reflexivity].
    + rewrite IH. reflexivity.
Qed.

Lemma unique_set (m : Map) (k : string) (v : proc) :
  unique_keys m -> unique_keys (Map_set m k v).
Proof.
  intros U k0. rewrite entries_set. specialize (U k0).
  destruct (Map_has m k) eqn:Hk; [exact U|].
  destruct (String.eqb_spec k k0) as [->|]; [|lia].
  apply has_entries_zero in Hk. lia.
Qed.

Lemma unique_delete (m : Map) (k : string) :
  unique_keys m -> unique_keys (Map_delete m k).
Proof.
  intros U k0. specialize (U k0).
  pose proof (entries_delete_le m k0 k). lia.
Qed.

Lemma has_set_same (m : Map) (k : string) (v : proc) :
  Map_has (Map_set m k v) k = true.
Proof.
  apply has_entries_pos. rewrite entries_set.
  destruct (Map_has m k) eqn:Hk.
  - apply has_entries_pos. exact Hk.
  - rewrite String.eqb_refl. lia.
Qed.

Lemma has_set_other (m : Map) (k k' : string) (v : proc) :
  k' <> k -> Map_has (Map_set m k' v) k = Map_has m k.
Proof.
  intros Hne.
  assert (E : entries_for k (Map_set m k' v) = entries_for k m).
  { rewrite entries_set. destruct (Map_has m k'); [reflexivity|].
    destruct (String.eqb_spec k' k); [contradiction | lia]. }
  destruct (Map_has m k) eqn:Hk.
  - apply has_entries_pos. rewrite E. apply has_entries_pos. exact Hk.
  - apply has_entries_zero. rewrite E. apply has_entries_zero. exact Hk.
Qed.

Lemma has_delete_same (m : Map) (k : string) :
  unique_keys m -> Map_has (Map_delete m k) k = false.
Proof.
  intros U. apply has_entries_zero. rewrite entries_delete_same.
  specialize (U k). lia.
Qed.

Lemma has_delete_other (m : Map) (k k' : string) :
  k' <> k -> Map_has (Map_delete m k') k = Map_has m k.
Proof.
  intros Hne. pose proof (entries_delete_other m k k' Hne) as E.
  destruct (Map_has m k) eqn:Hk.
  - apply has_entries_pos. rewrite E. apply has_entries_pos. exact Hk.
  - apply has_entries_zero. rewrite E. apply has_entries_zero. exact Hk.
Qed.

Lemma has_delete_true (m : Map) (k k' : string) :
  Map_has (Map_delete m k') k = true -> Map_has m k = true.
Proof.
  intros H. apply has_entries_pos. apply has_entries_pos in H.
  pose proof (entries_delete_le m k k'). lia.
Qed.

Lemma has_get (m : Map) (k : string) :
  Map_has m k = true <-> exists v, Map_get m k = Some v.
Proof.
  unfold Map_has. destruct (Map_get m k) as [v|]; split; intros H.
  - exists v. reflexivity.
  - reflexivity.
  - discriminate.
  - destruct H as [v H]. discriminate.
Qed.

(** The wire view agrees with the registry. *)
Lemma status_lists_has (m : Map) (p : string) :
  status_lists p (status_message m) = Map_has m p.
Proof.
  unfold status_lists, status_message, Map_has. simpl.
  induction m as [|[k v] m IH]; simpl.
  - reflexivity.
  - unfold entry_has_id at 1. simpl.
    destruct (k =? p); simpl; [reflexivity | exact IH].
Qed.

Lemma api_running_has (s : state) (p : string) :
  array_lists p (api_running s) = Map_has (runningProcesses s) p.
Proof.
  rewrite <- status_lists_has. reflexivity.
Qed.

Lemma listeners_of_app (c c0 : child) (l : listeners) (hs : list (child * listeners)) :
  listeners_of c (hs ++ [(c0, l)]) =
  match listeners_of c hs with
  | Some x => Some x
  | None => if Nat.eqb c0 c then Some l else None
  end.
Proof.
  induction hs as [|[c1 l1] hs IH]; simpl.
  - reflexivity.
  - destruct (Nat.eqb c1 c); [reflexivity | exact IH].
Qed.

Lemma runProject_running (fuel : nat) (w : world) (ws : conn) (p n cmd : string) (s : state) :
  Map_has (runningProcesses s) p = true ->
  runProject_fuel (S fuel) w ws p n cmd s =
  (Normal tt, s,
   [Send ws (JObj [("type", JStr "error"); ("projectPath", JStr p);
                   ("message", JStr (n ++ " is already running! Stop it first."))])]).
Proof.
  intros H. simpl. unfold bind, has. rewrite H. reflexivity.
Qed.

Lemma runProject_launch (fuel : nat) (w : world) (ws : conn) (p n cmd : string) (s : state) :
  Map_has (runningProcesses s) p = false ->
  negb (existsSync w (path_join p "node_modules")) && negb (includes "install" cmd) = false ->
  runProject_fuel (S fuel) w ws p n cmd s =
  match spawn_oracle w with
  | SpawnThrows e =>
      (Throw e, s,
       [Send ws (JObj [("type", JStr "start"); ("projectPath", JStr p);
                       ("projectName", JStr n); ("command", JStr cmd);
                       ("message", JStr ("Starting " ++ n ++ "..."))])])
  | SpawnReturns pid =>
      let m := Map_set (runningProcesses s) p
                 {| name := n; path := p; pid := pid; process := next_child s |} in
      (Normal tt,
       {| runningProcesses := m; clients := clients s;
          handlers := (handlers s ++ [(next_child s, RunListeners ws p)])%list;
          next_child := S (next_child s); alive := alive s |},
       Send ws (JObj [("type", JStr "start"); ("projectPath", JStr p);
                      ("projectName", JStr n); ("command", JStr cmd);
                      ("message", JStr ("Starting " ++ n ++ "..."))])
       :: Spawn (next_child s)
                (if platform =? "win32" then "cmd.exe" else "/bin/sh")
                [if platform =? "win32" then "/c" else "-c"; cmd] (RunOptions p)
       :: map (fun client => Send client (status_message m)) (clients s))
  end.
Proof.
  intros H G. simpl. unfold bind at 1. unfold has. rewrite H. rewrite G.
  unfold bind, send, spawn, set, broadcastStatus, on, with_running, throw.
  destruct (spawn_oracle w) as [e|pid]; simpl.
  - reflexivity.
  - rewrite app_nil_r. reflexivity.
Qed.

Lemma runProject_install_first (fuel : nat) (w : world) (ws : conn) (p n cmd : string) (s : state) :
  Map_has (runningProcesses s) p = false ->
  negb (existsSync w (path_join p "node_modules")) && negb (includes "install" cmd) = true ->
  runProject_fuel (S fuel) w ws p n cmd s =
  match runProject_fuel fuel w ws p n "npm install" s with
  | (r, s', es) =>
      (r, s',
       Send ws (JObj [("type", JStr "warning"); ("projectPath", JStr p);
                      ("message", JStr "node_modules not found. Installing dependencies first...")])
       :: es)
  end.
Proof.
  intros H G. simpl. unfold bind at 1. unfold has. rewrite H. rewrite G.
  unfold bind at 1. unfold send at 1.
  destruct (runProject_fuel fuel w ws p n "npm install" s) as [[r s'] es].
  reflexivity.
Qed.

Lemma includes_npm_install : includes "install" "npm install" = true.
Proof. reflexivity. Qed.

(** ** Closed forms of the handlers *)

Lemma runProject_fuel_install (fuel : nat) (w : world) (ws : conn) (p n : string) (s : state) :
  Map_has (runningProcesses s) p = false ->
  runProject_fuel (S fuel) w ws p n "npm install" s =
  match spawn_oracle w with
  | SpawnThrows e => (Throw e, s, [Send ws (start_event p n "npm install")])
  | SpawnReturns pid =>
      (Normal tt, launched s ws p n pid,
       Send ws (start_event p n "npm install")
       :: Spawn (next_child s) shell [shellFlag; "npm install"] (RunOptions p)
       :: broadcast (launched s ws p n pid))
  end.
Proof.
  intros H. rewrite runProject_launch; [reflexivity | exact H |].
  rewrite includes_npm_install. apply andb_false_r.
Qed.

(** Everything [runProject] can do, by cases. *)
Lemma runProject_fuel_spec (fuel : nat) (w : world) (ws : conn) (p n cmd : string) (s : state) :
  runProject_fuel (S (S fuel)) w ws p n cmd s =
  if Map_has (runningProcesses s) p then
    (Normal tt, s, [Send ws (already_running_event p n)])
  else
    let cmd' := if installs_first w p cmd then "npm install" else cmd in
    let pre := if installs_first w p cmd then [Send ws (warning_event p)] else [] in
    match spawn_oracle w with
    | SpawnThrows e => (Throw e, s, (pre ++ [Send ws (start_event p n cmd')])%list)
    | SpawnReturns pid =>
        (Normal tt, launched s ws p n pid,
         (pre ++ Send ws (start_event p n cmd')
              :: Spawn (next_child s) shell [shellFlag; cmd'] (RunOptions p)
              :: broadcast (launched s ws p n pid))%list)
    end.
Proof.
  destruct (Map_has (runningProcesses s) p) eqn:H.
  - apply runProject_running. exact H.
  - unfold installs_first. cbv zeta.
    destruct (negb (existsSync w (path_join p "node_modules")) && negb (includes "install" cmd)) eqn:G.
    + rewrite (runProject_install_first _ _ _ _ _ _ _ H G).
      rewrite (runProject_fuel_install _ _ _ _ _ _ H).
      destruct (spawn_oracle w); reflexivity.
    + rewrite (runProject_launch _ _ _ _ _ _ _ H G).
      destruct (spawn_oracle w); reflexivity.
Qed.

Lemma runProject_spec (w : world) (ws : conn) (p n cmd : string) (s : state) :
  runProject w ws p n cmd s =
  if Map_has (runningProcesses s) p then
    (Normal tt, s, [Send ws (already_running_event p n)])
  else
    let cmd' := if installs_first w p cmd then "npm install" else cmd in
    let pre := if installs_first w p cmd then [Send ws (warning_event p)] else [] in
    match spawn_oracle w with
    | SpawnThrows e => (Throw e, s, (pre ++ [Send ws (start_event p n cmd')])%list)
    | SpawnReturns pid =>
        (Normal tt, launched s ws p n pid,
         (pre ++ Send ws (start_event p n cmd')
              :: Spawn (next_child s) shell [shellFlag; cmd'] (RunOptions p)
              :: broadcast (launched s ws p n pid))%list)
    end.
Proof. apply (runProject_fuel_spec 0). Qed.

Lemma stopProject_absent (w : world) (ws : conn) (p : string) (s : state) :
  Map_has (runningProcesses s) p = false ->
  stopProject w ws p s = (Normal tt, s, [Send ws (not_found_event p)]).
Proof.
  intros H. unfold stopProject, bind, get. unfold Map_has in H.
  destruct (Map_get (runningProcesses s) p); [discriminate | reflexivity].
Qed.

Lemma cleanProject_absent (w : world) (ws : conn) (p n : string) (s : state) :
  existsSync w (path_join p "node_modules") = false ->
  cleanProject w ws p n s = (Normal tt, s, [Send ws (nothing_to_clean_event p n)]).
Proof.
  intros H. unfold cleanProject. rewrite H. reflexivity.
Qed.

Lemma cleanProject_present (w : world) (ws : conn) (p n : string) (s : state) :
  existsSync w (path_join p "node_modules") = true ->
  cleanProject w ws p n s =
  match spawn_oracle w with
  | SpawnThrows e => (Throw e, s, [Send ws (cleaning_event p n)])
  | SpawnReturns pid =>
      (Normal tt, cleaning s ws p n,
       [Send ws (cleaning_event p n);
        Spawn (next_child s) removal_file (removal_args p) ShellTrue])
  end.
Proof.
  intros H. unfold cleanProject. rewrite H. simpl.
  unfold bind, send, spawn, on, throw, removal_file, removal_args.
  destruct (spawn_oracle w); simpl; reflexivity.
Qed.

(** An action [handleCommand] does not know falls to the [default] case. *)
Lemma handleCommand_unrecognized (w : world) (ws : conn) (data : command_message) (s : state) :
  recognized (action data) = false ->
  handleCommand w ws data s =
  (Normal tt, s, [Send ws (bare_error_event ("Unknown action: " ++ action data))]).
Proof.
  unfold recognized, is_start, handleCommand. intros H.
  repeat (apply orb_false_elim in H; destruct H as [H ?]).
  repeat match goal with E : (_ =? _) = false |- _ => rewrite E; clear E end.
  reflexivity.
Qed.

(** ** Every reachable state is consistent *)

Lemma consistent_launched (s : state) (ws : conn) (p n : string) (pid : option Z) :
  consistent s -> consistent (launched s ws p n pid).
Proof.
  intros [U F]. split; simpl.
  - apply unique_set. exact U.
  - intros c Hc. simpl in *. rewrite listeners_of_app.
    rewrite (F c) by lia.
    destruct (Nat.eqb_spec (next_child s) c); [lia | reflexivity].
Qed.

Lemma consistent_cleaning (s : state) (ws : conn) (p n : string) :
  consistent s -> consistent (cleaning s ws p n).
Proof.
  intros [U F]. split; simpl.
  - exact U.
  - intros c Hc. simpl in *. rewrite listeners_of_app.
    rewrite (F c) by lia.
    destruct (Nat.eqb_spec (next_child s) c); [lia | reflexivity].
Qed.

Lemma consistent_change (s : state) (m : Map) (cl : list conn) (k : nat) (a : bool) :
  consistent s -> unique_keys m ->
  consistent {| runningProcesses := m; clients := cl; handlers := handlers s;
                next_child := k + next_child s; alive := a |}.
Proof.
  intros [U F] Um. split; simpl.
  - exact Um.
  - intros c Hc. simpl in *. apply F. lia.
Qed.

Ltac consistent_case :=
  first
    [ assumption
    | apply consistent_launched; assumption
    | apply consistent_cleaning; assumption
    | match goal with
      | H : consistent ?s |- consistent {| runningProcesses := ?m; clients := ?cl;
                                           handlers := handlers ?s;
                                           next_child := next_child ?s; alive := ?a |} =>
          apply (consistent_change s m cl 0 a H);
          first [ apply H | apply unique_delete; apply H ]
      | H : consistent ?s |- consistent {| runningProcesses := ?m; clients := ?cl;
                                           handlers := handlers ?s;
                                           next_child := S (next_child ?s); alive := ?a |} =>
          apply (consistent_change s m cl 1 a H);
          first [ apply H | apply unique_delete; apply H ]
      end ].

Lemma run_listener_consistent (m : M unit) (s : state) :
  (forall r s' es, m s = (r, s', es) -> consistent s') ->
  consistent (fst (run_listener m s)).
Proof.
  intros H. unfold run_listener.
  destruct (m s) as [[r s'] es]. specialize (H _ _ _ eq_refl).
  destruct H as [U F].
  destruct r; simpl; split; assumption.
Qed.

Lemma stopProject_consistent (w : world) (ws : conn) (p : string) (s : state) r s' es :
  consistent s -> stopProject w ws p s = (r, s', es) -> consistent s'.
Proof.
  intros C. unfold stopProject, bind, get, send, spawn, kill, delete,
    broadcastStatus, with_running, throw, ret.
  destruct (Map_get (runningProcesses s) p); simpl;
    [destruct (platform =? "win32"); [destruct (spawn_oracle w)|]|]; simpl;
    intros E; inversion E; subst; consistent_case.
Qed.

Lemma openFolder_consistent (w : world) (ws : conn) (p : string) (s : state) r s' es :
  consistent s -> openFolder w ws p s = (r, s', es) -> consistent s'.
Proof.
  intros C. unfold openFolder, bind, send, spawn, throw.
  destruct (spawn_oracle w); simpl; intros E; inversion E; subst; consistent_case.
Qed.

Lemma cleanProject_consistent (w : world) (ws : conn) (p n : string) (s : state) r s' es :
  consistent s -> cleanProject w ws p n s = (r, s', es) -> consistent s'.
Proof.
  intros C. destruct (existsSync w (path_join p "node_modules")) eqn:X.
  - rewrite (cleanProject_present _ _ _ _ _ X).
    destruct (spawn_oracle w); intros E; inversion E; subst; consistent_case.
  - rewrite (cleanProject_absent _ _ _ _ _ X).
    intros E; inversion E; subst; consistent_case.
Qed.

Lemma runProject_consistent (w : world) (ws : conn) (p n cmd : string) (s : state) r s' es :
  consistent s -> runProject w ws p n cmd s = (r, s', es) -> consistent s'.
Proof.
  intros C. rewrite runProject_spec.
  destruct (Map_has (runningProcesses s) p); [|destruct (spawn_oracle w)];
    cbv zeta; intros E; inversion E; subst; consistent_case.
Qed.

Lemma handleCommand_consistent (w : world) (ws : conn) (data : command_message) (s : state) r s' es :
  consistent s -> handleCommand w ws data s = (r, s', es) -> consistent s'.
Proof.
  intros C. unfold handleCommand.
  repeat match goal with
         | |- context [if ?b then _ else _] => destruct b
         end;
    eauto using runProject_consistent, stopProject_consistent,
      openFolder_consistent, cleanProject_consistent.
  unfold send. intros E; inversion E; subst; exact C.
Qed.

Lemma on_message_consistent (w : world) (ws : conn) (message : frame) (s : state) r s' es :
  consistent s -> on_message w ws message s = (r, s', es) -> consistent s'.
Proof.
  intros C. unfold on_message, try_catch.
  destruct message as [e|data].
  - unfold throw, send. simpl. intros E; inversion E; subst; exact C.
  - destruct (handleCommand w ws data s) as [[r0 s0] e0] eqn:H.
    pose proof (handleCommand_consistent _ _ _ _ _ _ _ C H) as C0.
    destruct r0; unfold send; simpl; intros E; inversion E; subst; exact C0.
Qed.

Lemma child_event_consistent (s : state) (i : input) r s' es :
  consistent s ->
  match i with
  | ChildStdout c data => child_stdout c data s = (r, s', es)
  | ChildStderr c data => child_stderr c data s = (r, s', es)
  | ChildError c e => child_error c e s = (r, s', es)
  | ChildClose c code => child_close c code s = (r, s', es)
  | _ => False
  end -> consistent s'.
Proof.
  intros C.
  destruct i; try contradiction;
    unfold child_stdout, child_stderr, child_error, child_close, bind, attached,
      send, delete, broadcastStatus, with_running, throw, ret;
    (destruct (listeners_of c (handlers s)) as [[? ?|? ? ?]|]); simpl;
    try (destruct (code_is_zero code)); simpl;
    intros E; inversion E; subst; consistent_case.
Qed.

Lemma step_consistent (s : state) (i : input) :
  consistent s -> consistent (fst (step s i)).
Proof.
  intros C. unfold step. destruct (alive s); [|exact C].
  destruct i.
  - simpl. unfold with_clients. consistent_case.
  - simpl. unfold with_clients. consistent_case.
  - apply run_listener_consistent. intros r s' es. apply on_message_consistent. exact C.
  - apply run_listener_consistent. intros r s' es. apply (child_event_consistent s (ChildStdout c data)). exact C.
  - apply run_listener_consistent. intros r s' es. apply (child_event_consistent s (ChildStderr c data)). exact C.
  - apply run_listener_consistent. intros r s' es. apply (child_event_consistent s (ChildError c message)). exact C.
  - apply run_listener_consistent. intros r s' es. apply (child_event_consistent s (ChildClose c code)). exact C.
Qed.

Lemma exec_consistent (inputs : list input) (s : state) :
  consistent s -> consistent (fst (exec s inputs)).
Proof.
  revert s. induction inputs as [|i rest IH]; intros s C; simpl.
  - exact C.
  - destruct (step s i) as [s1 e1] eqn:E1.
    specialize (IH s1).
    destruct (exec s1 rest) as [s2 e2]. simpl in *.
    apply IH. pose proof (step_consistent s i C) as C1. rewrite E1 in C1. exact C1.
Qed.

Lemma initial_consistent : consistent initial.
Proof.
  split; [intros k; simpl; lia | intros c _; reflexivity].
Qed.

Lemma reachable_consistent (s : state) : reachable s -> consistent s.
Proof.
  intros [inputs ->]. apply exec_consistent. exact initial_consistent.
Qed.

Lemma reachable_step (s : state) (i : input) :
  reachable s -> reachable (fst (step s i)).
Proof.
  intros [inputs ->]. exists (inputs ++ [i])%list.
  generalize initial. induction inputs as [|j rest IH]; intros s0; simpl.
  - destruct (step s0 i) as [s1 e1]. reflexivity.
  - destruct (step s0 j) as [s1 e1]. specialize (IH s1).
    destruct (exec s1 rest) as [s2 e2].
    destruct (exec s1 (rest ++ [i])) as [s3 e3]. simpl in *. exact IH.
Qed.

(** ** How one input changes the registry *)

Lemma run_listener_registry (m : M unit) (s : state) (i : input) :
  (forall r s' es, m s = (r, s', es) -> registry_change s i (runningProcesses s')) ->
  registry_change s i (runningProcesses (fst (run_listener m s))).
Proof.
  intros H. unfold run_listener.
  destruct (m s) as [[r s'] es]. specialize (H _ _ _ eq_refl).
  destruct r; exact H.
Qed.

Lemma is_start_cases (a : string) :
  is_start a = true <-> a = "run" \/ a = "deploy" \/ a = "install".
Proof.
  unfold is_start. rewrite !orb_true_iff, !String.eqb_eq. tauto.
Qed.

Lemma runProject_registry (w : world) (ws : conn) (data : command_message) (cmd : string)
    (s : state) r s' es :
  is_start (action data) = true ->
  runProject w ws (projectPath data) (projectName data) cmd s = (r, s', es) ->
  registry_change s (Message ws (Parsed data) w) (runningProcesses s').
Proof.
  intros A. rewrite runProject_spec.
  destruct (Map_has (runningProcesses s) (projectPath data)) eqn:H;
    [|destruct (spawn_oracle w) as [e|pid] eqn:O]; cbv zeta;
    intros E; inversion E; subst.
  - apply Unchanged. reflexivity.
  - apply Unchanged. reflexivity.
  - eapply Created; eauto.
Qed.

Lemma stopProject_registry (w : world) (ws : conn) (data : command_message)
    (s : state) r s' es :
  action data = "stop" ->
  stopProject w ws (projectPath data) s = (r, s', es) ->
  registry_change s (Message ws (Parsed data) w) (runningProcesses s').
Proof.
  intros A. unfold stopProject, bind, get, send, spawn, kill, delete,
    broadcastStatus, with_running, throw, ret.
  destruct (Map_get (runningProcesses s) (projectPath data)) as [v|] eqn:G; simpl;
    [destruct (platform =? "win32"); [destruct (spawn_oracle w)|]|]; simpl;
    intros E; inversion E; subst; simpl;
    try (apply Unchanged; reflexivity);
    (eapply Stopped; eauto; apply has_get; eauto).
Qed.

Lemma handleCommand_registry (w : world) (ws : conn) (data : command_message)
    (s : state) r s' es :
  handleCommand w ws data s = (r, s', es) ->
  registry_change s (Message ws (Parsed data) w) (runningProcesses s').
Proof.
  unfold handleCommand.
  destruct (String.eqb_spec (action data) "run") as [A|_].
  { apply runProject_registry. rewrite A. reflexivity. }
  destruct (String.eqb_spec (action data) "deploy") as [A|_].
  { apply runProject_registry. rewrite A. reflexivity. }
  destruct (String.eqb_spec (action data) "install") as [A|_].
  { apply runProject_registry. rewrite A. reflexivity. }
  destruct (String.eqb_spec (action data) "stop") as [A|_].
  { apply stopProject_registry. exact A. }
  destruct (String.eqb_spec (action data) "open") as [A|_].
  { unfold openFolder, bind, send, spawn, throw.
    destruct (spawn_oracle w); simpl; intros E; inversion E; subst;
      apply Unchanged; reflexivity. }
  destruct (String.eqb_spec (action data) "clean") as [A|_].
  { destruct (existsSync w (path_join (projectPath data) "node_modules")) eqn:X.
    - rewrite (cleanProject_present _ _ _ _ _ X).
      destruct (spawn_oracle w); intros E; inversion E; subst;
        apply Unchanged; reflexivity.
    - rewrite (cleanProject_absent _ _ _ _ _ X).
      intros E; inversion E; subst; apply Unchanged; reflexivity. }
  unfold send. intros E; inversion E; subst. apply Unchanged; reflexivity.
Qed.

Lemma on_message_registry (w : world) (ws : conn) (message : frame) (s : state) r s' es :
  on_message w ws message s = (r, s', es) ->
  registry_change s (Message ws message w) (runningProcesses s').
Proof.
  unfold on_message, try_catch.
  destruct message as [e|data].
  - unfold throw, send. simpl. intros E; inversion E; subst.
    apply Unchanged; reflexivity.
  - destruct (handleCommand w ws data s) as [[r0 s0] e0] eqn:H.
    pose proof (handleCommand_registry _ _ _ _ _ _ _ H) as C0.
    destruct r0; unfold send; simpl; intros E; inversion E; subst; exact C0.
Qed.

Lemma step_registry (s : state) (i : input) :
  registry_change s i (runningProcesses (fst (step s i))).
Proof.
  unfold step. destruct (alive s); [|apply Unchanged; reflexivity].
  destruct i.
  - apply Unchanged; reflexivity.
  - apply Unchanged; reflexivity.
  - apply run_listener_registry. intros r s' es. apply on_message_registry.
  - apply run_listener_registry. intros r s' es.
    unfold child_stdout, bind, attached, send, ret.
    destruct (listeners_of c (handlers s)) as [[? ?|? ? ?]|]; simpl;
      intros E; inversion E; subst; apply Unchanged; reflexivity.
  - apply run_listener_registry. intros r s' es.
    unfold child_stderr, bind, attached, send, ret.
    destruct (listeners_of c (handlers s)) as [[? ?|? ? ?]|]; simpl;
      intros E; inversion E; subst; apply Unchanged; reflexivity.
  - apply run_listener_registry. intros r s' es.
    unfold child_error, bind, attached, send, delete, broadcastStatus, with_running, throw.
    destruct (listeners_of c (handlers s)) as [[ws p|? ? ?]|] eqn:L; simpl;
      intros E; inversion E; subst; simpl;
      try (apply Unchanged; reflexivity);
      (eapply Errored; eauto).
  - apply run_listener_registry. intros r s' es.
    unfold child_close, bind, attached, send, delete, broadcastStatus, with_running, ret.
    destruct (listeners_of c (handlers s)) as [[ws p|? ? ?]|] eqn:L; simpl;
      try (destruct (code_is_zero code)); simpl;
      intros E; inversion E; subst; simpl;
      try (apply Unchanged; reflexivity);
      (eapply Exited; eauto).
Qed.

(** ** The properties of the specification *)

(** C1.  In every state the server can reach, the registry holds at most
    one entry for a project path.  Moreover an input makes an entry for
    [p] appear only when it is a [run], [deploy] or [install] command
    for [p] whose [spawn] handed back a child, and makes it disappear
    only when it is the [close] or the [error] event of a child spawned
    for [p], or a [stop] command for [p]. *)
Theorem registry_at_most_one_entry_per_path :
  forall (inputs : list input) (i : input) (p : string),
    let s := fst (exec initial inputs) in
    let s' := fst (step s i) in
    entries_for p (runningProcesses s) <= 1 /\
    (Map_has (runningProcesses s) p = false ->
     Map_has (runningProcesses s') p = true ->
     exists ws data w pid,
       i = Message ws (Parsed data) w /\ projectPath data = p /\
       is_start (action data) = true /\ spawn_oracle w = SpawnReturns pid) /\
    (Map_has (runningProcesses s) p = true ->
     Map_has (runningProcesses s') p = false ->
     (exists c code ws,
        i = ChildClose c code /\
        listeners_of c (handlers s) = Some (RunListeners ws p)) \/
     (exists ws data w,
        i = Message ws (Parsed data) w /\ action data = "stop" /\
        projectPath data = p) \/
     (exists c e ws,
        i = ChildError c e /\
        listeners_of c (handlers s) = Some (RunListeners ws p))).
Proof.
  intros inputs i p s s'.
  assert (R : reachable s) by (exists inputs; reflexivity).
  destruct (reachable_consistent s R) as [U _].
  split; [apply U|].
  pose proof (step_registry s i) as Ch. fold s' in Ch.
  split; intros Before After.
  - destruct Ch as [E | ws data w pid Ei A O H E | ws data w Ei A H E
                   | c code ws q Ei L E | c e ws q Ei L E];
      rewrite E in After.
    + congruence.
    + destruct (string_dec (projectPath data) p) as [Hp|Hp].
      * exists ws, data, w, pid. auto.
      * simpl in After. rewrite (has_set_other _ _ _ _ Hp) in After. congruence.
    + apply has_delete_true in After. congruence.
    + apply has_delete_true in After. congruence.
    + apply has_delete_true in After. congruence.
  - destruct Ch as [E | ws data w pid Ei A O H E | ws data w Ei A H E
                   | c code ws q Ei L E | c e ws q Ei L E];
      rewrite E in After.
    + congruence.
    + simpl in After. destruct (string_dec (projectPath data) p) as [Hp|Hp].
      * rewrite Hp in After. rewrite has_set_same in After. discriminate.
      * rewrite (has_set_other _ _ _ _ Hp) in After. congruence.
    + destruct (string_dec (projectPath data) p) as [Hp|Hp].
      * right. left. exists ws, data, w. auto.
      * rewrite (has_delete_other _ _ _ Hp) in After. congruence.
    + destruct (string_dec q p) as [Hp|Hp].
      * subst q. left. exists c, code, ws. auto.
      * rewrite (has_delete_other _ _ _ Hp) in After. congruence.
    + destruct (string_dec q p) as [Hp|Hp].
      * subst q. right. right. exists c, e, ws. auto.
      * rewrite (has_delete_other _ _ _ Hp) in After. congruence.
Qed.

(** *** Child events on a child that [runProject] listens to *)

Lemma step_close_run (s : state) (c : child) (code : option Z) (ws : conn) (p : string) :
  alive s = true ->
  listeners_of c (handlers s) = Some (RunListeners ws p) ->
  step s (ChildClose c code) =
  (with_running (fun m => Map_delete m p) s,
   Send ws (exit_event p code) :: broadcast (with_running (fun m => Map_delete m p) s)).
Proof.
  intros A L. unfold step. rewrite A.
  unfold run_listener, child_close, bind, attached. rewrite L.
  reflexivity.
Qed.

Lemma step_error_run (s : state) (c : child) (e : string) (ws : conn) (p : string) :
  alive s = true ->
  listeners_of c (handlers s) = Some (RunListeners ws p) ->
  step s (ChildError c e) =
  (with_running (fun m => Map_delete m p) s,
   Send ws (process_error_event p e) :: broadcast (with_running (fun m => Map_delete m p) s)).
Proof.
  intros A L. unfold step. rewrite A.
  unfold run_listener, child_error, bind, attached. rewrite L.
  reflexivity.
Qed.

Lemma launched_listens (s : state) (ws : conn) (p n : string) (pid : option Z) :
  consistent s ->
  listeners_of (next_child s) (handlers (launched s ws p n pid)) = Some (RunListeners ws p).
Proof.
  intros [_ F]. simpl. rewrite listeners_of_app.
  rewrite (F (next_child s)) by lia. rewrite Nat.eqb_refl. reflexivity.
Qed.

Lemma launched_has (s : state) (ws : conn) (p n : string) (pid : option Z) :
  Map_has (runningProcesses (launched s ws p n pid)) p = true.
Proof. simpl. apply has_set_same. Qed.

Lemma launched_then_deleted (s : state) (ws : conn) (p n : string) (pid : option Z) :
  consistent s ->
  Map_has (runningProcesses (with_running (fun m => Map_delete m p) (launched s ws p n pid))) p
  = false.
Proof.
  intros C. simpl. apply has_delete_same. apply unique_set. apply C.
Qed.


Lemma step_message (s : state) (ws : conn) (message : frame) (w : world) :
  alive s = true ->
  step s (Message ws message w) = run_listener (on_message w ws message) s.
Proof. intros A. unfold step. rewrite A. reflexivity. Qed.

(** A start command, step by step: what [runProject] does, with a thrown
    exception turned into the error event of the message listener. *)
Lemma step_start (s : state) (ws : conn) (data : command_message) (w : world) (cmd : string) :
  alive s = true ->
  handleCommand w ws data =
    runProject w ws (projectPath data) (projectName data) cmd ->
  step s (Message ws (Parsed data) w) =
  match runProject w ws (projectPath data) (projectName data) cmd s with
  | (Throw e, s', es) => (s', (es ++ [Send ws (bare_error_event e)])%list)
  | (_, s', es) => (s', es)
  end.
Proof.
  intros A H. rewrite step_message by exact A.
  unfold on_message, try_catch, run_listener. rewrite H.
  rewrite runProject_spec.
  destruct (Map_has (runningProcesses s) (projectPath data));
    [|destruct (spawn_oracle w)]; reflexivity.
Qed.


Lemma handleCommand_deploy (w : world) (ws : conn) (p n : string) (cmd : option string) :
  handleCommand w ws {| action := "deploy"; projectPath := p; projectName := n; command := cmd |}
  = runProject w ws p n (or_default cmd "npm run deploy").
Proof. reflexivity. Qed.



(** *** Start commands, step by step *)

Lemma handleCommand_start (w : world) (ws : conn) (data : command_message) :
  is_start (action data) = true ->
  handleCommand w ws data =
  runProject w ws (projectPath data) (projectName data) (start_command data).
Proof.
  intros H. apply is_start_cases in H.
  unfold handleCommand, start_command.
  destruct H as [H | [H | H]]; rewrite H; reflexivity.
Qed.

Lemma step_start_spec (s : state) (ws : conn) (data : command_message) (w : world) :
  alive s = true ->
  is_start (action data) = true ->
  let p := projectPath data in
  let n := projectName data in
  let cmd := start_command data in
  step s (Message ws (Parsed data) w) =
  if Map_has (runningProcesses s) p then
    (s, [Send ws (already_running_event p n)])
  else
    let cmd' := if installs_first w p cmd then "npm install" else cmd in
    let pre := if installs_first w p cmd then [Send ws (warning_event p)] else [] in
    match spawn_oracle w with
    | SpawnThrows e =>
        (s, (pre ++ [Send ws (start_event p n cmd'); Send ws (bare_error_event e)])%list)
    | SpawnReturns pid =>
        (launched s ws p n pid,
         (pre ++ Send ws (start_event p n cmd')
              :: Spawn (next_child s) shell [shellFlag; cmd'] (RunOptions p)
              :: broadcast (launched s ws p n pid))%list)
    end.
Proof.
  intros A H p n cmd.
  rewrite (step_start s ws data w cmd A (handleCommand_start w ws data H)).
  rewrite runProject_spec. fold p n.
  destruct (Map_has (runningProcesses s) p); [reflexivity|].
  cbv zeta. destruct (spawn_oracle w); [|reflexivity].
  rewrite <- app_assoc. reflexivity.
Qed.

(** C3, as the code has it.  A start for a path with no entry whose
    [spawn] fails.  When [spawn] throws, the caller gets the bare error
    event, the state is untouched and no frame goes to anyone else.  When
    [spawn] returns a child (the failure arriving later as the child's
    [error] event), start has stored the entry: the registry holds it,
    every client was sent a status that lists it and [/api/running]
    lists it; the [error] event then sends the error event with the
    path to the caller, removes the entry and broadcasts a status that
    no longer lists the path. *)
Theorem spawn_failure_of_start :
  forall (s : state) (w : world) (ws : conn) (data : command_message),
    reachable s -> alive s = true ->
    is_start (action data) = true ->
    Map_has (runningProcesses s) (projectPath data) = false ->
    match spawn_oracle w with
    | SpawnThrows e =>
        exists es,
          step s (Message ws (Parsed data) w)
            = (s, (es ++ [Send ws (bare_error_event e)])%list) /\
          (forall c msg, In (Send c msg) es -> c = ws /\ is_type "status" msg = false)
    | SpawnReturns pid =>
        exists s1 es,
          step s (Message ws (Parsed data) w) = (s1, es) /\
          Map_has (runningProcesses s1) (projectPath data) = true /\
          (forall c, In c (clients s) ->
                     In (Send c (status_message (runningProcesses s1))) es) /\
          status_lists (projectPath data) (status_message (runningProcesses s1)) = true /\
          array_lists (projectPath data) (api_running s1) = true /\
          forall e, exists s2,
            step s1 (ChildError (next_child s) e)
              = (s2, Send ws (process_error_event (projectPath data) e) :: broadcast s2) /\
            Map_has (runningProcesses s2) (projectPath data) = false /\
            status_lists (projectPath data) (status_message (runningProcesses s2)) = false
    end.
Proof.
  intros s w ws data R A St H.
  pose proof (reachable_consistent s R) as C.
  pose proof (step_start_spec s ws data w A St) as E. cbv zeta in E.
  rewrite H in E.
  destruct (spawn_oracle w) as [e|pid].
  - eexists. split.
    + rewrite E.
      change [Send ws (start_event (projectPath data) (projectName data)
                (if installs_first w (projectPath data) (start_command data)
                 then "npm install" else start_command data));
              Send ws (bare_error_event e)]
        with ([Send ws (start_event (projectPath data) (projectName data)
                (if installs_first w (projectPath data) (start_command data)
                 then "npm install" else start_command data))]
              ++ [Send ws (bare_error_event e)])%list.
      rewrite app_assoc. reflexivity.
    + intros c msg Hin. apply in_app_or in Hin.
      destruct Hin as [Hin|Hin].
      * destruct (installs_first w (projectPath data) (start_command data));
          simpl in Hin; [|contradiction].
        destruct Hin as [Hin|[]]. inversion Hin; subst. split; reflexivity.
      * simpl in Hin. destruct Hin as [Hin|[]]. inversion Hin; subst.
        split; reflexivity.
  - exists (launched s ws (projectPath data) (projectName data) pid). eexists.
    split; [exact E|].
    split; [apply launched_has|].
    split.
    { intros c Hc. apply in_or_app. right. right. right.
      unfold broadcast. apply in_map_iff. exists c. split; [reflexivity | exact Hc]. }
    split; [rewrite status_lists_has; apply launched_has|].
    split; [rewrite api_running_has; apply launched_has|].
    intros e. eexists. split.
    + apply step_error_run; [exact A | apply launched_listens; exact C].
    + split.
      * apply launched_then_deleted. exact C.
      * rewrite status_lists_has. apply launched_then_deleted. exact C.
Qed.

(** C4.  When a child that [runProject] spawned for [p] on behalf of [ws]
    closes, with any code: [ws] is sent the exit event that carries the
    code, the entry of [p] is removed, the status broadcast to every
    client right after it does not list [p], and neither the server nor
    any connection is ended. *)
Theorem process_exit_reported_and_removed :
  forall (s : state) (c : child) (code : option Z) (ws : conn) (p : string),
    reachable s -> alive s = true ->
    listeners_of c (handlers s) = Some (RunListeners ws p) ->
    exists s',
      step s (ChildClose c code)
        = (s', Send ws (exit_event p code) :: broadcast s') /\
      is_type "exit" (exit_event p code) = true /\
      field "projectPath" (exit_event p code) = Some (JStr p) /\
      (forall z, code = Some z -> field "code" (exit_event p code) = Some (JNum z)) /\
      Map_has (runningProcesses s') p = false /\
      status_lists p (status_message (runningProcesses s')) = false /\
      alive s' = true /\ clients s' = clients s.
Proof.
  intros s c code ws p R A L.
  pose proof (reachable_consistent s R) as [U _].
  eexists. split; [apply step_close_run; assumption|].
  split; [reflexivity|]. split; [reflexivity|].
  split; [intros z ->; reflexivity|].
  split; [apply has_delete_same; exact U|].
  split; [rewrite status_lists_has; apply has_delete_same; exact U|].
  split; [exact A | reflexivity].
Qed.

(** *** An entry stays until an input ends it *)

Lemma step_keeps_entry (s : state) (i : input) (p : string) :
  Map_has (runningProcesses s) p = true ->
  ends p s i = false ->
  Map_has (runningProcesses (fst (step s i))) p = true.
Proof.
  intros H N.
  destruct (step_registry s i) as [E | ws data w pid Ei A O Hn E | ws data w Ei A Hh E
                                  | c code ws q Ei L E | c e ws q Ei L E];
    rewrite E; clear E.
  - exact H.
  - simpl. destruct (string_dec (projectPath data) p) as [Hp|Hp].
    + rewrite Hp. apply has_set_same.
    + rewrite (has_set_other _ _ _ _ Hp). exact H.
  - subst i. simpl in N. rewrite A in N. simpl in N.
    destruct (String.eqb_spec (projectPath data) p) as [Hp|Hp]; [discriminate|].
    rewrite (has_delete_other _ _ _ Hp). exact H.
  - subst i. simpl in N. rewrite L in N.
    destruct (String.eqb_spec q p) as [Hp|Hp]; [discriminate|].
    rewrite (has_delete_other _ _ _ Hp). exact H.
  - subst i. simpl in N. rewrite L in N.
    destruct (String.eqb_spec q p) as [Hp|Hp]; [discriminate|].
    rewrite (has_delete_other _ _ _ Hp). exact H.
Qed.

Lemma exec_keeps_entry (inputs : list input) (s : state) (p : string) :
  Map_has (runningProcesses s) p = true ->
  undisturbed p s inputs = true ->
  Map_has (runningProcesses (fst (exec s inputs))) p = true.
Proof.
  revert s. induction inputs as [|i rest IH]; intros s H N; simpl.
  - exact H.
  - simpl in N. apply andb_true_iff in N. destruct N as [N1 N2].
    apply negb_true_iff in N1.
    pose proof (step_keeps_entry s i p H N1) as H1.
    destruct (step s i) as [s1 e1]. simpl in *.
    specialize (IH s1 H1 N2).
    destruct (exec s1 rest) as [s2 e2]. exact IH.
Qed.

Lemma reachable_exec (inputs : list input) (s : state) :
  reachable s -> reachable (fst (exec s inputs)).
Proof.
  revert s. induction inputs as [|i rest IH]; intros s R; simpl.
  - exact R.
  - pose proof (reachable_step s i R) as R1.
    destruct (step s i) as [s1 e1]. simpl in R1. specialize (IH s1 R1).
    destruct (exec s1 rest) as [s2 e2]. exact IH.
Qed.

(** C5.  A start for [p] whose [spawn] hands back a child, then inputs
    none of which ends the entry of [p] (no [close] or [error] of a child
    spawned for [p], no [stop] for [p]), then a second start for [p]:
    the second start sends its caller exactly one frame, the
    already-running error, and nothing to anyone else (so no status),
    leaves the state as it was, and the registry holds exactly one entry
    for [p]. *)
Theorem second_start_is_rejected :
  forall (s : state) (p : string)
         (ws1 : conn) (data1 : command_message) (w1 : world) (pid : option Z)
         (between : list input)
         (ws2 : conn) (data2 : command_message) (w2 : world),
    reachable s -> alive s = true ->
    is_start (action data1) = true -> projectPath data1 = p ->
    spawn_oracle w1 = SpawnReturns pid ->
    is_start (action data2) = true -> projectPath data2 = p ->
    let s1 := fst (step s (Message ws1 (Parsed data1) w1)) in
    undisturbed p s1 between = true ->
    let s2 := fst (exec s1 between) in
    alive s2 = true ->
    step s2 (Message ws2 (Parsed data2) w2)
      = (s2, [Send ws2 (already_running_event p (projectName data2))]) /\
    is_type "error" (already_running_event p (projectName data2)) = true /\
    entries_for p (runningProcesses s2) = 1.
Proof.
  intros s p ws1 data1 w1 pid between ws2 data2 w2 R A St1 P1 O St2 P2 s1 N s2 A2.
  assert (H1 : Map_has (runningProcesses s1) p = true).
  { unfold s1. rewrite (step_start_spec s ws1 data1 w1 A St1). cbv zeta.
    rewrite P1, O.
    destruct (Map_has (runningProcesses s) p) eqn:H; [exact H|].
    apply launched_has. }
  assert (H2 : Map_has (runningProcesses s2) p = true).
  { apply exec_keeps_entry; assumption. }
  assert (R2 : reachable s2).
  { apply reachable_exec. apply reachable_step. exact R. }
  split.
  - rewrite (step_start_spec s2 ws2 data2 w2 A2 St2). cbv zeta.
    rewrite P2, H2. reflexivity.
  - split; [reflexivity|].
    destruct (reachable_consistent s2 R2) as [U _]. specialize (U p).
    apply has_entries_pos in H2. lia.
Qed.

(** C7.  A [stop] for a path with no entry sends its caller exactly one
    frame, the not-found error, sends nothing to anyone else (so no
    status) and leaves the state as it was. *)
Theorem stop_without_entry_is_not_found :
  forall (s : state) (ws : conn) (data : command_message) (w : world),
    alive s = true ->
    action data = "stop" ->
    Map_has (runningProcesses s) (projectPath data) = false ->
    step s (Message ws (Parsed data) w)
      = (s, [Send ws (not_found_event (projectPath data))]) /\
    is_type "error" (not_found_event (projectPath data)) = true.
Proof.
  intros s ws data w A St H. split; [|reflexivity].
  rewrite step_message by exact A.
  unfold on_message, try_catch, run_listener, handleCommand. rewrite St. simpl.
  rewrite (stopProject_absent w ws _ s H). reflexivity.
Qed.

(** C6.  [clean] on a project without [node_modules] sends its caller
    one info frame and does nothing else: no spawn, no change of state.
    [clean] on a project with [node_modules], when [spawn] returns the
    child, sends the info frame and spawns the recursive forced removal
    of the directory; when that child closes the caller is sent exactly
    one frame, the success event if the code is 0 and the error event
    otherwise. *)
Theorem clean_reports_the_removal :
  forall (s : state) (ws : conn) (data : command_message) (w : world),
    reachable s -> alive s = true ->
    action data = "clean" ->
    let p := projectPath data in
    let n := projectName data in
    (existsSync w (path_join p "node_modules") = false ->
     step s (Message ws (Parsed data) w)
       = (s, [Send ws (nothing_to_clean_event p n)]) /\
     is_type "info" (nothing_to_clean_event p n) = true) /\
    (existsSync w (path_join p "node_modules") = true ->
     forall pid, spawn_oracle w = SpawnReturns pid ->
     exists s1,
       step s (Message ws (Parsed data) w)
         = (s1, [Send ws (cleaning_event p n);
                 Spawn (next_child s) removal_file (removal_args p) ShellTrue]) /\
       forall code, exists msg,
         step s1 (ChildClose (next_child s) code) = (s1, [Send ws msg]) /\
         (code = Some 0%Z -> msg = cleaned_event p n) /\
         (code <> Some 0%Z -> msg = clean_failed_event p n) /\
         is_type "success" (cleaned_event p n) = true /\
         is_type "error" (clean_failed_event p n) = true).
Proof.
  intros s ws data w R A Cl p n.
  pose proof (reachable_consistent s R) as [_ F].
  assert (E : step s (Message ws (Parsed data) w)
              = run_listener (try_catch (cleanProject w ws p n)
                   (fun e => send ws (JObj [("type", JStr "error"); ("message", JStr e)]))) s).
  { rewrite step_message by exact A.
    unfold on_message, handleCommand. rewrite Cl. reflexivity. }
  split.
  - intros X. split; [|reflexivity]. rewrite E. unfold run_listener, try_catch.
    rewrite (cleanProject_absent w ws p n s X). reflexivity.
  - intros X pid O. exists (cleaning s ws p n). split.
    + rewrite E. unfold run_listener, try_catch.
      rewrite (cleanProject_present w ws p n s X). rewrite O. reflexivity.
    + intros code.
      assert (L : listeners_of (next_child s) (handlers (cleaning s ws p n))
                  = Some (CleanListeners ws p n)).
      { simpl. rewrite listeners_of_app. rewrite (F (next_child s)) by lia.
        rewrite Nat.eqb_refl. reflexivity. }
      exists (if code_is_zero code then cleaned_event p n else clean_failed_event p n).
      split.
      * unfold step. simpl alive. rewrite A.
        unfold run_listener, child_close, bind, attached. rewrite L.
        destruct (code_is_zero code); reflexivity.
      * split.
        { intros ->. reflexivity. }
        split.
        { intros Hc. destruct code as [z|]; simpl; [|reflexivity].
          destruct (Z.eqb_spec z 0) as [->|]; [contradiction | reflexivity]. }
        split; reflexivity.
Qed.

(** C9.  A frame that does not parse, or whose action [handleCommand]
    does not know, is answered with one error frame to the connection
    that sent it and with nothing else: no frame to any other
    connection, no spawn, and the state (registry, open connections,
    listeners) is as before, so whatever comes next runs as if the
    frame had never arrived. *)
Theorem malformed_frame_is_answered_to_its_sender_only :
  forall (s : state) (ws : conn) (message : frame) (w : world) (later : list input),
    alive s = true ->
    malformed message = true ->
    step s (Message ws message w)
      = (s, [Send ws (bare_error_event (malformed_error message))]) /\
    is_type "error" (bare_error_event (malformed_error message)) = true /\
    exec s (Message ws message w :: later)
      = (fst (exec s later),
         Send ws (bare_error_event (malformed_error message)) :: snd (exec s later)).
Proof.
  intros s ws message w later A Mal.
  assert (E : step s (Message ws message w)
              = (s, [Send ws (bare_error_event (malformed_error message))])).
  { rewrite step_message by exact A.
    unfold on_message, try_catch, run_listener.
    destruct message as [e|data]; simpl.
    - reflexivity.
    - simpl in Mal. apply negb_true_iff in Mal.
      rewrite (handleCommand_unrecognized w ws data s Mal). reflexivity. }
  split; [exact E|]. split; [reflexivity|].
  cbn [exec]. rewrite E.
  destruct (exec s later) as [s2 e2]. reflexivity.
Qed.

(** C10.  [runProject] needs two levels and no more: with any fuel from
    2 on it gives the answer of [runProject], which is never [Diverge];
    the self-call, made with [npm install], contains [install] and so
    completes at one level, without a self-call of its own; and one
    level alone is short exactly when the self-call is made. *)
Theorem runProject_fuel_enough :
  includes "install" "npm install" = true /\
  forall (fuel : nat) (w : world) (ws : conn) (p n cmd : string) (s : state),
    runProject_fuel (2 + fuel) w ws p n cmd s = runProject w ws p n cmd s /\
    fst (fst (runProject w ws p n cmd s)) <> Diverge /\
    fst (fst (runProject_fuel 1 w ws p n "npm install" s)) <> Diverge /\
    (fst (fst (runProject_fuel 1 w ws p n cmd s)) = Diverge <->
     Map_has (runningProcesses s) p = false /\ installs_first w p cmd = true).
Proof.
  split; [reflexivity|].
  intros fuel w ws p n cmd s.
  split.
  { change (2 + fuel) with (S (S fuel)).
    rewrite runProject_fuel_spec, runProject_spec. reflexivity. }
  split.
  { rewrite runProject_spec.
    destruct (Map_has (runningProcesses s) p); [simpl; discriminate|].
    cbv zeta. destruct (spawn_oracle w); simpl; discriminate. }
  split.
  { destruct (Map_has (runningProcesses s) p) eqn:H.
    - rewrite (runProject_running 0 w ws p n _ s H). simpl. discriminate.
    - rewrite (runProject_fuel_install 0 w ws p n s H).
      destruct (spawn_oracle w); simpl; discriminate. }
  destruct (Map_has (runningProcesses s) p) eqn:H.
  - rewrite (runProject_running 0 w ws p n _ s H). simpl.
    split; [discriminate | intros [? _]; discriminate].
  - unfold installs_first.
    destruct (negb (existsSync w (path_join p "node_modules")) && negb (includes "install" cmd)) eqn:G.
    + rewrite (runProject_install_first 0 w ws p n cmd s H G). simpl.
      split; auto.
    + rewrite (runProject_launch 0 w ws p n cmd s H G).
      destruct (spawn_oracle w); simpl;
        (split; [discriminate | intros [_ ?]; discriminate]).
Qed.

(** ** Further properties of the handlers *)

Lemma get_set_other (m : Map) (k k' : string) (v : proc) :
  k' <> k -> Map_get (Map_set m k' v) k = Map_get m k.
Proof.
  intros Hne. induction m as [|[k0 v0] m IH]; simpl.
  - destruct (String.eqb_spec k' k); [contradiction | reflexivity].
  - destruct (String.eqb_spec k0 k') as [->|H0]; simpl.
    + destruct (String.eqb_spec k' k); [contradiction | reflexivity].
    + destruct (k0 =? k); [reflexivity | exact IH].
Qed.

Lemma get_delete_other (m : Map) (k k' : string) :
  k' <> k -> Map_get (Map_delete m k') k = Map_get m k.
Proof.
  intros Hne. induction m as [|[k0 v0] m IH]; simpl.
  - reflexivity.
  - destruct (String.eqb_spec k0 k') as [->|H0]; simpl.
    + destruct (String.eqb_spec k' k); [contradiction | reflexivity].
    + destruct (k0 =? k); [reflexivity | exact IH].
Qed.

Lemma stopProject_present (w : world) (ws : conn) (p : string) (s : state) (v : proc) :
  Map_get (runningProcesses s) p = Some v ->
  stopProject w ws p s =
  match platform =? "win32", spawn_oracle w with
  | true, SpawnThrows e => (Throw e, s, [Send ws (stopping_event p (name v))])
  | _, _ =>
      (Normal tt, stopped s p,
       Send ws (stopping_event p (name v))
       :: termination v (next_child s)
       :: (broadcast (stopped s p) ++ [Send ws (stopped_event p (name v))])%list)
  end.
Proof.
  intros G. unfold stopProject, bind, get. rewrite G.
  unfold send, spawn, kill, delete, broadcastStatus, with_running, throw, ret,
    termination, stopped, broadcast.
  destruct (platform =? "win32"); [destruct (spawn_oracle w)|]; simpl; reflexivity.
Qed.

Lemma step_stop (s : state) (ws : conn) (data : command_message) (w : world) :
  alive s = true ->
  action data = "stop" ->
  step s (Message ws (Parsed data) w) =
  run_listener
    (try_catch (stopProject w ws (projectPath data))
       (fun e => send ws (JObj [("type", JStr "error"); ("message", JStr e)]))) s.
Proof.
  intros A St. rewrite step_message by exact A.
  unfold on_message, handleCommand. rewrite St. reflexivity.
Qed.

(** X1.  A [stop] for a path that has an entry: the caller is told
    "Stopping" with the name stored in the entry, the process is
    signalled ([SIGTERM], or [taskkill /pid pid /f /t] on Windows), the
    entry is removed at once, every client is sent a status without the
    path, and the caller is told "stopped".  Only when [taskkill] cannot
    be spawned is the entry kept, the caller getting the bare error. *)
Theorem stop_removes_entry_at_once :
  forall (s : state) (ws : conn) (data : command_message) (w : world) (v : proc),
    reachable s -> alive s = true ->
    action data = "stop" ->
    Map_get (runningProcesses s) (projectPath data) = Some v ->
    match platform =? "win32", spawn_oracle w with
    | true, SpawnThrows e =>
        step s (Message ws (Parsed data) w)
          = (s, [Send ws (stopping_event (projectPath data) (name v));
                 Send ws (bare_error_event e)])
    | _, _ =>
        step s (Message ws (Parsed data) w)
          = (stopped s (projectPath data),
             Send ws (stopping_event (projectPath data) (name v))
             :: termination v (next_child s)
             :: (broadcast (stopped s (projectPath data))
                 ++ [Send ws (stopped_event (projectPath data) (name v))])%list) /\
        Map_has (runningProcesses (stopped s (projectPath data))) (projectPath data)
          = false /\
        status_lists (projectPath data)
          (status_message (runningProcesses (stopped s (projectPath data)))) = false
    end.
Proof.
  intros s ws data w v R A St G.
  destruct (reachable_consistent s R) as [U _].
  rewrite (step_stop s ws data w A St).
  unfold run_listener, try_catch.
  rewrite (stopProject_present w ws _ s v G).
  assert (H : Map_has (runningProcesses (stopped s (projectPath data))) (projectPath data)
              = false) by (simpl; apply has_delete_same; exact U).
  destruct (platform =? "win32"); [destruct (spawn_oracle w)|].
  - reflexivity.
  - split; [reflexivity|]. split; [exact H|]. rewrite status_lists_has. exact H.
  - split; [reflexivity|]. split; [exact H|]. rewrite status_lists_has. exact H.
Qed.

(** X2.  The [close] listener removes the entry of its path whichever
    child the entry holds.  When a child spawned for [p] closes while
    the entry of [p] holds another child (the project was stopped and
    started again), the entry is removed all the same: the later child
    keeps its listeners, but the path is no longer listed, a [stop] for
    it answers not-found, and a start for it spawns one more child. *)
Theorem close_of_earlier_child_drops_later_entry :
  forall (s : state) (c0 : child) (ws0 : conn) (p : string) (v : proc) (code : option Z),
    reachable s -> alive s = true ->
    listeners_of c0 (handlers s) = Some (RunListeners ws0 p) ->
    Map_get (runningProcesses s) p = Some v ->
    process v <> c0 ->
    exists s',
      step s (ChildClose c0 code) = (s', Send ws0 (exit_event p code) :: broadcast s') /\
      Map_has (runningProcesses s') p = false /\
      status_lists p (status_message (runningProcesses s')) = false /\
      listeners_of (process v) (handlers s') = listeners_of (process v) (handlers s) /\
      (forall ws data w,
         action data = "stop" -> projectPath data = p ->
         step s' (Message ws (Parsed data) w) = (s', [Send ws (not_found_event p)])) /\
      (forall ws data w pid,
         is_start (action data) = true -> projectPath data = p ->
         spawn_oracle w = SpawnReturns pid ->
         fst (step s' (Message ws (Parsed data) w))
         = launched s' ws p (projectName data) pid).
Proof.
  intros s c0 ws0 p v code R A L G Ne.
  destruct (reachable_consistent s R) as [U _].
  exists (with_running (fun m => Map_delete m p) s).
  assert (H : Map_has (runningProcesses (with_running (fun m => Map_delete m p) s)) p
              = false) by (simpl; apply has_delete_same; exact U).
  split; [apply step_close_run; assumption|].
  split; [exact H|].
  split; [rewrite status_lists_has; exact H|].
  split; [reflexivity|].
  split.
  - intros ws data w St P. subst p.
    rewrite step_stop by (simpl; assumption).
    unfold run_listener, try_catch.
    rewrite (stopProject_absent w ws _ _ H). reflexivity.
  - intros ws data w pid St P O. subst p.
    match goal with
    | |- context [step ?s' _] => rewrite (step_start_spec s' ws data w A St)
    end.
    cbv zeta. rewrite H, O. reflexivity.
Qed.

(** X5.  The test that guards the automatic install looks for the text
    [install] anywhere in the command.  A start whose command contains
    it is spawned as it is, with no warning and no install, whether or
    not [node_modules] exists. *)
Theorem install_in_command_skips_dependency_check :
  forall (s : state) (ws : conn) (data : command_message) (w : world) (pid : option Z),
    alive s = true ->
    is_start (action data) = true ->
    Map_has (runningProcesses s) (projectPath data) = false ->
    includes "install" (start_command data) = true ->
    spawn_oracle w = SpawnReturns pid ->
    step s (Message ws (Parsed data) w)
    = (launched s ws (projectPath data) (projectName data) pid,
       Send ws (start_event (projectPath data) (projectName data) (start_command data))
       :: Spawn (next_child s) shell [shellFlag; start_command data]
                (RunOptions (projectPath data))
       :: broadcast (launched s ws (projectPath data) (projectName data) pid)).
Proof.
  intros s ws data w pid A St H I O.
  rewrite (step_start_spec s ws data w A St). cbv zeta.
  rewrite H, O. unfold installs_first. rewrite I, andb_false_r. reflexivity.
Qed.

(** X6.  An input leaves the entry of every other path as it is: unless
    the input is a start for [q], a [stop] for [q], or the [close] or
    [error] of a child spawned for [q], the registry answers for [q]
    after the input what it answered before (same name, pid and child,
    or no entry). *)
Theorem other_paths_are_untouched :
  forall (s : state) (i : input) (q : string),
    ends q s i = false ->
    (forall ws data w,
       i = Message ws (Parsed data) w -> is_start (action data) = true ->
       projectPath data <> q) ->
    Map_get (runningProcesses (fst (step s i))) q = Map_get (runningProcesses s) q.
Proof.
  intros s i q N NS.
  destruct (step_registry s i) as [E | ws data w pid Ei A O Hn E | ws data w Ei A Hh E
                                  | c code ws p Ei L E | c e ws p Ei L E];
    rewrite E; clear E.
  - reflexivity.
  - simpl. apply get_set_other. exact (NS ws data w Ei A).
  - subst i. simpl in N. rewrite A in N. simpl in N.
    destruct (String.eqb_spec (projectPath data) q) as [Hp|Hp]; [discriminate|].
    apply get_delete_other. exact Hp.
  - subst i. simpl in N. rewrite L in N.
    destruct (String.eqb_spec p q) as [Hp|Hp]; [discriminate|].
    apply get_delete_other. exact Hp.
  - subst i. simpl in N. rewrite L in N.
    destruct (String.eqb_spec p q) as [Hp|Hp]; [discriminate|].
    apply get_delete_other. exact Hp.
Qed.

(** *** Status frames and the registry *)

Lemma quiet_nil : quiet [].
Proof. intros c msg []. Qed.

Lemma quiet_send (ws : conn) (msg : json) (es : list effect) :
  is_type "status" msg = false -> quiet es -> quiet (Send ws msg :: es).
Proof.
  intros T Q c m [H|H]; [inversion H; subst; exact T | exact (Q c m H)].
Qed.

Lemma quiet_spawn (ch : child) (file : string) (args : list string)
    (o : spawn_options) (es : list effect) :
  quiet es -> quiet (Spawn ch file args o :: es).
Proof.
  intros Q c m [H|H]; [discriminate | exact (Q c m H)].
Qed.

Lemma quiet_kill (ch : child) (sig : string) (es : list effect) :
  quiet es -> quiet (Kill ch sig :: es).
Proof.
  intros Q c m [H|H]; [discriminate | exact (Q c m H)].
Qed.

Lemma quiet_app (es1 es2 : list effect) :
  quiet es1 -> quiet es2 -> quiet (es1 ++ es2).
Proof.
  intros Q1 Q2 c m H. apply in_app_or in H.
  destruct H as [H|H]; [exact (Q1 c m H) | exact (Q2 c m H)].
Qed.

Ltac quiet_list :=
  repeat first
    [ apply quiet_nil
    | apply quiet_send; [reflexivity|]
    | apply quiet_spawn
    | apply quiet_kill
    | apply quiet_app
    | match goal with |- quiet (if ?b then _ else _) => destruct b end ].

Lemma mirrored_quiet (s s' : state) (es : list effect) :
  runningProcesses s' = runningProcesses s -> quiet es -> mirrored s s' es.
Proof.
  intros E Q. split.
  - intros c msg H T. rewrite (Q c msg H) in T. discriminate.
  - intros Hne. contradiction.
Qed.

Lemma mirrored_broadcast (s s' : state) (pre post : list effect) :
  quiet pre -> quiet post -> mirrored s s' (pre ++ broadcast s' ++ post).
Proof.
  intros Q1 Q2. split.
  - intros c msg H T. apply in_app_or in H. destruct H as [H|H].
    { rewrite (Q1 c msg H) in T. discriminate. }
    apply in_app_or in H. destruct H as [H|H].
    + unfold broadcast in H. apply in_map_iff in H.
      destruct H as [c' [E Hc]]. inversion E; subst. split; [reflexivity | exact Hc].
    + rewrite (Q2 c msg H) in T. discriminate.
  - intros _ c Hc. apply in_or_app. right. apply in_or_app. left.
    unfold broadcast. apply in_map_iff. exists c. split; [reflexivity | exact Hc].
Qed.

Lemma mirrored_crash (s s' : state) (es : list effect) :
  mirrored s s' es -> mirrored s (crash s') es.
Proof. intros M. exact M. Qed.

Lemma run_listener_mirrored (m : M unit) (s : state) :
  (forall r s' es, m s = (r, s', es) -> mirrored s s' es) ->
  mirrored s (fst (run_listener m s)) (snd (run_listener m s)).
Proof.
  intros H. unfold run_listener.
  destruct (m s) as [[r s'] es]. specialize (H _ _ _ eq_refl).
  destruct r; exact H.
Qed.

Lemma runProject_mirrored (w : world) (ws : conn) (p n cmd : string) (s : state) r s' es :
  runProject w ws p n cmd s = (r, s', es) -> mirrored s s' es.
Proof.
  rewrite runProject_spec.
  destruct (Map_has (runningProcesses s) p); [|destruct (spawn_oracle w) as [e|pid]];
    cbv zeta; intros E; inversion E; subst; clear E.
  - apply mirrored_quiet; [reflexivity | quiet_list].
  - apply mirrored_quiet; [reflexivity | quiet_list].
  - match goal with
    | |- mirrored _ ?s1 (?pre ++ ?a :: ?b :: broadcast ?s1)%list =>
        replace (pre ++ a :: b :: broadcast s1)%list
          with ((pre ++ [a; b]) ++ broadcast s1 ++ [])%list
          by (rewrite app_nil_r, <- app_assoc; reflexivity)
    end.
    apply mirrored_broadcast; quiet_list.
Qed.

Lemma stopProject_mirrored (w : world) (ws : conn) (p : string) (s : state) r s' es :
  stopProject w ws p s = (r, s', es) -> mirrored s s' es.
Proof.
  destruct (Map_get (runningProcesses s) p) as [v|] eqn:G.
  - rewrite (stopProject_present w ws p s v G).
    destruct (platform =? "win32") eqn:P; [destruct (spawn_oracle w)|];
      intros E; inversion E; subst; clear E.
    + apply mirrored_quiet; [reflexivity | quiet_list].
    + apply (mirrored_broadcast s (stopped s p)
               [Send ws (stopping_event p (name v)); termination v (next_child s)]
               [Send ws (stopped_event p (name v))]).
      * unfold termination. rewrite P. quiet_list.
      * quiet_list.
    + apply (mirrored_broadcast s (stopped s p)
               [Send ws (stopping_event p (name v)); termination v (next_child s)]
               [Send ws (stopped_event p (name v))]).
      * unfold termination. rewrite P. quiet_list.
      * quiet_list.
  - assert (H : Map_has (runningProcesses s) p = false)
      by (unfold Map_has; rewrite G; reflexivity).
    rewrite (stopProject_absent w ws p s H).
    intros E; inversion E; subst. apply mirrored_quiet; [reflexivity | quiet_list].
Qed.

Lemma openFolder_spec (w : world) (ws : conn) (p : string) (s : state) :
  openFolder w ws p s =
  match spawn_oracle w with
  | SpawnThrows e => (Throw e, s, [])
  | SpawnReturns _ =>
      (Normal tt, after_spawn s,
       [Spawn (next_child s) file_manager [p] Detached; Send ws (opened_event p)])
  end.
Proof.
  unfold openFolder, bind, send, spawn, throw, file_manager, after_spawn.
  destruct (spawn_oracle w); reflexivity.
Qed.

Lemma handleCommand_mirrored (w : world) (ws : conn) (data : command_message)
    (s : state) r s' es :
  handleCommand w ws data s = (r, s', es) -> mirrored s s' es.
Proof.
  unfold handleCommand.
  destruct (action data =? "run"); [apply runProject_mirrored|].
  destruct (action data =? "deploy"); [apply runProject_mirrored|].
  destruct (action data =? "install"); [apply runProject_mirrored|].
  destruct (action data =? "stop"); [apply stopProject_mirrored|].
  destruct (action data =? "open").
  { rewrite openFolder_spec. destruct (spawn_oracle w);
      intros E; inversion E; subst;
      (apply mirrored_quiet; [reflexivity | quiet_list]). }
  destruct (action data =? "clean").
  { destruct (existsSync w (path_join (projectPath data) "node_modules")) eqn:X.
    - rewrite (cleanProject_present _ _ _ _ _ X).
      destruct (spawn_oracle w); intros E; inversion E; subst;
        (apply mirrored_quiet; [reflexivity | quiet_list]).
    - rewrite (cleanProject_absent _ _ _ _ _ X).
      intros E; inversion E; subst.
      apply mirrored_quiet; [reflexivity | quiet_list]. }
  unfold send. intros E; inversion E; subst.
  apply mirrored_quiet; [reflexivity | quiet_list].
Qed.

Lemma mirrored_then_quiet (s s' : state) (es post : list effect) :
  mirrored s s' es -> quiet post -> mirrored s s' (es ++ post).
Proof.
  intros [Ma Mb] Q. split.
  - intros c msg H T. apply in_app_or in H. destruct H as [H|H].
    + exact (Ma c msg H T).
    + rewrite (Q c msg H) in T. discriminate.
  - intros Hne c Hc. apply in_or_app. left. exact (Mb Hne c Hc).
Qed.

Lemma on_message_mirrored (w : world) (ws : conn) (message : frame) (s : state) r s' es :
  on_message w ws message s = (r, s', es) -> mirrored s s' es.
Proof.
  unfold on_message, try_catch.
  destruct message as [e|data].
  - unfold throw, send. simpl. intros E; inversion E; subst.
    apply mirrored_quiet; [reflexivity | quiet_list].
  - destruct (handleCommand w ws data s) as [[r0 s0] e0] eqn:H.
    pose proof (handleCommand_mirrored _ _ _ _ _ _ _ H) as M0.
    destruct r0; unfold send; simpl; intros E; inversion E; subst; try exact M0.
    apply mirrored_then_quiet; [exact M0 | quiet_list].
Qed.

Lemma mirrored_broadcast_end (s s' : state) (pre : list effect) :
  quiet pre -> mirrored s s' (pre ++ broadcast s').
Proof.
  intros Q. rewrite <- (app_nil_r (broadcast s')).
  apply mirrored_broadcast; [exact Q | apply quiet_nil].
Qed.

Lemma child_event_mirrored (s : state) (i : input) r s' es :
  match i with
  | ChildStdout c data => child_stdout c data s = (r, s', es)
  | ChildStderr c data => child_stderr c data s = (r, s', es)
  | ChildError c e => child_error c e s = (r, s', es)
  | ChildClose c code => child_close c code s = (r, s', es)
  | _ => False
  end -> mirrored s s' es.
Proof.
  destruct i; try contradiction;
    unfold child_stdout, child_stderr, child_error, child_close, bind, attached,
      send, delete, broadcastStatus, with_running, throw, ret;
    (destruct (listeners_of c (handlers s)) as [[ws p|? ? ?]|]); simpl;
    try (destruct (code_is_zero code)); simpl;
    intros E; inversion E; subst; clear E;
    try (apply mirrored_quiet; [reflexivity | quiet_list]);
    match goal with
    | |- mirrored _ _ (?a :: _) =>
        apply (mirrored_broadcast_end s
                 (with_running (fun m => Map_delete m p) s) [a]); quiet_list
    end.
Qed.

Lemma step_mirrored (s : state) (i : input) :
  mirrored s (fst (step s i)) (snd (step s i)).
Proof.
  unfold step. destruct (alive s);
    [|apply mirrored_quiet; [reflexivity | apply quiet_nil]].
  destruct i.
  - apply mirrored_quiet; [reflexivity | apply quiet_nil].
  - apply mirrored_quiet; [reflexivity | apply quiet_nil].
  - apply run_listener_mirrored. intros r s' es. apply on_message_mirrored.
  - apply run_listener_mirrored. intros r s' es.
    apply (child_event_mirrored s (ChildStdout c data)).
  - apply run_listener_mirrored. intros r s' es.
    apply (child_event_mirrored s (ChildStderr c data)).
  - apply run_listener_mirrored. intros r s' es.
    apply (child_event_mirrored s (ChildError c message)).
  - apply run_listener_mirrored. intros r s' es.
    apply (child_event_mirrored s (ChildClose c code)).
Qed.

(** X3.  Status frames mirror the registry.  Whatever the input, every
    status frame sent while handling it carries the registry as the
    handling leaves it and goes to a connected client; and when the
    handling changes the registry, every connected client is sent such
    a frame. *)
Theorem statuses_mirror_the_registry :
  forall (s : state) (i : input),
    (forall (c : conn) (msg : json),
       In (Send c msg) (snd (step s i)) -> is_type "status" msg = true ->
       msg = status_message (runningProcesses (fst (step s i))) /\
       In c (clients (fst (step s i)))) /\
    (runningProcesses (fst (step s i)) <> runningProcesses s ->
     forall c : conn, In c (clients (fst (step s i))) ->
       In (Send c (status_message (runningProcesses (fst (step s i)))))
          (snd (step s i))).
Proof.
  intros s i. exact (step_mirrored s i).
Qed.

(** *** How one input changes registry and listeners together *)

Lemma step_shape (s : state) (i : input) :
  (runningProcesses (fst (step s i)) = runningProcesses s /\
   handlers (fst (step s i)) = handlers s) \/
  (exists ws data w pid,
     i = Message ws (Parsed data) w /\ is_start (action data) = true /\
     Map_has (runningProcesses s) (projectPath data) = false /\
     runningProcesses (fst (step s i))
       = runningProcesses (launched s ws (projectPath data) (projectName data) pid) /\
     handlers (fst (step s i))
       = handlers (launched s ws (projectPath data) (projectName data) pid)) \/
  (exists p,
     runningProcesses (fst (step s i)) = Map_delete (runningProcesses s) p /\
     handlers (fst (step s i)) = handlers s) \/
  (exists ws p n,
     runningProcesses (fst (step s i)) = runningProcesses s /\
     handlers (fst (step s i))
       = (handlers s ++ [(next_child s, CleanListeners ws p n)])%list).
Proof.
  unfold step. destruct (alive s) eqn:A; [|left; split; reflexivity].
  destruct i as [ws|ws|ws message w|ch data|ch data|ch e|ch code].
  - left. split; reflexivity.
  - left. split; reflexivity.
  - unfold run_listener, on_message, try_catch.
    destruct message as [e|data].
    { left. split; reflexivity. }
    destruct (is_start (action data)) eqn:IsS.
    { rewrite (handleCommand_start w ws data IsS). rewrite runProject_spec.
      destruct (Map_has (runningProcesses s) (projectPath data)) eqn:H.
      - left. split; reflexivity.
      - cbv zeta. destruct (spawn_oracle w) as [e|pid].
        + left. split; reflexivity.
        + right. left. exists ws, data, w, pid.
          split; [reflexivity|]. split; [exact IsS|]. split; [exact H|].
          split; reflexivity. }
    destruct (recognized (action data)) eqn:Rec.
    2:{ rewrite (handleCommand_unrecognized w ws data s Rec).
        left. split; reflexivity. }
    unfold handleCommand.
    unfold is_start in IsS.
    apply orb_false_elim in IsS. destruct IsS as [IsS I3].
    apply orb_false_elim in IsS. destruct IsS as [I1 I2].
    rewrite I1, I2, I3.
    destruct (action data =? "stop") eqn:St.
    { destruct (Map_get (runningProcesses s) (projectPath data)) as [v|] eqn:G.
      - rewrite (stopProject_present w ws _ s v G).
        destruct (platform =? "win32"); [destruct (spawn_oracle w)|].
        + left. split; reflexivity.
        + right. right. left. exists (projectPath data). split; reflexivity.
        + right. right. left. exists (projectPath data). split; reflexivity.
      - assert (H : Map_has (runningProcesses s) (projectPath data) = false)
          by (unfold Map_has; rewrite G; reflexivity).
        rewrite (stopProject_absent w ws _ s H). left. split; reflexivity. }
    destruct (action data =? "open") eqn:Op.
    { rewrite openFolder_spec.
      destruct (spawn_oracle w); left; split; reflexivity. }
    destruct (action data =? "clean") eqn:Cl.
    { destruct (existsSync w (path_join (projectPath data) "node_modules")) eqn:X.
      - rewrite (cleanProject_present _ _ _ _ _ X).
        destruct (spawn_oracle w).
        + left. split; reflexivity.
        + right. right. right.
          exists ws, (projectPath data), (projectName data). split; reflexivity.
      - rewrite (cleanProject_absent _ _ _ _ _ X). left. split; reflexivity. }
    left. split; reflexivity.
  - unfold run_listener, child_stdout, bind, attached, send, ret.
    destruct (listeners_of ch (handlers s)) as [[? ?|? ? ?]|]; left; split; reflexivity.
  - unfold run_listener, child_stderr, bind, attached, send, ret.
    destruct (listeners_of ch (handlers s)) as [[? ?|? ? ?]|]; left; split; reflexivity.
  - unfold run_listener, child_error, bind, attached, send, delete, broadcastStatus,
      with_running, throw.
    destruct (listeners_of ch (handlers s)) as [[? p|? ? ?]|]; simpl;
      try (left; split; reflexivity);
      (right; right; left; exists p; split; reflexivity).
  - unfold run_listener, child_close, bind, attached, send, delete, broadcastStatus,
      with_running, ret.
    destruct (listeners_of ch (handlers s)) as [[? p|? ? ?]|]; simpl;
      try (destruct (code_is_zero code)); simpl;
      try (left; split; reflexivity);
      (right; right; left; exists p; split; reflexivity).
Qed.
Lemma get_set_same (m : Map) (k : string) (v : proc) :
  Map_get (Map_set m k v) k = Some v.
Proof.
  induction m as [|[k0 v0] m IH]; simpl.
  - rewrite String.eqb_refl. reflexivity.
  - destruct (String.eqb_spec k0 k) as [->|H0]; simpl.
    + rewrite String.eqb_refl. reflexivity.
    + destruct (String.eqb_spec k0 k); [contradiction | exact IH].
Qed.

Lemma listeners_of_app_some (c c0 : child) (l x : listeners) (hs : list (child * listeners)) :
  listeners_of c hs = Some x -> listeners_of c (hs ++ [(c0, l)]) = Some x.
Proof. intros H. rewrite listeners_of_app, H. reflexivity. Qed.

Lemma step_entries_sound (s : state) (i : input) :
  consistent s -> entries_sound s -> entries_sound (fst (step s i)).
Proof.
  intros [U F] E k v G.
  destruct (step_shape s i) as [Sh | [Sh | [Sh | Sh]]];
    [ destruct Sh as [Hr Hh]
    | destruct Sh as [ws [data [w [pid [Ei [St [Hn [Hr Hh]]]]]]]]
    | destruct Sh as [p [Hr Hh]]
    | destruct Sh as [ws [p [n [Hr Hh]]]] ];
    rewrite Hr in G; rewrite Hh.
  - exact (E k v G).
  - simpl in G. simpl.
    destruct (string_dec (projectPath data) k) as [Hp|Hp].
    + subst k. rewrite get_set_same in G. inversion G; subst v. simpl.
      split; [reflexivity|]. exists ws.
      rewrite listeners_of_app. rewrite (F (next_child s)) by lia.
      rewrite Nat.eqb_refl. reflexivity.
    + rewrite (get_set_other _ _ _ _ Hp) in G.
      destruct (E k v G) as [Pk [ws' L]]. split; [exact Pk|].
      exists ws'. apply listeners_of_app_some. exact L.
  - destruct (string_dec p k) as [Hp|Hp].
    + subst k. pose proof (has_delete_same _ p U) as D.
      unfold Map_has in D. rewrite G in D. discriminate.
    + rewrite (get_delete_other _ _ _ Hp) in G. exact (E k v G).
  - destruct (E k v G) as [Pk [ws' L]]. split; [exact Pk|].
    exists ws'. apply listeners_of_app_some. exact L.
Qed.

Lemma exec_entries_sound (inputs : list input) (s : state) :
  consistent s -> entries_sound s -> entries_sound (fst (exec s inputs)).
Proof.
  revert s. induction inputs as [|i rest IH]; intros s C E; simpl.
  - exact E.
  - pose proof (step_consistent s i C) as C1.
    pose proof (step_entries_sound s i C E) as E1.
    destruct (step s i) as [s1 e1]. simpl in *. specialize (IH s1 C1 E1).
    destruct (exec s1 rest) as [s2 e2]. exact IH.
Qed.

(** X8.  In every state the server can reach, each entry of the registry
    is stored under its own path (so the [id] and the [path] of an item
    of a status frame or of [/api/running] are the same string), and the
    child it holds is one that [runProject] listens to for that path. *)
Theorem entries_are_stored_under_their_path :
  forall (inputs : list input) (k : string) (v : proc),
    Map_get (runningProcesses (fst (exec initial inputs))) k = Some v ->
    path v = k /\
    field "id" (status_entry (k, v)) = field "path" (status_entry (k, v)) /\
    exists ws,
      listeners_of (process v) (handlers (fst (exec initial inputs)))
      = Some (RunListeners ws k).
Proof.
  intros inputs k v G.
  destruct (exec_entries_sound inputs initial initial_consistent) with (k := k) (v := v)
    as [Pk [ws L]].
  - intros k0 v0 G0. discriminate.
  - exact G.
  - split; [exact Pk|]. split.
    + simpl. rewrite Pk. reflexivity.
    + exists ws. exact L.
Qed.

(** *** Where the frames of a process go *)

Lemma lacks_nil (f : json -> bool) : lacks f [].
Proof. intros c msg []. Qed.

Lemma lacks_send (f : json -> bool) (ws : conn) (msg : json) (es : list effect) :
  f msg = false -> lacks f es -> lacks f (Send ws msg :: es).
Proof.
  intros T Q c m [H|H]; [inversion H; subst; exact T | exact (Q c m H)].
Qed.

Lemma lacks_spawn (f : json -> bool) (ch : child) (file : string) (args : list string)
    (o : spawn_options) (es : list effect) :
  lacks f es -> lacks f (Spawn ch file args o :: es).
Proof.
  intros Q c m [H|H]; [discriminate | exact (Q c m H)].
Qed.

Lemma lacks_kill (f : json -> bool) (ch : child) (sig : string) (es : list effect) :
  lacks f es -> lacks f (Kill ch sig :: es).
Proof.
  intros Q c m [H|H]; [discriminate | exact (Q c m H)].
Qed.

Lemma lacks_app (f : json -> bool) (es1 es2 : list effect) :
  lacks f es1 -> lacks f es2 -> lacks f (es1 ++ es2).
Proof.
  intros Q1 Q2 c m H. apply in_app_or in H.
  destruct H as [H|H]; [exact (Q1 c m H) | exact (Q2 c m H)].
Qed.

Lemma lacks_broadcast (s : state) : lacks process_frame (broadcast s).
Proof.
  intros c msg H. unfold broadcast in H. apply in_map_iff in H.
  destruct H as [c' [E _]]. inversion E. reflexivity.
Qed.

Ltac lacks_list :=
  repeat first
    [ apply lacks_nil
    | apply lacks_broadcast
    | apply lacks_send; [reflexivity|]
    | apply lacks_spawn
    | apply lacks_kill
    | apply lacks_app
    | match goal with |- lacks _ (if ?b then _ else _) => destruct b end ].

Lemma on_message_lacks_process_frames (w : world) (ws : conn) (message : frame)
    (s : state) r s' es :
  on_message w ws message s = (r, s', es) -> lacks process_frame es.
Proof.
  unfold on_message, try_catch.
  destruct message as [e|data].
  { unfold throw, send. simpl. intros E; inversion E; subst. lacks_list. }
  assert (H : forall r0 s0 e0, handleCommand w ws data s = (r0, s0, e0) ->
                               lacks process_frame e0).
  { intros r0 s0 e0. unfold handleCommand.
    assert (HR : forall cmd, runProject w ws (projectPath data) (projectName data) cmd s
                             = (r0, s0, e0) -> lacks process_frame e0).
    { intros cmd. rewrite runProject_spec.
      destruct (Map_has (runningProcesses s) (projectPath data));
        [|destruct (spawn_oracle w)]; cbv zeta;
        intros E; inversion E; subst; lacks_list. }
    destruct (action data =? "run"); [apply HR|].
    destruct (action data =? "deploy"); [apply HR|].
    destruct (action data =? "install"); [apply HR|].
    destruct (action data =? "stop").
    { destruct (Map_get (runningProcesses s) (projectPath data)) as [v|] eqn:G.
      - rewrite (stopProject_present w ws _ s v G). unfold termination.
        destruct (platform =? "win32"); [destruct (spawn_oracle w)|];
          intros E; inversion E; subst; lacks_list.
      - assert (Hn : Map_has (runningProcesses s) (projectPath data) = false)
          by (unfold Map_has; rewrite G; reflexivity).
        rewrite (stopProject_absent w ws _ s Hn).
        intros E; inversion E; subst; lacks_list. }
    destruct (action data =? "open").
    { rewrite openFolder_spec. destruct (spawn_oracle w);
        intros E; inversion E; subst; lacks_list. }
    destruct (action data =? "clean").
    { destruct (existsSync w (path_join (projectPath data) "node_modules")) eqn:X.
      - rewrite (cleanProject_present _ _ _ _ _ X).
        destruct (spawn_oracle w); intros E; inversion E; subst; lacks_list.
      - rewrite (cleanProject_absent _ _ _ _ _ X).
        intros E; inversion E; subst; lacks_list. }
    unfold send. intros E; inversion E; subst; lacks_list. }
  destruct (handleCommand w ws data s) as [[r0 s0] e0] eqn:HC.
  specialize (H _ _ _ eq_refl).
  destruct r0; unfold send; simpl; intros E; inversion E; subst; try exact H.
  apply lacks_app; [exact H | lacks_list].
Qed.

Lemma step_process_frames (s : state) (i : input) (c : conn) (msg : json) :
  In (Send c msg) (snd (step s i)) -> process_frame msg = true ->
  exists ch p,
    listeners_of ch (handlers s) = Some (RunListeners c p) /\
    field "projectPath" msg = Some (JStr p).
Proof.
  unfold step. destruct (alive s); [|intros []].
  destruct i as [ws|ws|ws message w|ch data|ch data|ch e|ch code].
  - intros [].
  - intros [].
  - unfold run_listener.
    destruct (on_message w ws message s) as [[r0 s0] e0] eqn:H.
    pose proof (on_message_lacks_process_frames _ _ _ _ _ _ _ H) as Q.
    destruct r0; simpl; intros Hin T; rewrite (Q c msg Hin) in T; discriminate.
  - unfold run_listener, child_stdout, bind, attached, send, ret.
    destruct (listeners_of ch (handlers s)) as [[ws p|? ? ?]|] eqn:L; simpl;
      intros Hin T; try contradiction.
    destruct Hin as [Hin|[]]. inversion Hin; subst. exists ch, p. split; [exact L | reflexivity].
  - unfold run_listener, child_stderr, bind, attached, send, ret.
    destruct (listeners_of ch (handlers s)) as [[ws p|? ? ?]|] eqn:L; simpl;
      intros Hin T; try contradiction.
    destruct Hin as [Hin|[]]. inversion Hin; subst. exists ch, p. split; [exact L | reflexivity].
  - unfold run_listener, child_error, bind, attached, send, delete, broadcastStatus,
      with_running, throw.
    destruct (listeners_of ch (handlers s)) as [[ws p|? ? ?]|] eqn:L; simpl;
      intros Hin T; try contradiction.
    destruct Hin as [Hin|Hin].
    + inversion Hin; subst. discriminate.
    + apply in_map_iff in Hin. destruct Hin as [c' [E _]]. inversion E; subst. discriminate.
  - unfold run_listener, child_close, bind, attached, send, delete, broadcastStatus,
      with_running, ret.
    destruct (listeners_of ch (handlers s)) as [[ws p|ws p n]|] eqn:L; simpl.
    + intros Hin T. destruct Hin as [Hin|Hin].
      * inversion Hin; subst. exists ch, p. split; [exact L | reflexivity].
      * apply in_map_iff in Hin. destruct Hin as [c' [E _]]. inversion E; subst.
        discriminate.
    + destruct (code_is_zero code); simpl; intros [Hin|[]] T;
        inversion Hin; subst; discriminate.
    + intros [].
Qed.

Lemma started_in_mono (past more : list input) (c : conn) (p : string) :
  started_in past c p -> started_in (past ++ more) c p.
Proof.
  intros [data [w [H1 H2]]]. exists data, w. split; [|exact H2].
  apply in_or_app. left. exact H1.
Qed.

Lemma exec_process_frames (inputs past : list input) (s : state) :
  consistent s ->
  (forall ch c p, listeners_of ch (handlers s) = Some (RunListeners c p) ->
                  started_in past c p) ->
  forall c msg,
    In (Send c msg) (snd (exec s inputs)) -> process_frame msg = true ->
    exists p, started_in (past ++ inputs) c p /\
              field "projectPath" msg = Some (JStr p).
Proof.
  revert past s. induction inputs as [|i rest IH]; intros past s C J c msg Hin T.
  - simpl in Hin. contradiction.
  - simpl in Hin.
    pose proof (step_consistent s i C) as C1.
    pose proof (step_process_frames s i c msg) as SP.
    pose proof (step_shape s i) as Sh.
    destruct (step s i) as [s1 e1] eqn:E1. simpl in *.
    destruct (exec s1 rest) as [s2 e2] eqn:E2. simpl in Hin.
    apply in_app_or in Hin. destruct Hin as [Hin|Hin].
    + destruct (SP Hin T) as [ch [p [L Fp]]].
      exists p. split; [|exact Fp]. apply started_in_mono. exact (J ch c p L).
    + assert (J1 : forall ch c p,
                 listeners_of ch (handlers s1) = Some (RunListeners c p) ->
                 started_in (past ++ [i]) c p).
      { intros ch c0 p L.
        destruct Sh as [Sh | [Sh | [Sh | Sh]]];
          [ destruct Sh as [_ Hh]
          | destruct Sh as [ws [data [w [pid [Ei [St [_ [_ Hh]]]]]]]]
          | destruct Sh as [q [_ Hh]]
          | destruct Sh as [ws [q [n [_ Hh]]]] ];
          rewrite Hh in L.
        - apply started_in_mono. exact (J ch c0 p L).
        - simpl in L. rewrite listeners_of_app in L.
          destruct (listeners_of ch (handlers s)) as [x|] eqn:Lo.
          + inversion L; subst x. apply started_in_mono. exact (J ch c0 p Lo).
          + destruct (Nat.eqb (next_child s) ch); [|discriminate].
            inversion L; subst. exists data, w.
            split; [apply in_or_app; right; left; reflexivity|].
            split; [exact St | reflexivity].
        - apply started_in_mono. exact (J ch c0 p L).
        - rewrite listeners_of_app in L.
          destruct (listeners_of ch (handlers s)) as [x|] eqn:Lo.
          + inversion L; subst x. apply started_in_mono. exact (J ch c0 p Lo).
          + destruct (Nat.eqb (next_child s) ch); discriminate. }
      specialize (IH (past ++ [i])%list s1 C1 J1 c msg).
      rewrite E2 in IH. simpl in IH.
      rewrite <- app_assoc in IH. exact (IH Hin T).
Qed.

(** X4.  In any run of the server, a [stdout], [stderr] or [exit] frame
    goes only to a connection that earlier in the run sent a start
    command ([run], [deploy] or [install]) for the very path the frame
    carries; no other connection is sent the output of a process. *)
Theorem process_frames_go_to_the_starter :
  forall (inputs : list input) (c : conn) (msg : json),
    In (Send c msg) (snd (exec initial inputs)) ->
    process_frame msg = true ->
    exists data w,
      In (Message c (Parsed data) w) inputs /\
      is_start (action data) = true /\
      field "projectPath" msg = Some (JStr (projectPath data)).
Proof.
  intros inputs c msg Hin T.
  destruct (exec_process_frames inputs [] initial initial_consistent) with (c := c) (msg := msg)
    as [p [[data [w [H1 [H2 H3]]]] Fp]].
  - intros ch c0 p L. discriminate.
  - exact Hin.
  - exact T.
  - exists data, w. simpl in H1. split; [exact H1|]. split; [exact H2|].
    rewrite H3. exact Fp.
Qed.

(** *** Children nobody listens to for errors *)

Lemma exec_dead (inputs : list input) (s : state) :
  alive s = false -> exec s inputs = (s, []).
Proof.
  intros D. induction inputs as [|i rest IH]; simpl.
  - reflexivity.
  - unfold step. rewrite D. rewrite IH. reflexivity.
Qed.

Lemma step_error_unlistened (s : state) (c : child) (e : string) :
  alive s = true ->
  (forall ws p, listeners_of c (handlers s) <> Some (RunListeners ws p)) ->
  step s (ChildError c e) = (crash s, []).
Proof.
  intros A N. unfold step. rewrite A.
  unfold run_listener, child_error, bind, attached, throw.
  destruct (listeners_of c (handlers s)) as [[ws p|ws p n]|] eqn:L; simpl.
  - exfalso. exact (N ws p eq_refl).
  - reflexivity.
  - reflexivity.
Qed.

(** X7.  [openFolder] and [cleanProject] attach no [error] listener to
    the child they spawn.  After an [open], or a [clean] of a project
    that has [node_modules], the [error] event of that child (a launch
    that failed) is thrown by the emitter and nothing catches it: the
    server is dead, no frame is sent to anyone, and no later input is
    answered.  For [open] the caller has by then been told that the
    folder was opened. *)
Theorem error_of_unlistened_child_ends_the_server :
  forall (s : state) (ws : conn) (data : command_message) (w : world)
         (pid : option Z) (e : string) (later : list input),
    reachable s -> alive s = true ->
    action data = "open" \/
    (action data = "clean" /\
     existsSync w (path_join (projectPath data) "node_modules") = true) ->
    spawn_oracle w = SpawnReturns pid ->
    exists s1 es,
      step s (Message ws (Parsed data) w) = (s1, es) /\
      alive s1 = true /\
      (action data = "open" ->
       es = [Spawn (next_child s) file_manager [projectPath data] Detached;
             Send ws (opened_event (projectPath data))]) /\
      step s1 (ChildError (next_child s) e) = (crash s1, []) /\
      exec (crash s1) later = (crash s1, []).
Proof.
  intros s ws data w pid e later R A Act O.
  destruct (reachable_consistent s R) as [_ F].
  destruct Act as [Op | [Cl X]].
  - exists (after_spawn s). eexists.
    assert (E : step s (Message ws (Parsed data) w)
                = (after_spawn s,
                   [Spawn (next_child s) file_manager [projectPath data] Detached;
                    Send ws (opened_event (projectPath data))])).
    { rewrite step_message by exact A.
      unfold on_message, try_catch, run_listener, handleCommand. rewrite Op. simpl.
      rewrite openFolder_spec, O. reflexivity. }
    split; [exact E|]. split; [exact A|]. split; [reflexivity|].
    split.
    + apply step_error_unlistened; [exact A|].
      intros ws' p. simpl. rewrite (F (next_child s)) by lia. discriminate.
    + apply exec_dead. reflexivity.
  - exists (cleaning s ws (projectPath data) (projectName data)). eexists.
    split.
    { rewrite step_message by exact A.
      unfold on_message, try_catch, run_listener, handleCommand. rewrite Cl. simpl.
      rewrite (cleanProject_present _ _ _ _ _ X), O. reflexivity. }
    split; [exact A|].
    split; [intros Op; rewrite Op in Cl; discriminate|].
    split.
    + apply step_error_unlistened; [exact A|].
      intros ws' p. simpl. rewrite listeners_of_app.
      rewrite (F (next_child s)) by lia. rewrite Nat.eqb_refl. discriminate.
    + apply exec_dead. reflexivity.
Qed.

(** *** The order of the status list *)





(** ** Properties of the HTTP facade *)

Section FacadeProperties.

Variable dirname : string.
Variable extname : string -> string.

Lemma on_request_rescan (d : disk) (x : site) :
  alive (supervisor x) = true ->
  on_request dirname extname d {| method := "POST"; url := "/api/rescan" |} x =
  match loadProjects d x with
  | None => (down x, None)
  | Some x' =>
      match length_of (projects_of (projectsData x')) with
      | Raised => (down x', None)
      | count =>
          (x', Some {| statusCode := 200; headers := json_headers;
                       content := DocumentBody (rescan_answer count) |})
      end
  end.
Proof.
  intros A. unfold on_request. rewrite A. reflexivity.
Qed.

Lemma on_request_projects (d : disk) (m : string) (x : site) :
  alive (supervisor x) = true ->
  (m =? "OPTIONS") = false ->
  on_request dirname extname d {| method := m; url := "/api/projects" |} x =
  (x, Some {| statusCode := 200; headers := json_headers;
              content := DocumentBody (projectsData x) |}).
Proof.
  intros A M. unfold on_request. rewrite A. simpl. rewrite M. reflexivity.
Qed.

(** X10.  Reload, then list.  When the snapshot file holds a document
    whose [projects] is an array, [POST /api/rescan] answers success
    with the number of its items and [/api/projects] then answers that
    very document, whatever snapshot was held before and whatever the
    file has become by then. *)
Theorem rescan_then_list_gives_the_new_snapshot :
  forall (d d' : disk) (x : site) (doc : jsvalue) (items : list jsvalue) (m : string),
    alive (supervisor x) = true ->
    snapshot d = SnapshotHolds doc ->
    projects_of doc = Got (VArr items) ->
    (m =? "OPTIONS") = false ->
    serve dirname extname x
          [(d, {| method := "POST"; url := "/api/rescan" |});
           (d', {| method := m; url := "/api/projects" |})]
    = ({| supervisor := supervisor x; projectsData := doc |},
       [Some {| statusCode := 200; headers := json_headers;
                content := DocumentBody
                             (VObj [("success", VBool true);
                                    ("count", VNum (Z.of_nat (List.length items)))]) |};
        Some {| statusCode := 200; headers := json_headers;
                content := DocumentBody doc |}]).
Proof.
  intros d d' x doc items m A S P M. cbn [serve].
  rewrite (on_request_rescan d x A). unfold loadProjects. rewrite S.
  cbn [projectsData]. rewrite P. cbn [length_of rescan_answer].
  rewrite on_request_projects by assumption. reflexivity.
Qed.

(** X11.  A snapshot file that is gone goes unnoticed: [loadProjects]
    keeps the snapshot it has, so [POST /api/rescan] still answers
    success, with the count of the old snapshot, and [/api/projects]
    keeps answering the old document.  A server started without the
    file holds the empty list of projects. *)
Theorem rescan_without_file_keeps_the_old_snapshot :
  forall (d d' : disk) (x : site) (items : list jsvalue) (m : string),
    alive (supervisor x) = true ->
    snapshot d = SnapshotAbsent ->
    projects_of (projectsData x) = Got (VArr items) ->
    (m =? "OPTIONS") = false ->
    serve dirname extname x
          [(d, {| method := "POST"; url := "/api/rescan" |});
           (d', {| method := m; url := "/api/projects" |})]
    = (x,
       [Some {| statusCode := 200; headers := json_headers;
                content := DocumentBody
                             (VObj [("success", VBool true);
                                    ("count", VNum (Z.of_nat (List.length items)))]) |};
        Some {| statusCode := 200; headers := json_headers;
                content := DocumentBody (projectsData x) |}]) /\
    boot d = Some {| supervisor := initial;
                     projectsData := VObj [("projects", VArr [])] |}.
Proof.
  intros d d' x items m A S P M. split.
  - cbn [serve].
    rewrite (on_request_rescan d x A). unfold loadProjects. rewrite S.
    rewrite P. cbn [length_of rescan_answer].
    rewrite on_request_projects by assumption. reflexivity.
  - unfold boot, loadProjects. rewrite S. reflexivity.
Qed.

Lemma serve_down (requests : list (disk * http_request)) (x : site) :
  alive (supervisor x) = false ->
  serve dirname extname x requests = (x, map (fun _ => None) requests).
Proof.
  intros D. induction requests as [|[d req] rest IH]; simpl.
  - reflexivity.
  - unfold on_request. rewrite D. simpl. rewrite IH. reflexivity.
Qed.

(** X12.  [POST /api/rescan] is answered only if the snapshot file can
    be read, parsed and counted.  When reading or parsing it throws, or
    when the document has no [projects] whose [length] can be taken
    (the document is [null] or not an object, or [projects] is missing
    or [null]), the exception escapes the request listener: no response
    is sent, the server is dead, and no later request nor WebSocket
    input is answered. *)
Theorem rescan_of_bad_snapshot_ends_the_server :
  forall (d : disk) (x : site) (later : list (disk * http_request)) (inputs : list input),
    alive (supervisor x) = true ->
    (exists e, snapshot d = SnapshotThrows e) \/
    (exists doc, snapshot d = SnapshotHolds doc /\
                 length_of (projects_of doc) = Raised) ->
    exists x',
      on_request dirname extname d {| method := "POST"; url := "/api/rescan" |} x
        = (x', None) /\
      alive (supervisor x') = false /\
      runningProcesses (supervisor x') = runningProcesses (supervisor x) /\
      serve dirname extname x' later = (x', map (fun _ => None) later) /\
      exec (supervisor x') inputs = (supervisor x', []).
Proof.
  intros d x later inputs A [[e S] | [doc [S L]]].
  - exists (down x). rewrite (on_request_rescan d x A).
    unfold loadProjects. rewrite S.
    split; [reflexivity|]. split; [reflexivity|]. split; [reflexivity|].
    split; [apply serve_down; reflexivity | apply exec_dead; reflexivity].
  - exists (down {| supervisor := supervisor x; projectsData := doc |}).
    rewrite (on_request_rescan d x A).
    unfold loadProjects. rewrite S. cbn [projectsData]. rewrite L.
    split; [reflexivity|]. split; [reflexivity|]. split; [reflexivity|].
    split; [apply serve_down; reflexivity | apply exec_dead; reflexivity].
Qed.

(** X13.  Only [POST /api/rescan] can change anything.  Every other
    request leaves the snapshot and the supervisor exactly as they
    were; in particular [/api/rescan] asked with another method does not
    reload: it is served as the file of that name, a 404 when there is
    none.  And no request at all touches the registry, the clients or
    the listeners. *)
Theorem only_post_rescan_changes_the_site :
  forall (d : disk) (req : http_request) (x : site),
    (fst (on_request dirname extname d req x) = x \/
     (method req = "POST" /\ url req = "/api/rescan")) /\
    runningProcesses (supervisor (fst (on_request dirname extname d req x)))
      = runningProcesses (supervisor x) /\
    clients (supervisor (fst (on_request dirname extname d req x)))
      = clients (supervisor x) /\
    handlers (supervisor (fst (on_request dirname extname d req x)))
      = handlers (supervisor x) /\
    (alive (supervisor x) = true ->
     url req = "/api/rescan" ->
     (method req =? "POST") = false -> (method req =? "OPTIONS") = false ->
     readFile d (path_join dirname "/api/rescan") = ReadFails "ENOENT" ->
     on_request dirname extname d req x
     = (x, Some {| statusCode := 404; headers := cors;
                   content := TextBody "Not Found" |})).
Proof.
  intros d req x.
  assert (Main : fst (on_request dirname extname d req x) = x \/
                 (method req = "POST" /\ url req = "/api/rescan") /\
                 exists doc a,
                   fst (on_request dirname extname d req x)
                   = {| supervisor :=
                          {| runningProcesses := runningProcesses (supervisor x);
                             clients := clients (supervisor x);
                             handlers := handlers (supervisor x);
                             next_child := next_child (supervisor x);
                             alive := a |};
                        projectsData := doc |}).
  { unfold on_request.
    destruct (alive (supervisor x)); [|left; reflexivity]. simpl.
    destruct (method req =? "OPTIONS"); [left; reflexivity|].
    destruct (url req =? "/api/projects"); [left; reflexivity|].
    destruct (url req =? "/api/running"); [left; reflexivity|].
    destruct (String.eqb_spec (url req) "/api/rescan") as [U|U];
      [destruct (String.eqb_spec (method req) "POST") as [P|P]|]; simpl.
    - right. split; [split; assumption|].
      unfold loadProjects.
      destruct (snapshot d) as [|e|doc]; simpl.
      + destruct (length_of (projects_of (projectsData x))); simpl;
          destruct x as [[m c h n a] pd]; simpl; eexists; eexists; reflexivity.
      + destruct x as [[m c h n a] pd]; simpl; eexists; eexists; reflexivity.
      + destruct (length_of (projects_of doc)); simpl;
          destruct x as [[m c h n a] pd]; simpl; eexists; eexists; reflexivity.
    - left. destruct (readFile d (static_path dirname (url req)));
        [destruct (code =? "ENOENT")|]; reflexivity.
    - left. destruct (readFile d (static_path dirname (url req)));
        [destruct (code =? "ENOENT")|]; reflexivity. }
  split; [destruct Main as [H|[H _]]; [left; exact H | right; exact H]|].
  split; [destruct Main as [H|[_ [doc [a H]]]]; rewrite H; reflexivity|].
  split; [destruct Main as [H|[_ [doc [a H]]]]; rewrite H; reflexivity|].
  split; [destruct Main as [H|[_ [doc [a H]]]]; rewrite H; reflexivity|].
  intros A U P O Rd. unfold on_request. rewrite A, U, P, O. simpl.
  unfold static_path. simpl. rewrite Rd. reflexivity.
Qed.


End FacadeProperties.

(** ** Properties of the listener on frames of any shape *)

Section WireProperties.

Variable number : Type.
Variable is_zero : number -> bool.
Variable String_number : number -> string.
Variable String_object : jsdata number -> option string.

Lemma fine_ret (Q : conn -> jsdata number -> Prop) (T : string -> Prop) (A : Type) (a : A) :
  fine number Q T (js_ret number a).
Proof.
  intros s r s' es E. inversion E; subst. split.
  - intros c msg [].
  - intros e H. discriminate.
Qed.

Lemma fine_throw (Q : conn -> jsdata number -> Prop) (T : string -> Prop) (A : Type) (e : string) :
  T e -> fine number Q T (@js_throw number A e).
Proof.
  intros Te s r s' es E. inversion E; subst. split.
  - intros c msg [].
  - intros e0 H. inversion H; subst. exact Te.
Qed.

Lemma fine_diverge (Q : conn -> jsdata number -> Prop) (T : string -> Prop) (A : Type) :
  fine number Q T (@js_diverge number A).
Proof.
  intros s r s' es E. inversion E; subst. split.
  - intros c msg [].
  - intros e H. discriminate.
Qed.

Lemma fine_send (Q : conn -> jsdata number -> Prop) (T : string -> Prop) (ws : conn)
    (msg : jsdata number) :
  Q ws msg -> fine number Q T (js_send number ws msg).
Proof.
  intros Qm s r s' es E. inversion E; subst. split.
  - intros c m [H|[]]. inversion H; subst. exact Qm.
  - intros e H. discriminate.
Qed.

Lemma fine_bind (Q : conn -> jsdata number -> Prop) (T : string -> Prop) (A B : Type)
    (m : W number A) (k : A -> W number B) :
  fine number Q T m -> (forall a, fine number Q T (k a)) ->
  fine number Q T (js_bind number m k).
Proof.
  intros Fm Fk s r s' es. unfold js_bind.
  destruct (m s) as [[r1 s1] e1] eqn:E1. destruct (Fm _ _ _ _ E1) as [Q1 T1].
  destruct r1 as [a|e|].
  - destruct (k a s1) as [[r2 s2] e2] eqn:E2. destruct (Fk a _ _ _ _ E2) as [Q2 T2].
    intros E; inversion E; subst. split.
    + intros c msg H. apply in_app_or in H. destruct H as [H|H]; eauto.
    + exact T2.
  - intros E; inversion E; subst. split.
    + exact Q1.
    + intros e0 H. inversion H; subst. apply T1. reflexivity.
  - intros E; inversion E; subst. split.
    + exact Q1.
    + intros e0 H. discriminate.
Qed.

Lemma fine_weaken (Q Q' : conn -> jsdata number -> Prop) (T : string -> Prop) (A : Type)
    (m : W number A) :
  (forall c msg, Q c msg -> Q' c msg) -> fine number Q T m -> fine number Q' T m.
Proof.
  intros I F s r s' es E. destruct (F _ _ _ _ E) as [Hq Ht]. split.
  - intros c msg H. apply I. exact (Hq c msg H).
  - exact Ht.
Qed.

Lemma fine_get (Q : conn -> jsdata number -> Prop) (T : string -> Prop) (k : value number) :
  fine number Q T (js_get number k).
Proof.
  destruct k as [[| b | n | p | items | fields]|]; try apply fine_ret.
  intros s r s' es E. inversion E; subst. split.
  - intros c msg [].
  - intros e H. discriminate.
Qed.

Lemma fine_has (Q : conn -> jsdata number -> Prop) (T : string -> Prop) (k : value number) :
  fine number Q T (js_has number k).
Proof.
  unfold js_has. apply fine_bind; [apply fine_get | intros a; apply fine_ret].
Qed.

Lemma fine_set (Q : conn -> jsdata number -> Prop) (T : string -> Prop) (k : string)
    (v : js_proc number) :
  fine number Q T (js_set number k v).
Proof.
  intros s r s' es E. inversion E; subst. split.
  - intros c msg [].
  - intros e H. discriminate.
Qed.

Lemma fine_delete (Q : conn -> jsdata number -> Prop) (T : string -> Prop) (k : value number) :
  fine number Q T (js_delete number k).
Proof.
  destruct k as [[| b | n | p | items | fields]|]; try apply fine_ret.
  intros s r s' es E. inversion E; subst. split.
  - intros c msg [].
  - intros e H. discriminate.
Qed.

Lemma fine_on (Q : conn -> jsdata number -> Prop) (T : string -> Prop) (c : child)
    (l : js_listeners number) :
  fine number Q T (js_on number c l).
Proof.
  intros s r s' es E. inversion E; subst. split.
  - intros c0 msg [].
  - intros e H. discriminate.
Qed.

Lemma fine_kill (Q : conn -> jsdata number -> Prop) (T : string -> Prop) (c : child) (sig : string) :
  fine number Q T (js_kill number c sig).
Proof.
  intros s r s' es E. inversion E; subst. split.
  - intros c0 msg [H|[]]. discriminate.
  - intros e H. discriminate.
Qed.

Lemma fine_spawn (Q : conn -> jsdata number -> Prop) (w : js_world number) (file : string)
    (args : list (value number)) (o : spawn_options) :
  fine number Q (raised number w) (js_spawn number w file args o).
Proof.
  unfold js_spawn. destruct (js_spawn_oracle number w) as [e|pid] eqn:O.
  - apply fine_throw. right. exact O.
  - intros s r s' es E. inversion E; subst. split.
    + intros c msg [H|[]]. discriminate.
    + intros e H. discriminate.
Qed.

Lemma fine_broadcast (T : string -> Prop) :
  fine number (to_anyone number (labelled number)) T (js_broadcastStatus number).
Proof.
  intros s r s' es E. inversion E; subst. split.
  - intros c msg H. apply in_map_iff in H. destruct H as [c' [E' _]].
    inversion E'; subst. left. reflexivity.
  - intros e H. discriminate.
Qed.

Lemma fine_includes_install (Q : conn -> jsdata number -> Prop) (w : js_world number)
    (command : value number) :
  fine number Q (raised number w) (js_includes_install number w command).
Proof.
  unfold js_includes_install.
  destruct command as [[| b | n | p | items | fields]|];
    first [apply fine_ret | apply fine_throw; left; reflexivity].
Qed.

Lemma fine_text (Q : conn -> jsdata number -> Prop) (T : string -> Prop) (e : string)
    (v : value number) :
  T e -> fine number Q T (js_text number String_number String_object e v).
Proof.
  intros Te. unfold js_text.
  destruct (text number String_number String_object v);
    [apply fine_ret | apply fine_throw; exact Te].
Qed.

(** A computation that starts by throwing. *)
Lemma fine_bind_thrown (Q : conn -> jsdata number -> Prop) (T : string -> Prop)
    (A B : Type) (m : W number A) (e : string) (k : A -> W number B) :
  (forall s, m s = (Throw e, s, [])) ->
  T e -> fine number Q T (js_bind number m k).
Proof.
  intros C Te s r s' es. unfold js_bind. rewrite C.
  intros E; inversion E; subst. split.
  - intros c msg [].
  - intros e0 H. inversion H; subst. exact Te.
Qed.

(** A computation that starts by reading a constant. *)
Lemma fine_bind_constant (Q : conn -> jsdata number -> Prop) (T : string -> Prop) (A B : Type)
    (m : W number A) (a : A) (k : A -> W number B) :
  (forall s, m s = (Normal a, s, [])) ->
  fine number Q T (k a) -> fine number Q T (js_bind number m k).
Proof.
  intros C F s r s' es. unfold js_bind. rewrite C.
  destruct (k a s) as [[r2 s2] e2] eqn:E2. destruct (F _ _ _ _ E2) as [Q2 T2].
  intros E; inversion E; subst. split; assumption.
Qed.

Ltac fine_step :=
  first
    [ apply fine_ret
    | apply fine_diverge
    | apply fine_has
    | apply fine_get
    | apply fine_set
    | apply fine_delete
    | apply fine_on
    | apply fine_kill
    | apply fine_spawn
    | apply fine_broadcast
    | apply fine_includes_install
    | apply fine_text; left; reflexivity
    | apply fine_send; first [right; reflexivity | left; reflexivity]
    | apply fine_bind; [|intros ?] ].

(** Every frame of [runProject] is a status or has [projectPath]: it
    sends nothing before [path.join] has accepted the path. *)
Lemma js_runProject_fine (fuel : nat) (w : js_world number) (ws : conn)
    (projectPath projectName command : value number) :
  fine number (to_anyone number (labelled number)) (raised number w)
       (js_runProject_fuel number String_number String_object fuel w ws projectPath projectName command).
Proof.
  revert command. induction fuel as [|fuel IH]; intros command.
  - apply fine_diverge.
  - cbn [js_runProject_fuel].
    destruct projectPath as [[| b | n | p | items | fields]|];
      try (apply (fine_bind_constant _ _ _ _ _ false);
           [intros s; reflexivity | apply fine_throw; left; reflexivity]).
    apply fine_bind; [apply fine_has|]. intros running.
    destruct running; [repeat fine_step|].
    apply fine_bind.
    { destruct (negb (js_existsSync number w (path_join p "node_modules")));
        repeat fine_step. }
    intros install_first. destruct install_first.
    + apply fine_bind; [apply fine_send; right; reflexivity|]. intros _. apply IH.
    + repeat fine_step.
Qed.

Lemma js_cleanProject_fine (w : js_world number) (ws : conn)
    (projectPath projectName : value number) :
  fine number (to_anyone number (labelled number)) (raised number w)
       (js_cleanProject number String_number String_object w ws projectPath projectName).
Proof.
  unfold js_cleanProject.
  destruct projectPath as [[| b | n | p | items | fields]|];
    try (apply fine_throw; left; reflexivity).
  destruct (negb (js_existsSync number w (path_join p "node_modules")));
    repeat fine_step.
Qed.

(** [stopProject] answers a command without path with a frame that has
    none; every other frame of it is a status or has [projectPath]. *)
Lemma js_stopProject_fine (w : js_world number) (ws : conn) (projectPath : value number) :
  fine number
       (fun c msg => labelled number msg \/
                     (c = ws /\ projectPath = None /\ msg = js_not_found number None))
       (raised number w)
       (js_stopProject number String_number String_object w ws projectPath).
Proof.
  unfold js_stopProject.
  destruct projectPath as [[| b | n | p | items | fields]|].
  1-3,5-6: apply (fine_bind_constant _ _ _ _ _ None);
    [intros s; reflexivity | apply fine_send; left; right; reflexivity].
  - apply (fine_weaken (to_anyone number (labelled number))); [intros c msg H; left; exact H|].
    apply fine_bind; [apply fine_get|]. intros found.
    destruct found as [proc|]; [|apply fine_send; right; reflexivity].
    destruct (platform =? "win32"); repeat fine_step.
  - apply (fine_bind_constant _ _ _ _ _ None);
      [intros s; reflexivity | apply fine_send; right; repeat split].
Qed.

Lemma js_openFolder_fine (w : js_world number) (ws : conn) (projectPath : value number) :
  fine number
       (fun c msg => labelled number msg \/
                     (c = ws /\ projectPath = None /\
                      msg = js_opened number None "undefined"))
       (raised number w)
       (js_openFolder number String_number String_object w ws projectPath).
Proof.
  unfold js_openFolder. apply fine_bind; [apply fine_spawn|]. intros _.
  destruct projectPath as [d|].
  - apply fine_bind; [apply fine_text; left; reflexivity|]. intros folder.
    apply fine_send. left. right. reflexivity.
  - apply (fine_bind_constant _ _ _ _ _ "undefined"); [intros s; reflexivity|].
    apply fine_send. right. repeat split.
Qed.
Lemma action_unknown (action : value number) :
  action_is number action "run" = false ->
  action_is number action "deploy" = false ->
  action_is number action "install" = false ->
  action_is number action "stop" = false ->
  action_is number action "open" = false ->
  action_is number action "clean" = false ->
  action_known number action = false.
Proof.
  destruct action as [[| b | n | a | items | fields]|]; try reflexivity.
  simpl. intros A1 A2 A3 A4 A5 A6. unfold recognized, is_start.
  rewrite A1, A2, A3, A4, A5, A6. reflexivity.
Qed.

(** What [handleCommand] may send for [data], and to whom. *)
Lemma js_handleCommand_fine (w : js_world number) (ws : conn) (data : jsdata number) :
  fine number
       (fun c msg =>
          labelled number msg \/
          (c = ws /\
           (pathless_answer number (JsParsed number data) msg \/
            exists e, msg = js_bare_error number e /\
                      unknown_action_error number String_number String_object data e)))
       (raised number w)
       (js_handleCommand number is_zero String_number String_object w ws data).
Proof.
  assert (Body :
    forall action projectPath projectName command : value number,
      fine number
        (fun c msg =>
           labelled number msg \/
           (c = ws /\
            ((projectPath = None /\
              ((action_is number action "stop" = true /\ msg = js_not_found number None) \/
               (action_is number action "open" = true /\
                msg = js_opened number None "undefined"))) \/
             exists e, msg = js_bare_error number e /\
                       action_known number action = false /\
                       exists unknown,
                         text number String_number String_object action = Some unknown /\
                         e = "Unknown action: " ++ unknown)))
        (raised number w)
        (if action_is number action "run" then
           js_runProject number String_number String_object w ws projectPath projectName
             (or_else number is_zero command "npm run dev")
         else if action_is number action "deploy" then
           js_runProject number String_number String_object w ws projectPath projectName
             (or_else number is_zero command "npm run deploy")
         else if action_is number action "install" then
           js_runProject number String_number String_object w ws projectPath projectName
             (str number "npm install")
         else if action_is number action "stop" then
           js_stopProject number String_number String_object w ws projectPath
         else if action_is number action "open" then
           js_openFolder number String_number String_object w ws projectPath
         else if action_is number action "clean" then
           js_cleanProject number String_number String_object w ws projectPath projectName
         else
           js_bind number
             (js_text number String_number String_object (js_type_error number w) action)
             (fun unknown =>
                js_send number ws
                  (stringify number
                     [("type", str number "error");
                      ("message", str number ("Unknown action: " ++ unknown))])))).
  { intros action projectPath projectName command.
    destruct (action_is number action "run") eqn:A1.
    { apply (fine_weaken (to_anyone number (labelled number)));
        [intros c msg H; left; exact H|].
      apply js_runProject_fine. }
    destruct (action_is number action "deploy") eqn:A2.
    { apply (fine_weaken (to_anyone number (labelled number)));
        [intros c msg H; left; exact H|].
      apply js_runProject_fine. }
    destruct (action_is number action "install") eqn:A3.
    { apply (fine_weaken (to_anyone number (labelled number)));
        [intros c msg H; left; exact H|].
      apply js_runProject_fine. }
    destruct (action_is number action "stop") eqn:A4.
    { eapply fine_weaken; [|apply js_stopProject_fine].
      intros c msg [H|[Hc [Hp Hm]]]; [left; exact H|].
      right. split; [exact Hc|]. left. split; [exact Hp|].
      left. split; [reflexivity | exact Hm]. }
    destruct (action_is number action "open") eqn:A5.
    { eapply fine_weaken; [|apply js_openFolder_fine].
      intros c msg [H|[Hc [Hp Hm]]]; [left; exact H|].
      right. split; [exact Hc|]. left. split; [exact Hp|].
      right. split; [reflexivity | exact Hm]. }
    destruct (action_is number action "clean") eqn:A6.
    { apply (fine_weaken (to_anyone number (labelled number)));
        [intros c msg H; left; exact H|].
      apply js_cleanProject_fine. }
    unfold js_text.
    destruct (text number String_number String_object action) as [unknown|] eqn:Tx.
    - apply (fine_bind_constant _ _ _ _ _ unknown); [intros s; reflexivity|].
      apply fine_send. right. split; [reflexivity|]. right.
      eexists. split; [reflexivity|].
      split; [apply action_unknown; assumption|].
      exists unknown. split; reflexivity.
    - apply (fine_bind_thrown _ _ _ _ _ (js_type_error number w));
        [intros s; reflexivity | left; reflexivity]. }
  destruct data as [| b | n | s0 | items | fields];
    [apply fine_throw; left; reflexivity | ..];
    apply Body.
Qed.

(** *** The recursion of [runProject] ends *)

Lemma halts_ret (A : Type) (a : A) : halts number (js_ret number a).
Proof. intros s. discriminate. Qed.

Lemma halts_throw (A : Type) (e : string) : halts number (@js_throw number A e).
Proof. intros s. discriminate. Qed.

Lemma halts_bind (A B : Type) (m : W number A) (k : A -> W number B) :
  halts number m -> (forall a, halts number (k a)) -> halts number (js_bind number m k).
Proof.
  intros Hm Hk s. unfold js_bind. specialize (Hm s).
  destruct (m s) as [[r1 s1] e1]. destruct r1 as [a|e|].
  - specialize (Hk a s1). destruct (k a s1) as [[r2 s2] e2]. exact Hk.
  - discriminate.
  - exfalso. apply Hm. reflexivity.
Qed.

Lemma halts_bind_constant (A B : Type) (m : W number A) (a : A) (k : A -> W number B) :
  (forall s, m s = (Normal a, s, [])) -> halts number (k a) ->
  halts number (js_bind number m k).
Proof.
  intros C Hk s. unfold js_bind. rewrite C. specialize (Hk s).
  destruct (k a s) as [[r2 s2] e2]. exact Hk.
Qed.

Lemma halts_get (k : value number) : halts number (js_get number k).
Proof.
  destruct k as [[| b | n | p | items | fields]|]; intros s; discriminate.
Qed.

Lemma halts_has (k : value number) : halts number (js_has number k).
Proof. apply halts_bind; [apply halts_get | intros a; apply halts_ret]. Qed.

Lemma halts_delete (k : value number) : halts number (js_delete number k).
Proof.
  destruct k as [[| b | n | p | items | fields]|]; intros s; discriminate.
Qed.

Lemma halts_spawn (w : js_world number) (file : string) (args : list (value number))
    (o : spawn_options) :
  halts number (js_spawn number w file args o).
Proof.
  unfold js_spawn. destruct (js_spawn_oracle number w); intros s; discriminate.
Qed.

Lemma halts_includes_install (w : js_world number) (command : value number) :
  halts number (js_includes_install number w command).
Proof.
  destruct command as [[| b | n | p | items | fields]|]; intros s; discriminate.
Qed.

Lemma halts_text (e : string) (v : value number) :
  halts number (js_text number String_number String_object e v).
Proof.
  unfold js_text. destruct (text number String_number String_object v);
    intros s0; discriminate.
Qed.

Ltac halts_step :=
  first
    [ apply halts_ret
    | apply halts_throw
    | apply halts_has
    | apply halts_get
    | apply halts_delete
    | apply halts_spawn
    | apply halts_includes_install
    | apply halts_text
    | (intros ?; discriminate)
    | apply halts_bind; [|intros ?] ].

(** An install is started at once: [npm install] includes [install]. *)
Lemma js_runProject_install_halts (fuel : nat) (w : js_world number) (ws : conn)
    (projectPath projectName : value number) :
  halts number
        (js_runProject_fuel number String_number String_object (S fuel) w ws
                            projectPath projectName (str number "npm install")).
Proof.
  cbn [js_runProject_fuel].
  apply halts_bind; [apply halts_has|]. intros running.
  destruct running; [repeat halts_step|].
  destruct projectPath as [[| b | n | p | items | fields]|]; try apply halts_throw.
  apply (halts_bind_constant _ _ _ false).
  { intros s. destruct (negb (js_existsSync number w (path_join p "node_modules")));
      reflexivity. }
  repeat halts_step.
Qed.

(** [runProject] calls itself at most once, so it returns or throws. *)
Lemma js_runProject_halts (w : js_world number) (ws : conn)
    (projectPath projectName command : value number) :
  halts number
        (js_runProject number String_number String_object w ws
                       projectPath projectName command).
Proof.
  unfold js_runProject. cbn [js_runProject_fuel].
  apply halts_bind; [apply halts_has|]. intros running.
  destruct running; [repeat halts_step|].
  destruct projectPath as [[| b | n | p | items | fields]|]; try apply halts_throw.
  apply halts_bind.
  { destruct (negb (js_existsSync number w (path_join p "node_modules")));
      repeat halts_step. }
  intros install_first. destruct install_first; [|repeat halts_step].
  apply halts_bind; [intros s; discriminate|]. intros _.
  apply (js_runProject_install_halts 0).
Qed.

(** Every listener comes to an end. *)
Lemma js_on_message_halts (w : js_world number) (ws : conn) (message : js_frame number) :
  halts number (js_on_message number is_zero String_number String_object w ws message).
Proof.
  assert (Handled : forall data,
            halts number
                  (js_handleCommand number is_zero String_number String_object w ws data)).
  { assert (Body :
      forall action projectPath projectName command : value number,
        halts number
          (if action_is number action "run" then
             js_runProject number String_number String_object w ws projectPath projectName
               (or_else number is_zero command "npm run dev")
           else if action_is number action "deploy" then
             js_runProject number String_number String_object w ws projectPath projectName
               (or_else number is_zero command "npm run deploy")
           else if action_is number action "install" then
             js_runProject number String_number String_object w ws projectPath projectName
               (str number "npm install")
           else if action_is number action "stop" then
             js_stopProject number String_number String_object w ws projectPath
           else if action_is number action "open" then
             js_openFolder number String_number String_object w ws projectPath
           else if action_is number action "clean" then
             js_cleanProject number String_number String_object w ws projectPath projectName
           else
             js_bind number
               (js_text number String_number String_object (js_type_error number w) action)
               (fun unknown =>
                  js_send number ws
                    (stringify number
                       [("type", str number "error");
                        ("message", str number ("Unknown action: " ++ unknown))])))).
    { intros action projectPath projectName command.
      destruct (action_is number action "run"); [apply js_runProject_halts|].
      destruct (action_is number action "deploy"); [apply js_runProject_halts|].
      destruct (action_is number action "install"); [apply js_runProject_halts|].
      destruct (action_is number action "stop").
      { unfold js_stopProject. apply halts_bind; [apply halts_get|]. intros found.
        destruct found as [proc|]; [|intros s; discriminate].
        destruct (platform =? "win32"); repeat halts_step. }
      destruct (action_is number action "open").
      { unfold js_openFolder. repeat halts_step. }
      destruct (action_is number action "clean").
      { unfold js_cleanProject.
        destruct projectPath as [[| b | n | p | items | fields]|]; try apply halts_throw.
        destruct (negb (js_existsSync number w (path_join p "node_modules")));
          repeat halts_step. }
      repeat halts_step. }
    intros data. destruct data as [| b | n | s0 | items | fields];
      [apply halts_throw | ..]; apply Body. }
  intros s. unfold js_on_message, js_try_catch.
  destruct message as [e|data].
  - discriminate.
  - specialize (Handled data s).
    destruct (js_handleCommand number is_zero String_number String_object w ws data s)
      as [[r0 s0] e0].
    destruct r0 as [[]|e|]; [discriminate | discriminate | exact Handled].
Qed.

(** The listeners of a child send only frames that are a status or
    have [projectPath]. *)
Lemma js_child_fine (i : js_input number) :
  match i with
  | JsChildStdout _ c data =>
      fine number (to_anyone number (labelled number)) (fun _ => True)
           (js_child_stdout number c data)
  | JsChildStderr _ c data =>
      fine number (to_anyone number (labelled number)) (fun _ => True)
           (js_child_stderr number c data)
  | JsChildError _ c e =>
      fine number (to_anyone number (labelled number)) (fun _ => True)
           (js_child_error number c e)
  | JsChildClose _ c code =>
      fine number (to_anyone number (labelled number)) (fun _ => True)
           (js_child_close number is_zero String_number String_object c code)
  | _ => True
  end.
Proof.
  assert (At : forall c, fine number (to_anyone number (labelled number))
                              (fun _ : string => True) (js_attached number c)).
  { intros c s r s' es E. inversion E; subst. split; [intros c0 msg []|trivial]. }
  destruct i; try exact I;
    unfold js_child_stdout, js_child_stderr, js_child_error, js_child_close;
    (apply fine_bind; [apply At|]); intros l;
    destruct l as [[ws p|ws p n]|];
    try (destruct (js_code_is_zero number is_zero code));
    repeat first
      [ apply fine_ret
      | apply fine_throw; exact I
      | apply fine_delete
      | apply fine_broadcast
      | apply fine_text; exact I
      | apply fine_send; first [right; reflexivity | left; reflexivity]
      | apply fine_bind; [|intros ?] ].
Qed.

(** The effects of a listener are those of its body. *)
Lemma js_run_listener_effects (m : W number unit) (s : js_state number) :
  exists r s', m s = (r, s', snd (js_run_listener number m s)).
Proof.
  unfold js_run_listener. destruct (m s) as [[r s'] es].
  exists r, s'. destruct r; reflexivity.
Qed.

(** The frames of the [message] listener: those of [handleCommand], and
    the error event of the [catch] for what it throws. *)
Lemma js_on_message_fine (w : js_world number) (ws : conn) (message : js_frame number) :
  fine number
       (fun c msg =>
          labelled number msg \/
          (c = ws /\
           (bare_answer number String_number String_object w message msg \/
            pathless_answer number message msg)))
       (fun _ => False)
       (js_on_message number is_zero String_number String_object w ws message).
Proof.
  intros s r s' es. unfold js_on_message, js_try_catch.
  destruct message as [e|data].
  - unfold js_throw, js_send. intros E. inversion E; subst. split.
    + intros c msg [H|[]]. inversion H; subst.
      right. split; [reflexivity|]. left. exists e. split; reflexivity.
    + intros e0 H. discriminate.
  - destruct (js_handleCommand number is_zero String_number String_object w ws data s)
      as [[r0 s0] e0] eqn:H.
    destruct (js_handleCommand_fine w ws data _ _ _ _ H) as [Hq Ht].
    assert (Handled : forall c msg, In (JsSend number c msg) e0 ->
              labelled number msg \/
              (c = ws /\
               (bare_answer number String_number String_object w
                            (JsParsed number data) msg \/
                pathless_answer number (JsParsed number data) msg))).
    { intros c msg Hin. destruct (Hq c msg Hin) as [L|[Hc [P|[e [Hm U]]]]].
      - left. exact L.
      - right. split; [exact Hc|]. right. exact P.
      - right. split; [exact Hc|]. left. exists e. split; [exact Hm|]. right. exact U. }
    destruct r0 as [[]|e|]; intros E; inversion E; subst; clear E.
    + split; [exact Handled | intros e H0; discriminate].
    + split; [|intros e0' H0; discriminate].
      intros c msg Hin. apply in_app_or in Hin. destruct Hin as [Hin|[Hin|[]]].
      * exact (Handled c msg Hin).
      * inversion Hin; subst. right. split; [reflexivity|]. left.
        exists e. split; [reflexivity|]. left. apply Ht. reflexivity.
    + split; [exact Handled | intros e H0; discriminate].
Qed.

(** An answer that is excused has no [projectPath]. *)
Lemma excused_answers_have_no_projectPath (w : js_world number)
    (message : js_frame number) (msg : jsdata number) :
  bare_answer number String_number String_object w message msg \/
  pathless_answer number message msg ->
  carries number "projectPath" msg = false.
Proof.
  intros [[e [-> _]]|P]; [reflexivity|].
  destruct message as [e|data]; [destruct P|].
  destruct P as [_ [[_ ->]|[_ ->]]]; reflexivity.
Qed.

(** C8, as the code has it.  Whatever the frames that arrive, every
    frame the server sends is a status, or has a [projectPath] field,
    or has none and answers the connection whose frame caused it, as
    one of these: the error event with a type and a message only, for a
    frame that did not parse, for an action [handleCommand] does not
    know, or for an exception raised while the command was handled
    ([spawn] threw, or a [TypeError]: [path.join] was given a path that
    is missing or not a string, the frame was [null], a name could not
    be converted to a string, or the command has no [includes]); or
    the answer of [stopProject] or [openFolder] to a command that has
    no [projectPath], from which [JSON.stringify] leaves the undefined
    field out.  A [projectPath] that is [null] or of another type is
    still a field of the frame.  (The listener always comes to an end,
    [js_on_message_halts], so no frame is missing from the account.) *)
Theorem frames_have_projectPath_unless_excused :
  forall (s : js_state number) (i : js_input number) (c : conn) (msg : jsdata number),
    In (JsSend number c msg)
       (snd (js_step number is_zero String_number String_object s i)) ->
    tagged number "status" msg = true \/
    carries number "projectPath" msg = true \/
    exists message w,
      i = JsMessage number c message w /\
      carries number "projectPath" msg = false /\
      (bare_answer number String_number String_object w message msg \/
       pathless_answer number message msg).
Proof.
  intros s i c msg. unfold js_step.
  destruct (js_alive number s); [|intros []].
  destruct i as [ws|ws|ws message w|ch data|ch data|ch e|ch code].
  - intros [].
  - intros [].
  - destruct (js_run_listener_effects
                (js_on_message number is_zero String_number String_object w ws message) s)
      as [r [s' E]].
    intros Hin. destruct (js_on_message_fine w ws message _ _ _ _ E) as [Hq _].
    destruct (Hq c msg Hin) as [[L|L]|[-> X]].
    + left. exact L.
    + right. left. exact L.
    + right. right. exists message, w. split; [reflexivity|].
      split; [exact (excused_answers_have_no_projectPath w message msg X) | exact X].
  - destruct (js_run_listener_effects (js_child_stdout number ch data) s) as [r [s' E]].
    intros Hin.
    destruct (js_child_fine (JsChildStdout number ch data) _ _ _ _ E) as [Hq _].
    destruct (Hq c msg Hin) as [L|L]; [left | right; left]; exact L.
  - destruct (js_run_listener_effects (js_child_stderr number ch data) s) as [r [s' E]].
    intros Hin.
    destruct (js_child_fine (JsChildStderr number ch data) _ _ _ _ E) as [Hq _].
    destruct (Hq c msg Hin) as [L|L]; [left | right; left]; exact L.
  - destruct (js_run_listener_effects (js_child_error number ch e) s) as [r [s' E]].
    intros Hin.
    destruct (js_child_fine (JsChildError number ch e) _ _ _ _ E) as [Hq _].
    destruct (Hq c msg Hin) as [L|L]; [left | right; left]; exact L.
  - destruct (js_run_listener_effects
                (js_child_close number is_zero String_number String_object ch code) s)
      as [r [s' E]].
    intros Hin.
    destruct (js_child_fine (JsChildClose number ch code) _ _ _ _ E) as [Hq _].
    destruct (Hq c msg Hin) as [L|L]; [left | right; left]; exact L.
Qed.
End WireProperties.

End Server.

(** * Concrete runs

    The properties above at explicit inputs, on a POSIX host, and the two
    runs on which the specification's wording fails. *)


(** C3, the case of a child that was handed back: the install of
    [failed_install], whose child has no pid. *)
Lemma spawn_failure_of_start_witness :
  reachable "linux" posix_join (fst (exec "linux" posix_join initial [Connection 1])) /\
  alive (fst (exec "linux" posix_join initial [Connection 1])) = true /\
  is_start "install" = true /\
  Map_has (runningProcesses (fst (exec "linux" posix_join initial [Connection 1]))) "/p"
    = false /\
  exists s1 es,
    step "linux" posix_join (fst (exec "linux" posix_join initial [Connection 1]))
         (Message 1 (request "install" "/p" "P" None) (world_of false (SpawnReturns None)))
      = (s1, es) /\
    Map_has (runningProcesses s1) "/p" = true /\
    (forall c, In c [1] -> In (Send c (status_message (runningProcesses s1))) es) /\
    status_lists "/p" (status_message (runningProcesses s1)) = true /\
    array_lists "/p" (api_running s1) = true /\
    forall e, exists s2,
      step "linux" posix_join s1 (ChildError 0 e)
        = (s2, Send 1 (process_error_event "/p" e) :: broadcast s2) /\
      Map_has (runningProcesses s2) "/p" = false /\
      status_lists "/p" (status_message (runningProcesses s2)) = false.
Proof.
  assert (R : reachable "linux" posix_join
                (fst (exec "linux" posix_join initial [Connection 1])))
    by (exists [Connection 1]; reflexivity).
  split; [exact R|]. split; [reflexivity|]. split; [reflexivity|].
  split; [reflexivity|].
  exact (spawn_failure_of_start "linux" posix_join
           (fst (exec "linux" posix_join initial [Connection 1]))
           (world_of false (SpawnReturns None)) 1
           {| action := "install"; projectPath := "/p"; projectName := "P";
              command := None |}
           R eq_refl eq_refl eq_refl).
Defined.

(** C4 after [demo_inputs]: the child of [/p] closes with code 1. *)
Lemma process_exit_reported_and_removed_witness :
  reachable "linux" posix_join (fst (exec "linux" posix_join initial demo_inputs)) /\
  alive (fst (exec "linux" posix_join initial demo_inputs)) = true /\
  listeners_of 0 (handlers (fst (exec "linux" posix_join initial demo_inputs)))
    = Some (RunListeners 1 "/p") /\
  exists s',
    step "linux" posix_join (fst (exec "linux" posix_join initial demo_inputs))
         (ChildClose 0 (Some 1%Z))
      = (s', Send 1 (exit_event "/p" (Some 1%Z)) :: broadcast s') /\
    is_type "exit" (exit_event "/p" (Some 1%Z)) = true /\
    field "projectPath" (exit_event "/p" (Some 1%Z)) = Some (JStr "/p") /\
    (forall z, Some 1%Z = Some z ->
               field "code" (exit_event "/p" (Some 1%Z)) = Some (JNum z)) /\
    Map_has (runningProcesses s') "/p" = false /\
    status_lists "/p" (status_message (runningProcesses s')) = false /\
    alive s' = true /\
    clients s' = clients (fst (exec "linux" posix_join initial demo_inputs)).
Proof.
  assert (R : reachable "linux" posix_join
                (fst (exec "linux" posix_join initial demo_inputs)))
    by (exists demo_inputs; reflexivity).
  split; [exact R|]. split; [reflexivity|]. split; [reflexivity|].
  exact (process_exit_reported_and_removed "linux" posix_join
           (fst (exec "linux" posix_join initial demo_inputs))
           0 (Some 1%Z) 1 "/p" R eq_refl eq_refl).
Defined.

(** C5: [/p] is started by client 1; a second client connects, the
    child prints, another project is stopped; client 2 then asks to
    deploy [/p]. *)
Lemma second_start_is_rejected_witness :
  reachable "linux" posix_join initial /\
  alive initial = true /\
  is_start "run" = true /\ is_start "deploy" = true /\
  undisturbed "linux" posix_join "/p"
    (fst (step "linux" posix_join initial
               (Message 1 (request "run" "/p" "P" None)
                        (world_of true (SpawnReturns (Some 4242%Z))))))
    [Connection 2; ChildStdout 0 "ready";
     Message 2 (request "stop" "/q" "Q" None) (world_of true (SpawnReturns None))]
    = true /\
  step "linux" posix_join
       (fst (exec "linux" posix_join
               (fst (step "linux" posix_join initial
                          (Message 1 (request "run" "/p" "P" None)
                                   (world_of true (SpawnReturns (Some 4242%Z))))))
               [Connection 2; ChildStdout 0 "ready";
                Message 2 (request "stop" "/q" "Q" None)
                        (world_of true (SpawnReturns None))]))
       (Message 2 (request "deploy" "/p" "P" None) (world_of true (SpawnReturns None)))
    = (fst (exec "linux" posix_join
              (fst (step "linux" posix_join initial
                         (Message 1 (request "run" "/p" "P" None)
                                  (world_of true (SpawnReturns (Some 4242%Z))))))
              [Connection 2; ChildStdout 0 "ready";
               Message 2 (request "stop" "/q" "Q" None)
                       (world_of true (SpawnReturns None))]),
       [Send 2 (already_running_event "/p" "P")]).
Proof.
  assert (R : reachable "linux" posix_join initial) by (exists []; reflexivity).
  split; [exact R|]. split; [reflexivity|]. split; [reflexivity|].
  split; [reflexivity|]. split; [reflexivity|].
  exact (proj1 (second_start_is_rejected "linux" posix_join initial "/p"
           1 {| action := "run"; projectPath := "/p"; projectName := "P"; command := None |}
           (world_of true (SpawnReturns (Some 4242%Z))) (Some 4242%Z)
           [Connection 2; ChildStdout 0 "ready";
            Message 2 (request "stop" "/q" "Q" None) (world_of true (SpawnReturns None))]
           2 {| action := "deploy"; projectPath := "/p"; projectName := "P"; command := None |}
           (world_of true (SpawnReturns None))
           R eq_refl eq_refl eq_refl eq_refl eq_refl eq_refl eq_refl eq_refl)).
Defined.

(** C6 for a project whose [node_modules] exists, in the initial state. *)
Lemma clean_reports_the_removal_witness :
  reachable "linux" posix_join initial /\
  alive initial = true /\
  exists s1,
    step "linux" posix_join initial
         (Message 1 (request "clean" "/p" "P" None)
                  (world_of true (SpawnReturns (Some 77%Z))))
      = (s1, [Send 1 (cleaning_event "/p" "P");
              Spawn 0 "rm" ["-rf"; "/p/node_modules"] ShellTrue]) /\
    forall code, exists msg,
      step "linux" posix_join s1 (ChildClose 0 code) = (s1, [Send 1 msg]) /\
      (code = Some 0%Z -> msg = cleaned_event "/p" "P") /\
      (code <> Some 0%Z -> msg = clean_failed_event "/p" "P") /\
      is_type "success" (cleaned_event "/p" "P") = true /\
      is_type "error" (clean_failed_event "/p" "P") = true.
Proof.
  assert (R : reachable "linux" posix_join initial) by (exists []; reflexivity).
  split; [exact R|]. split; [reflexivity|].
  exact (proj2 (clean_reports_the_removal "linux" posix_join initial 1
                  {| action := "clean"; projectPath := "/p"; projectName := "P";
                     command := None |}
                  (world_of true (SpawnReturns (Some 77%Z)))
                  R eq_refl eq_refl)
               eq_refl (Some 77%Z) eq_refl).
Defined.

(** C7 in the initial state. *)
Lemma stop_without_entry_is_not_found_witness :
  alive initial = true /\
  Map_has (runningProcesses initial) "/p" = false /\
  step "linux" posix_join initial
       (Message 1 (request "stop" "/p" "P" None) (world_of true (SpawnReturns None)))
    = (initial, [Send 1 (not_found_event "/p")]) /\
  is_type "error" (not_found_event "/p") = true.
Proof.
  split; [reflexivity|]. split; [reflexivity|].
  exact (stop_without_entry_is_not_found "linux" posix_join initial 1
           {| action := "stop"; projectPath := "/p"; projectName := "P"; command := None |}
           (world_of true (SpawnReturns None)) eq_refl eq_refl eq_refl).
Defined.

(** C9 on a frame with the unknown action [restart], followed by a
    [stop]. *)
Lemma malformed_frame_is_answered_to_its_sender_only_witness :
  alive (fst (exec "linux" posix_join initial demo_inputs)) = true /\
  malformed (request "restart" "/p" "P" None) = true /\
  step "linux" posix_join (fst (exec "linux" posix_join initial demo_inputs))
       (Message 2 (request "restart" "/p" "P" None) (world_of true (SpawnReturns None)))
    = (fst (exec "linux" posix_join initial demo_inputs),
       [Send 2 (bare_error_event "Unknown action: restart")]).
Proof.
  split; [reflexivity|]. split; [reflexivity|].
  exact (proj1 (malformed_frame_is_answered_to_its_sender_only "linux" posix_join
                  (fst (exec "linux" posix_join initial demo_inputs)) 2
                  (request "restart" "/p" "P" None)
                  (world_of true (SpawnReturns None)) [] eq_refl eq_refl)).
Defined.

(** C3 as the specification words it fails on [failed_install]: after
    the install command and before the child's [error] event the
    registry holds an entry for [/p], the status sent to the client
    lists it and so does [/api/running]; no error has been sent yet.
    The failure is reported, and the entry removed, by the [error]
    event. *)
Lemma failed_spawn_entry_is_listed :
  Map_has (runningProcesses (fst (exec "linux" posix_join initial failed_install))) "/p"
    = true /\
  snd (exec "linux" posix_join initial failed_install)
    = [Send 1 (start_event "/p" "P" "npm install");
       Spawn 0 "/bin/sh" ["-c"; "npm install"] (RunOptions "/p");
       Send 1 (status_message
                 [("/p", {| name := "P"; path := "/p"; pid := None; process := 0 |})])] /\
  status_lists "/p"
    (status_message [("/p", {| name := "P"; path := "/p"; pid := None; process := 0 |})])
    = true /\
  array_lists "/p" (api_running (fst (exec "linux" posix_join initial failed_install)))
    = true /\
  snd (step "linux" posix_join (fst (exec "linux" posix_join initial failed_install))
            (ChildError 0 "spawn /bin/sh ENOENT"))
    = [Send 1 (process_error_event "/p" "spawn /bin/sh ENOENT");
       Send 1 (status_message [])].
Proof.
  repeat split; reflexivity.
Qed.

(** * Concrete runs of the further properties *)

(** X1 after [demo_inputs]: client 2 stops [/p], which client 1 started. *)
Lemma stop_removes_entry_at_once_witness :
  reachable "linux" posix_join (fst (exec "linux" posix_join initial demo_inputs)) /\
  alive (fst (exec "linux" posix_join initial demo_inputs)) = true /\
  Map_get (runningProcesses (fst (exec "linux" posix_join initial demo_inputs))) "/p"
    = Some {| name := "P"; path := "/p"; pid := Some 4242%Z; process := 0 |} /\
  step "linux" posix_join (fst (exec "linux" posix_join initial demo_inputs))
       (Message 2 (request "stop" "/p" "ignored" None) (world_of true (SpawnReturns None)))
    = (stopped "linux" (fst (exec "linux" posix_join initial demo_inputs)) "/p",
       [Send 2 (stopping_event "/p" "P"); Kill 0 "SIGTERM";
        Send 1 (status_message []); Send 2 (status_message []);
        Send 2 (stopped_event "/p" "P")]).
Proof.
  assert (R : reachable "linux" posix_join
                (fst (exec "linux" posix_join initial demo_inputs)))
    by (exists demo_inputs; reflexivity).
  split; [exact R|]. split; [reflexivity|]. split; [reflexivity|].
  exact (proj1 (stop_removes_entry_at_once "linux" posix_join
                  (fst (exec "linux" posix_join initial demo_inputs)) 2
                  {| action := "stop"; projectPath := "/p"; projectName := "ignored";
                     command := None |}
                  (world_of true (SpawnReturns None))
                  {| name := "P"; path := "/p"; pid := Some 4242%Z; process := 0 |}
                  R eq_refl eq_refl eq_refl)).
Defined.

(** X2 after [restart_inputs]: the child of the first start (child 0)
    closes while the entry of [/p] holds the child of the second
    (child 1). *)
Lemma close_of_earlier_child_drops_later_entry_witness :
  reachable "linux" posix_join (fst (exec "linux" posix_join initial restart_inputs)) /\
  alive (fst (exec "linux" posix_join initial restart_inputs)) = true /\
  listeners_of 0 (handlers (fst (exec "linux" posix_join initial restart_inputs)))
    = Some (RunListeners 1 "/p") /\
  Map_get (runningProcesses (fst (exec "linux" posix_join initial restart_inputs))) "/p"
    = Some {| name := "P"; path := "/p"; pid := Some 4243%Z; process := 1 |} /\
  1 <> 0 /\
  exists s',
    step "linux" posix_join (fst (exec "linux" posix_join initial restart_inputs))
         (ChildClose 0 (Some 143%Z))
      = (s', Send 1 (exit_event "/p" (Some 143%Z)) :: broadcast s') /\
    Map_has (runningProcesses s') "/p" = false /\
    status_lists "/p" (status_message (runningProcesses s')) = false /\
    listeners_of 1 (handlers s')
      = listeners_of 1 (handlers (fst (exec "linux" posix_join initial restart_inputs))) /\
    (forall ws data w,
       action data = "stop" -> projectPath data = "/p" ->
       step "linux" posix_join s' (Message ws (Parsed data) w)
         = (s', [Send ws (not_found_event "/p")])) /\
    (forall ws data w pid,
       is_start (action data) = true -> projectPath data = "/p" ->
       spawn_oracle w = SpawnReturns pid ->
       fst (step "linux" posix_join s' (Message ws (Parsed data) w))
       = launched s' ws "/p" (projectName data) pid).
Proof.
  assert (R : reachable "linux" posix_join
                (fst (exec "linux" posix_join initial restart_inputs)))
    by (exists restart_inputs; reflexivity).
  assert (N : 1 <> 0) by discriminate.
  split; [exact R|]. split; [reflexivity|]. split; [reflexivity|].
  split; [reflexivity|]. split; [exact N|].
  exact (close_of_earlier_child_drops_later_entry "linux" posix_join
           (fst (exec "linux" posix_join initial restart_inputs)) 0 1 "/p"
           {| name := "P"; path := "/p"; pid := Some 4243%Z; process := 1 |}
           (Some 143%Z) R eq_refl eq_refl eq_refl N).
Defined.

(** X4 on the output of [/p], started by client 1 while client 2 is
    connected. *)
Lemma process_frames_go_to_the_starter_witness :
  In (Send 1 (stdout_event "/p" "ready"))
     (snd (exec "linux" posix_join initial (demo_inputs ++ [ChildStdout 0 "ready"]))) /\
  process_frame (stdout_event "/p" "ready") = true /\
  exists data w,
    In (Message 1 (Parsed data) w) (demo_inputs ++ [ChildStdout 0 "ready"]) /\
    is_start (action data) = true /\
    field "projectPath" (stdout_event "/p" "ready") = Some (JStr (projectPath data)).
Proof.
  assert (H : In (Send 1 (stdout_event "/p" "ready"))
                (snd (exec "linux" posix_join initial
                           (demo_inputs ++ [ChildStdout 0 "ready"])))).
  { vm_compute. right. right. right. right. left. reflexivity. }
  split; [exact H|]. split; [reflexivity|].
  exact (process_frames_go_to_the_starter "linux" posix_join
           (demo_inputs ++ [ChildStdout 0 "ready"]) 1 (stdout_event "/p" "ready")
           H eq_refl).
Defined.

(** X5 on [echo uninstalled], run for a project without [node_modules]. *)
Lemma install_in_command_skips_dependency_check_witness :
  alive initial = true /\
  is_start "run" = true /\
  Map_has (runningProcesses initial) "/p" = false /\
  includes "install" "echo uninstalled" = true /\
  existsSync (world_of false (SpawnReturns (Some 7%Z))) (posix_join "/p" "node_modules")
    = false /\
  step "linux" posix_join initial
       (Message 1 (request "run" "/p" "P" (Some "echo uninstalled"))
                (world_of false (SpawnReturns (Some 7%Z))))
    = (launched initial 1 "/p" "P" (Some 7%Z),
       [Send 1 (start_event "/p" "P" "echo uninstalled");
        Spawn 0 "/bin/sh" ["-c"; "echo uninstalled"] (RunOptions "/p")]).
Proof.
  split; [reflexivity|]. split; [reflexivity|]. split; [reflexivity|].
  split; [reflexivity|]. split; [reflexivity|].
  exact (install_in_command_skips_dependency_check "linux" posix_join initial 1
           {| action := "run"; projectPath := "/p"; projectName := "P";
              command := Some "echo uninstalled" |}
           (world_of false (SpawnReturns (Some 7%Z))) (Some 7%Z)
           eq_refl eq_refl eq_refl eq_refl eq_refl).
Defined.

(** X6 after [demo_inputs]: a start for [/q] leaves the entry of [/p]. *)
Lemma other_paths_are_untouched_witness :
  ends "/p" (fst (exec "linux" posix_join initial demo_inputs))
       (Message 2 (request "run" "/q" "Q" None) (world_of true (SpawnReturns (Some 9%Z))))
    = false /\
  Map_get (runningProcesses
             (fst (step "linux" posix_join
                        (fst (exec "linux" posix_join initial demo_inputs))
                        (Message 2 (request "run" "/q" "Q" None)
                                 (world_of true (SpawnReturns (Some 9%Z))))))) "/p"
  = Map_get (runningProcesses (fst (exec "linux" posix_join initial demo_inputs))) "/p".
Proof.
  split; [reflexivity|].
  apply (other_paths_are_untouched "linux" posix_join
           (fst (exec "linux" posix_join initial demo_inputs))
           (Message 2 (request "run" "/q" "Q" None)
                    (world_of true (SpawnReturns (Some 9%Z)))) "/p" eq_refl).
  intros ws data w E _. inversion E. discriminate.
Defined.

(** X7 for an [open] whose file manager cannot be launched. *)
Lemma error_of_unlistened_child_ends_the_server_witness :
  reachable "linux" posix_join initial /\
  alive initial = true /\
  exists s1 es,
    step "linux" posix_join initial
         (Message 1 (request "open" "/p" "P" None) (world_of true (SpawnReturns None)))
      = (s1, es) /\
    alive s1 = true /\
    ("open" = "open" ->
     es = [Spawn 0 "xdg-open" ["/p"] Detached; Send 1 (opened_event "/p")]) /\
    step "linux" posix_join s1 (ChildError 0 "spawn xdg-open ENOENT") = (crash s1, []) /\
    exec "linux" posix_join (crash s1)
         [Message 1 (request "run" "/p" "P" None) (world_of true (SpawnReturns None))]
      = (crash s1, []).
Proof.
  assert (R : reachable "linux" posix_join initial) by (exists []; reflexivity).
  split; [exact R|]. split; [reflexivity|].
  exact (error_of_unlistened_child_ends_the_server "linux" posix_join initial 1
           {| action := "open"; projectPath := "/p"; projectName := "P"; command := None |}
           (world_of true (SpawnReturns None)) None "spawn xdg-open ENOENT"
           [Message 1 (request "run" "/p" "P" None) (world_of true (SpawnReturns None))]
           R eq_refl (or_introl eq_refl) eq_refl).
Defined.

(** X8 on the entry of [/p] after [demo_inputs]. *)
Lemma entries_are_stored_under_their_path_witness :
  Map_get (runningProcesses (fst (exec "linux" posix_join initial demo_inputs))) "/p"
    = Some {| name := "P"; path := "/p"; pid := Some 4242%Z; process := 0 |} /\
  exists ws,
    listeners_of 0 (handlers (fst (exec "linux" posix_join initial demo_inputs)))
    = Some (RunListeners ws "/p").
Proof.
  split; [reflexivity|].
  exact (proj2 (proj2 (entries_are_stored_under_their_path "linux" posix_join
                         demo_inputs "/p"
                         {| name := "P"; path := "/p"; pid := Some 4242%Z; process := 0 |}
                         eq_refl))).
Defined.


(** X10 from the empty site, the file holding [demo_doc]. *)
Lemma rescan_then_list_gives_the_new_snapshot_witness :
  alive (supervisor empty_site) = true /\
  snapshot (disk_with (SnapshotHolds demo_doc)) = SnapshotHolds demo_doc /\
  serve posix_join "/srv" html_extname empty_site
        [(disk_with (SnapshotHolds demo_doc),
          {| method := "POST"; url := "/api/rescan" |});
         (disk_with SnapshotAbsent, {| method := "GET"; url := "/api/projects" |})]
  = ({| supervisor := initial; projectsData := demo_doc |},
     [Some {| statusCode := 200; headers := json_headers;
              content := DocumentBody (VObj [("success", VBool true); ("count", VNum 1)]) |};
      Some {| statusCode := 200; headers := json_headers;
              content := DocumentBody demo_doc |}]).
Proof.
  split; [reflexivity|]. split; [reflexivity|].
  exact (rescan_then_list_gives_the_new_snapshot posix_join "/srv" html_extname
           (disk_with (SnapshotHolds demo_doc)) (disk_with SnapshotAbsent) empty_site
           demo_doc
           [VObj [("name", VStr "P"); ("path", VStr "/p"); ("hasNodeModules", VBool true)]]
           "GET" eq_refl eq_refl eq_refl eq_refl).
Defined.

(** X11 for a site that holds [demo_doc] when the file has gone. *)
Lemma rescan_without_file_keeps_the_old_snapshot_witness :
  snapshot (disk_with SnapshotAbsent) = SnapshotAbsent /\
  serve posix_join "/srv" html_extname
        {| supervisor := initial; projectsData := demo_doc |}
        [(disk_with SnapshotAbsent, {| method := "POST"; url := "/api/rescan" |});
         (disk_with SnapshotAbsent, {| method := "GET"; url := "/api/projects" |})]
  = ({| supervisor := initial; projectsData := demo_doc |},
     [Some {| statusCode := 200; headers := json_headers;
              content := DocumentBody (VObj [("success", VBool true); ("count", VNum 1)]) |};
      Some {| statusCode := 200; headers := json_headers;
              content := DocumentBody demo_doc |}]).
Proof.
  split; [reflexivity|].
  exact (proj1 (rescan_without_file_keeps_the_old_snapshot posix_join "/srv" html_extname
                  (disk_with SnapshotAbsent) (disk_with SnapshotAbsent)
                  {| supervisor := initial; projectsData := demo_doc |}
                  [VObj [("name", VStr "P"); ("path", VStr "/p");
                         ("hasNodeModules", VBool true)]]
                  "GET" eq_refl eq_refl eq_refl eq_refl)).
Defined.

(** X12 for a file that holds the empty array instead of an object. *)
Lemma rescan_of_bad_snapshot_ends_the_server_witness :
  alive (supervisor empty_site) = true /\
  length_of (projects_of (VArr [])) = Raised /\
  exists x',
    on_request posix_join "/srv" html_extname (disk_with (SnapshotHolds (VArr [])))
               {| method := "POST"; url := "/api/rescan" |} empty_site
      = (x', None) /\
    alive (supervisor x') = false /\
    runningProcesses (supervisor x') = runningProcesses (supervisor empty_site) /\
    serve posix_join "/srv" html_extname x'
          [(disk_with SnapshotAbsent, {| method := "GET"; url := "/api/projects" |})]
      = (x', [None]) /\
    exec "linux" posix_join (supervisor x') [Connection 1] = (supervisor x', []).
Proof.
  split; [reflexivity|]. split; [reflexivity|].
  exact (rescan_of_bad_snapshot_ends_the_server "linux" posix_join "/srv" html_extname
           (disk_with (SnapshotHolds (VArr []))) empty_site
           [(disk_with SnapshotAbsent, {| method := "GET"; url := "/api/projects" |})]
           [Connection 1] eq_refl
           (or_intror (ex_intro _ (VArr []) (conj eq_refl eq_refl)))).
Defined.


(** * Concrete runs on frames of any shape *)

(** C8 on the answer to a [stop] that names no project. *)
Lemma frames_have_projectPath_unless_excused_witness :
  In (JsSend Z 1 (js_not_found Z None))
     (snd (integer_step "linux" posix_join (js_initial Z)
                        (js_message 1 (js_request [("action", DStr Z "stop")])))) /\
  (tagged Z "status" (js_not_found Z None) = true \/
   carries Z "projectPath" (js_not_found Z None) = true \/
   exists message w,
     js_message 1 (js_request [("action", DStr Z "stop")]) = JsMessage Z 1 message w /\
     carries Z "projectPath" (js_not_found Z None) = false /\
     (bare_answer Z show_number String_of w message (js_not_found Z None) \/
      pathless_answer Z message (js_not_found Z None))).
Proof.
  assert (H : In (JsSend Z 1 (js_not_found Z None))
     (snd (integer_step "linux" posix_join (js_initial Z)
                        (js_message 1 (js_request [("action", DStr Z "stop")])))))
    by (left; reflexivity).
  split; [exact H|].
  exact (frames_have_projectPath_unless_excused "linux" posix_join Z integer_is_zero
           show_number String_of _ _ _ _ H).
Defined.

(** C8 as the specification words it fails on five frames: one that
    does not parse, one with an unknown action, a [stop] and an [open]
    that name no project, and a [run] that names none.  Each is answered
    with an event that is not a status and has no [projectPath]. *)
Lemma answers_without_projectPath :
  (integer_step "linux" posix_join (js_initial Z)
                (js_message 1 (JsUnparsable Z "Unexpected end of JSON input"))
     = (js_initial Z, [JsSend Z 1 (js_bare_error Z "Unexpected end of JSON input")]) /\
   tagged Z "status" (js_bare_error Z "Unexpected end of JSON input") = false /\
   carries Z "projectPath" (js_bare_error Z "Unexpected end of JSON input") = false) /\
  (integer_step "linux" posix_join (js_initial Z)
                (js_message 1 (js_request [("action", DStr Z "restart");
                                           ("projectPath", DStr Z "/p")]))
     = (js_initial Z, [JsSend Z 1 (js_bare_error Z "Unknown action: restart")]) /\
   tagged Z "status" (js_bare_error Z "Unknown action: restart") = false /\
   carries Z "projectPath" (js_bare_error Z "Unknown action: restart") = false) /\
  (integer_step "linux" posix_join (js_initial Z)
                (js_message 1 (js_request [("action", DStr Z "stop")]))
     = (js_initial Z, [JsSend Z 1 (js_not_found Z None)]) /\
   tagged Z "status" (js_not_found Z None) = false /\
   tagged Z "error" (js_not_found Z None) = true /\
   carries Z "projectPath" (js_not_found Z None) = false) /\
  (snd (integer_step "linux" posix_join (js_initial Z)
                     (js_message 1 (js_request [("action", DStr Z "open")])))
     = [JsSpawn Z 0 "xdg-open" [None] Detached;
        JsSend Z 1 (js_opened Z None "undefined")] /\
   tagged Z "status" (js_opened Z None "undefined") = false /\
   tagged Z "info" (js_opened Z None "undefined") = true /\
   carries Z "projectPath" (js_opened Z None "undefined") = false) /\
  (integer_step "linux" posix_join (js_initial Z)
                (js_message 1 (js_request [("action", DStr Z "run");
                                           ("projectName", DStr Z "P")]))
     = (js_initial Z, [JsSend Z 1 (js_bare_error Z path_type_error)]) /\
   tagged Z "status" (js_bare_error Z path_type_error) = false /\
   carries Z "projectPath" (js_bare_error Z path_type_error) = false).
Proof.
  repeat split; reflexivity.
Qed.
